(** * A shallow embedding of the content-catalog server

    The development follows the three server-side layers of the repository:

    - [shared/schema.ts]: the four [pgTable] declarations and the insert
      schemas that [createInsertSchema] derives from them;
    - [server/storage.ts]: [DatabaseStorage], one method per statement;
    - [server/routes.ts]: one handler per verb and path;

    and the [handleSubmit] checks of the two upload forms.

    JavaScript objects (request bodies, validated data, rows) are finite maps
    from property names to values; an absent key is [undefined].  A string
    is the sequence of the bytes of its UTF-8 form.  The relational store is
    a record of row lists and sequences, and every storage method is a
    function in a state-and-exception monad over it.
    What the libraries do (zod, drizzle-zod, drizzle-orm, PostgreSQL) is
    written out where the handlers depend on it; each such place says so. *)

From Stdlib Require Import ZArith Lia Ascii.
From stdpp Require Import base option list gmap strings fin_maps sorting pretty.

Local Open Scope Z_scope.
#[global] Set Warnings "-register-all".

(** ** JavaScript values *)

(** The values that reach the handlers: the JSON values of a request body,
    and [Date] objects (made by [new Date(..)], never parsed from JSON).  A
    [Date] holds a time value in milliseconds, or no time value at all
    (JavaScript's [Invalid Date]).  Numbers are integers: the columns of the
    schema are all [integer] or [serial]. *)
Inductive jsval : Type :=
| JNull
| JBool (b : bool)
| JNum (n : Z)
| JStr (s : string)
| JArr (l : list jsval)
| JObj (l : list (string * jsval))
| JDate (t : option Z).

(** The result of [parseInt]: a number, or [NaN]. *)
Inductive jsnumber : Type :=
| Num (n : Z)
| NaN.

(** What the JavaScript engine provides: [Date.parse] (whose result on a
    string outside the ISO format is left to the engine; [None] is [NaN]),
    [Date.prototype.toISOString] on a time value, and the clock read by
    [new Date()] and by the store's [now()]. *)
Record runtime : Type := Runtime {
  Date_parse : string → option Z;
  Date_toISOString : Z → string;
  Date_now : Z;
}.

Module JS.

(** [ToString] of a value, as [new Date(v)] applies it to an array or an
    object: the elements of an array joined by commas, [null] inside an
    array printed as the empty string.  (The values it is applied to come
    from a request body, which holds no [Date]; the two [Date] cases are
    there for totality.) *)
Fixpoint toString (v : jsval) : string :=
  match v with
  | JNull => "null"
  | JBool b => if b then "true" else "false"
  | JNum n => pretty n
  | JStr s => s
  | JArr l =>
      let elem x := match x with JNull => "" | _ => toString x end in
      String.concat "," (map elem l)
  | JObj _ => "[object Object]"
  | JDate None => "Invalid Date"
  | JDate (Some t) => pretty t
  end.

(** The largest time value of a [Date]: 8.64e15 milliseconds. *)
Definition max_time : Z := 8640000000000000.

Definition time_clip (t : Z) : option Z :=
  if bool_decide (- max_time ≤ t ≤ max_time) then Some t else None.

(** [new Date(v)], [v] possibly [undefined]. *)
Definition new_Date (rt : runtime) (v : option jsval) : jsval :=
  match v with
  | None => JDate None
  | Some JNull => JDate (Some 0)
  | Some (JBool b) => JDate (Some (if b then 1 else 0))
  | Some (JNum n) => JDate (time_clip n)
  | Some (JStr s) => JDate (Date_parse rt s)
  | Some (JDate t) => JDate t
  | Some (JArr l) => JDate (Date_parse rt (toString (JArr l)))
  | Some (JObj l) => JDate (Date_parse rt (toString (JObj l)))
  end.

(** White space as [parseInt] and [trim] skip it: the [WhiteSpace] and
    [LineTerminator] characters of the language.  In UTF-8 such a character
    is one byte (tab, line feed, vertical tab, form feed, carriage return,
    space), two bytes (U+00A0) or three (U+1680, U+2000 to U+200A, U+2028,
    U+2029, U+202F, U+205F, U+3000 and U+FEFF). *)
Definition is_ws (a : ascii) : bool :=
  bool_decide (nat_of_ascii a ∈ [9; 10; 11; 12; 13; 32]%nat).

Definition is_ws2 (a b : ascii) : bool :=
  bool_decide (nat_of_ascii a = 194 ∧ nat_of_ascii b = 160)%nat.

Definition is_ws3 (a b c : ascii) : bool :=
  let x := nat_of_ascii a in
  let y := nat_of_ascii b in
  let z := nat_of_ascii c in
  bool_decide ((x = 225 ∧ y = 154 ∧ z = 128)
               ∨ (x = 226 ∧ y = 128 ∧ (128 ≤ z ≤ 138 ∨ z = 168 ∨ z = 169 ∨ z = 175))
               ∨ (x = 226 ∧ y = 129 ∧ z = 159)
               ∨ (x = 227 ∧ y = 128 ∧ z = 128)
               ∨ (x = 239 ∧ y = 187 ∧ z = 191))%nat.

(** The string without the white space it starts with. *)
Fixpoint skip_ws (s : string) : string :=
  match s with
  | String a s1 =>
      if is_ws a then skip_ws s1
      else
        match s1 with
        | String b s2 =>
            if is_ws2 a b then skip_ws s2
            else
              match s2 with
              | String c s3 => if is_ws3 a b c then skip_ws s3 else s
              | EmptyString => s
              end
        | EmptyString => s
        end
  | EmptyString => s
  end.

(** The value of a character as a digit, for radix 10 or 16. *)
Definition digit_val (radix : Z) (a : ascii) : option Z :=
  let c := Z.of_nat (nat_of_ascii a) in
  let d :=
    if bool_decide (48 ≤ c ≤ 57) then Some (c - 48)
    else if bool_decide (97 ≤ c ≤ 102) then Some (c - 87)
    else if bool_decide (65 ≤ c ≤ 70) then Some (c - 55)
    else None in
  match d with
  | Some n => if bool_decide (n < radix) then Some n else None
  | None => None
  end.

(** The longest prefix of digits, read left to right; [acc] is the value
    read so far, [None] before the first digit. *)
Fixpoint parse_digits (radix : Z) (s : string) (acc : option Z) : option Z :=
  match s with
  | String a s' =>
      match digit_val radix a with
      | Some d => parse_digits radix s' (Some (default 0 acc * radix + d))
      | None => acc
      end
  | EmptyString => acc
  end.

(** [parseInt(s)] with no radix argument: leading white space, a sign, a
    [0x] prefix, then the longest run of digits; what follows the digits is
    ignored, and no digit at all gives [NaN].  The number is exact:
    identifiers beyond the 32-bit range, where a double would round, are
    refused by the store anyway. *)
Definition parseInt (s : string) : jsnumber :=
  let s := skip_ws s in
  let '(neg, s) :=
    match s with
    | String "-" s' => (true, s')
    | String "+" s' => (false, s')
    | _ => (false, s)
    end in
  let '(radix, s) :=
    match s with
    | String "0" (String "x" s') => (16, s')
    | String "0" (String "X" s') => (16, s')
    | _ => (10, s)
    end in
  match parse_digits radix s None with
  | Some n => Num (if neg : bool then - n else n)
  | None => NaN
  end.

End JS.

(** A JavaScript object: a finite map from property names to values. *)
Abbreviation jsobject := (gmap string jsval).

(** ** shared/schema.ts: the tables *)

Module Schema.

Inductive coltype : Type :=
| CSerial
| CText
| CInteger
| CTimestamp
| CJson
| CTextArray.

#[global] Instance coltype_eq_dec : EqDecision coltype.
Proof. solve_decision. Defined.

Inductive tid : Type :=
| Users
| Content
| UpcomingContent
| Analytics.

#[global] Instance tid_eq_dec : EqDecision tid.
Proof. solve_decision. Defined.

Inductive coldefault : Type :=
| DefaultValue (v : jsval)
| DefaultNow.

(** A column as its builder chain leaves it.  [cname] is the property name
    the column has in rows and in insert values ([thumbnailUrl], not the
    store's [thumbnail_url]). *)
Record column : Type := Column {
  cname : string;
  ctype : coltype;
  cnotNull : bool;
  cdefault : option coldefault;
  cprimary : bool;
  cunique : bool;
  creferences : option tid;
}.

Record table : Type := pgTable {
  tname : tid;
  tcolumns : list column;
}.

Definition serial (n : string) : column := Column n CSerial true None false false None.
Definition text (n : string) : column := Column n CText false None false false None.
Definition integer (n : string) : column := Column n CInteger false None false false None.
Definition timestamp (n : string) : column := Column n CTimestamp false None false false None.
Definition json (n : string) : column := Column n CJson false None false false None.

Definition array (c : column) : column :=
  Column (cname c) CTextArray (cnotNull c) (cdefault c) (cprimary c) (cunique c) (creferences c).
Definition notNull (c : column) : column :=
  Column (cname c) (ctype c) true (cdefault c) (cprimary c) (cunique c) (creferences c).
Definition default (v : jsval) (c : column) : column :=
  Column (cname c) (ctype c) (cnotNull c) (Some (DefaultValue v)) (cprimary c) (cunique c) (creferences c).
Definition defaultNow (c : column) : column :=
  Column (cname c) (ctype c) (cnotNull c) (Some DefaultNow) (cprimary c) (cunique c) (creferences c).
Definition primaryKey (c : column) : column :=
  Column (cname c) (ctype c) true (cdefault c) true (cunique c) (creferences c).
Definition unique (c : column) : column :=
  Column (cname c) (ctype c) (cnotNull c) (cdefault c) (cprimary c) true (creferences c).
Definition references (t : tid) (c : column) : column :=
  Column (cname c) (ctype c) (cnotNull c) (cdefault c) (cprimary c) (cunique c) (Some t).

(** A [serial] column takes its value from the table's sequence when the
    insert gives none. *)
Definition hasDefault (c : column) : bool :=
  match ctype c with
  | CSerial => true
  | _ => bool_decide (is_Some (cdefault c))
  end.

Definition users : table := pgTable Users [
  primaryKey (serial "id");
  unique (notNull (text "username"));
  notNull (text "password")
].

Definition content : table := pgTable Content [
  primaryKey (serial "id");
  notNull (text "title");
  notNull (text "type");
  notNull (array (text "genres"));
  text "duration";
  notNull (text "rating");
  default (JStr "draft") (notNull (text "status"));
  default (JNum 0) (integer "views");
  text "description";
  text "thumbnailUrl";
  text "videoUrl";
  text "trailerUrl";
  integer "releaseYear";
  text "director";
  text "writer";
  array (text "cast");
  array (text "tags");
  integer "episodes";
  notNull (defaultNow (timestamp "createdAt"));
  notNull (defaultNow (timestamp "updatedAt"))
].

Definition upcomingContent : table := pgTable UpcomingContent [
  primaryKey (serial "id");
  notNull (text "title");
  notNull (text "type");
  notNull (array (text "genres"));
  integer "episodes";
  notNull (timestamp "releaseDate");
  notNull (text "description");
  text "thumbnailUrl";
  text "trailerUrl";
  default (JNum 0) (integer "sectionOrder");
  notNull (defaultNow (timestamp "createdAt"))
].

Definition analytics : table := pgTable Analytics [
  primaryKey (serial "id");
  references Content (integer "contentId");
  notNull (text "eventType");
  references Users (integer "userId");
  notNull (defaultNow (timestamp "timestamp"));
  json "metadata"
].

Definition all_tables : list table := [users; content; upcomingContent; analytics].

Definition column_names (t : table) : list string := cname <$> tcolumns t.

End Schema.

(** ** zod: schemas, parsing and issues *)

Module Zod.

(** The schema of one property.  [ZInt] is [z.number().int()] within the
    range of a 32-bit [integer] column, [ZJson] the schema of any JSON value,
    and [ZStringToDate] is [z.string().transform((str) => new Date(str))]. *)
Inductive ztype : Type :=
| ZString
| ZInt
| ZDate
| ZJson
| ZArray (elem : ztype)
| ZStringToDate.

Record zfield : Type := ZField {
  ftype : ztype;
  fnullable : bool;
  foptional : bool;
}.

#[global] Instance ztype_eq_dec : EqDecision ztype.
Proof. solve_decision. Defined.

#[global] Instance zfield_eq_dec : EqDecision zfield.
Proof. solve_decision. Defined.

(** An object schema: its shape, in declaration order.  Parsing strips the
    keys of the input that the shape does not name (zod's default). *)
Abbreviation zobject := (list (string * zfield)).

(** One entry of [ZodError.errors]: the path of the offending property. *)
Record issue : Type := Issue {
  ipath : list string;
  icode : string;
  imessage : string;
}.

Definition int4_min : Z := -2147483648.
Definition int4_max : Z := 2147483647.
Definition is_int4 (n : Z) : bool := bool_decide (int4_min ≤ n ≤ int4_max).

Fixpoint is_json (v : jsval) : bool :=
  match v with
  | JDate _ => false
  | JArr l => forallb is_json l
  | JObj l => forallb (λ kv, is_json (snd kv)) l
  | _ => true
  end.

Definition typename (v : jsval) : string :=
  match v with
  | JNull => "null"
  | JBool _ => "boolean"
  | JNum _ => "number"
  | JStr _ => "string"
  | JArr _ => "array"
  | JObj _ => "object"
  | JDate _ => "date"
  end.

Definition expected (t : ztype) : string :=
  match t with
  | ZString | ZStringToDate => "string"
  | ZInt => "number"
  | ZDate => "date"
  | ZJson => "json"
  | ZArray _ => "array"
  end.

Definition invalid_type (path : list string) (t : ztype) (v : jsval) : issue :=
  Issue path "invalid_type" ("Expected " +:+ expected t +:+ ", received " +:+ typename v).

Definition required (path : list string) : issue :=
  Issue path "invalid_type" "Required".

(** All the results when every one is a success, else all the issues, in
    order. *)
Definition collect {A} (rs : list (list issue + A)) : list issue + list A :=
  match omap (λ r, match r with inl errs => Some errs | inr _ => None end) rs with
  | [] => inr (omap (λ r, match r with inr a => Some a | inl _ => None end) rs)
  | errss => inl (concat errss)
  end.

(** Parsing a value that is neither [undefined] nor, for a nullable
    property, [null]. *)
Fixpoint zcheck (rt : runtime) (t : ztype) (path : list string) (v : jsval)
  : list issue + jsval :=
  match t, v with
  | ZString, JStr _ => inr v
  | ZInt, JNum n =>
      if bool_decide (n < int4_min) then
        inl [Issue path "too_small" "Number must be greater than or equal to -2147483648"]
      else if bool_decide (int4_max < n) then
        inl [Issue path "too_big" "Number must be less than or equal to 2147483647"]
      else inr v
  | ZDate, JDate (Some _) => inr v
  | ZDate, JDate None => inl [Issue path "invalid_date" "Invalid date"]
  | ZJson, _ =>
      if is_json v then inr v else inl [Issue path "invalid_union" "Invalid input"]
  | ZArray e, JArr l =>
      match collect (imap (λ i x, zcheck rt e (path ++ [pretty i]) x) l) with
      | inr l' => inr (JArr l')
      | inl errs => inl errs
      end
  | ZStringToDate, JStr s => inr (JS.new_Date rt (Some (JStr s)))
  | _, _ => inl [invalid_type path t v]
  end.

(** Parsing the property [k] of the input, [v] being [undefined] when the
    input has no such key.  An optional property that is absent stays absent
    in the output. *)
Definition zparse_field (rt : runtime) (k : string) (f : zfield) (v : option jsval)
  : list issue + option jsval :=
  match v with
  | None => if foptional f then inr None else inl [required [k]]
  | Some JNull =>
      if fnullable f then inr (Some JNull)
      else match zcheck rt (ftype f) [k] JNull with
           | inr v' => inr (Some v')
           | inl errs => inl errs
           end
  | Some v =>
      match zcheck rt (ftype f) [k] v with
      | inr v' => inr (Some v')
      | inl errs => inl errs
      end
  end.

(** [schema.parse(body)]: the validated object, or the issues of a
    [ZodError]. *)
Definition parse (rt : runtime) (shape : zobject) (body : jsobject)
  : list issue + jsobject :=
  let field '(k, f) :=
    match zparse_field rt k f (body !! k) with
    | inr o => inr (k, o)
    | inl errs => inl errs
    end in
  match collect (field <$> shape) with
  | inr kvs => inr (list_to_map (omap (λ '(k, o), pair k <$> o) kvs))
  | inl errs => inl errs
  end.

(** [.omit({k: true, ..})], [.pick({k: true, ..})], [.extend({..})] and
    [.partial()]. *)
Definition omit (ks : list string) (shape : zobject) : zobject :=
  filter (λ kf, fst kf ∉ ks) shape.

Definition pick (ks : list string) (shape : zobject) : zobject :=
  filter (λ kf, fst kf ∈ ks) shape.

Definition extend1 (kf : string * zfield) (shape : zobject) : zobject :=
  if bool_decide (fst kf ∈ fst <$> shape)
  then (λ kf', if bool_decide (fst kf' = fst kf) then kf else kf') <$> shape
  else shape ++ [kf].

Definition extend (ext : zobject) (shape : zobject) : zobject :=
  foldl (λ sh kf, extend1 kf sh) shape ext.

Definition partial (shape : zobject) : zobject :=
  (λ '(k, f), (k, ZField (ftype f) (fnullable f) true)) <$> shape.

Definition keys (shape : zobject) : list string := fst <$> shape.

End Zod.

(** ** drizzle-zod: [createInsertSchema] *)

Module DrizzleZod.
Import Schema Zod.

(** The schema of a column's values, as drizzle-zod (0.6 and later) derives
    it: an [integer] or [serial] column takes an integer of the column's
    range. *)
Definition column_ztype (c : column) : ztype :=
  match ctype c with
  | CSerial | CInteger => ZInt
  | CText => ZString
  | CTimestamp => ZDate
  | CJson => ZJson
  | CTextArray => ZArray ZString
  end.

(** A nullable column may be [null] or left out; a column with a default may
    be left out; the others are required. *)
Definition column_zfield (c : column) : zfield :=
  ZField (column_ztype c) (negb (cnotNull c)) (negb (cnotNull c) || hasDefault c).

Definition createInsertSchema (t : table) : zobject :=
  (λ c, (cname c, column_zfield c)) <$> tcolumns t.

End DrizzleZod.

(** ** shared/schema.ts: the insert schemas *)

Module Shared.
Import Schema Zod DrizzleZod.

Definition insertUserSchema : zobject :=
  pick ["username"; "password"] (createInsertSchema users).

Definition insertContentSchema : zobject :=
  omit ["id"; "createdAt"; "updatedAt"; "views"] (createInsertSchema content).

Definition insertUpcomingContentSchema : zobject :=
  extend [("releaseDate", ZField ZStringToDate false false)]
    (omit ["id"; "createdAt"] (createInsertSchema upcomingContent)).

Definition insertAnalyticsSchema : zobject :=
  omit ["id"; "timestamp"] (createInsertSchema analytics).

End Shared.

(** ** The relational store

    The tables as PostgreSQL holds them for the declarations of
    [shared/schema.ts], and the statements that drizzle-orm's query builder
    sends: the constraints of the declarations ([NOT NULL], primary key,
    [UNIQUE], references without an [ON DELETE] action, defaults) are
    enforced, and a statement that breaks one raises.  A value sent for a
    column is converted on its way in (by drizzle-orm, by the driver and by
    the store's reading of the parameter) and on its way out, or refused;
    [stored] writes this out.  Failures that no declaration and no value
    decides (a lost connection) are not modelled. *)

Module Store.
Import Schema.

(** The rows of the four relations, in insertion order, and the next value
    of each [serial] sequence. *)
Record Db : Type := mkDb {
  users_rows : list jsobject;
  content_rows : list jsobject;
  upcoming_rows : list jsobject;
  analytics_rows : list jsobject;
  users_seq : Z;
  content_seq : Z;
  upcoming_seq : Z;
  analytics_seq : Z;
}.

Definition empty_db : Db := mkDb [] [] [] [] 1 1 1 1.

Definition rows (t : tid) (db : Db) : list jsobject :=
  match t with
  | Users => users_rows db
  | Content => content_rows db
  | UpcomingContent => upcoming_rows db
  | Analytics => analytics_rows db
  end.

Definition nextval (t : tid) (db : Db) : Z :=
  match t with
  | Users => users_seq db
  | Content => content_seq db
  | UpcomingContent => upcoming_seq db
  | Analytics => analytics_seq db
  end.

Definition set_rows (t : tid) (l : list jsobject) (db : Db) : Db :=
  match t with
  | Users =>
      mkDb l (content_rows db) (upcoming_rows db) (analytics_rows db)
        (users_seq db) (content_seq db) (upcoming_seq db) (analytics_seq db)
  | Content =>
      mkDb (users_rows db) l (upcoming_rows db) (analytics_rows db)
        (users_seq db) (content_seq db) (upcoming_seq db) (analytics_seq db)
  | UpcomingContent =>
      mkDb (users_rows db) (content_rows db) l (analytics_rows db)
        (users_seq db) (content_seq db) (upcoming_seq db) (analytics_seq db)
  | Analytics =>
      mkDb (users_rows db) (content_rows db) (upcoming_rows db) l
        (users_seq db) (content_seq db) (upcoming_seq db) (analytics_seq db)
  end.

(** A sequence moves on when a value is drawn from it, whether or not the
    statement that drew it goes through. *)
Definition advance (t : tid) (db : Db) : Db :=
  match t with
  | Users =>
      mkDb (users_rows db) (content_rows db) (upcoming_rows db) (analytics_rows db)
        (users_seq db + 1) (content_seq db) (upcoming_seq db) (analytics_seq db)
  | Content =>
      mkDb (users_rows db) (content_rows db) (upcoming_rows db) (analytics_rows db)
        (users_seq db) (content_seq db + 1) (upcoming_seq db) (analytics_seq db)
  | UpcomingContent =>
      mkDb (users_rows db) (content_rows db) (upcoming_rows db) (analytics_rows db)
        (users_seq db) (content_seq db) (upcoming_seq db + 1) (analytics_seq db)
  | Analytics =>
      mkDb (users_rows db) (content_rows db) (upcoming_rows db) (analytics_rows db)
        (users_seq db) (content_seq db) (upcoming_seq db) (analytics_seq db + 1)
  end.

(** What a rejected promise carries: a [ZodError] with its issues, or any
    other error (of the driver or of the store). *)
Inductive exn : Type :=
| ZodError (errors : list Zod.issue)
| StoreError (msg : string).

Inductive outcome (A : Type) : Type :=
| Ok (a : A)
| Throw (e : exn).
Arguments Ok {A} a.
Arguments Throw {A} e.

(** An [async] computation against the store. *)
Definition M (A : Type) : Type := Db → outcome A * Db.

Definition ret {A} (a : A) : M A := λ db, (Ok a, db).

Definition throw {A} (e : exn) : M A := λ db, (Throw e, db).

Definition bind {A B} (m : M A) (k : A → M B) : M B :=
  λ db,
    match m db with
    | (Ok a, db') => k a db'
    | (Throw e, db') => (Throw e, db')
    end.

Notation "'await' x ← m ; k" := (bind m (λ x, k))
  (at level 10, x name, m at level 100, k at level 200,
   format "'[v' 'await'  x  ←  m ; '/' k ']'").

Definition is_null (v : option jsval) : bool :=
  match v with
  | Some JNull | None => true
  | Some _ => false
  end.

Definition row_id (r : jsobject) : option Z :=
  match r !! "id" with
  | Some (JNum n) => Some n
  | _ => None
  end.

Definition has_id (n : Z) (r : jsobject) : bool :=
  bool_decide (row_id r = Some n).

(** Equality of two stored values as a uniqueness or reference check sees
    it: never true of [NULL]. *)
Definition sql_eq (a b : option jsval) : bool :=
  match a, b with
  | Some (JNum x), Some (JNum y) => bool_decide (x = y)
  | Some (JStr x), Some (JStr y) => bool_decide (x = y)
  | _, _ => false
  end.

(** *** Values on their way into the store and out of it *)

(** PostgreSQL takes no text that holds the character U+0000. *)
Fixpoint has_nul (s : string) : bool :=
  match s with
  | String a s' => bool_decide (nat_of_ascii a = 0%nat) || has_nul s'
  | EmptyString => false
  end.

(** The white space that PostgreSQL skips around a number. *)
Definition is_space (a : ascii) : bool :=
  bool_decide (nat_of_ascii a ∈ [9; 10; 11; 12; 13; 32]%nat).

Fixpoint skip_spaces (s : string) : string :=
  match s with
  | String a s' => if is_space a then skip_spaces s' else s
  | EmptyString => s
  end.

(** What follows the decimal digits a string starts with. *)
Fixpoint after_digits (s : string) : string :=
  match s with
  | String a s' =>
      match JS.digit_val 10 a with
      | Some _ => after_digits s'
      | None => s
      end
  | EmptyString => s
  end.

(** A text as PostgreSQL reads it for an [integer] column: spaces, a sign,
    decimal digits (one at least), spaces, and nothing else; the number has
    to be within 32 bits.  (Versions from 16 on also read a base prefix and
    underscores between digits; such a text is refused here, as it is up to
    version 15.) *)
Definition integer_of_text (s : string) : option Z :=
  let s := skip_spaces s in
  let '(neg, s) :=
    match s with
    | String "-" s' => (true, s')
    | String "+" s' => (false, s')
    | _ => (false, s)
    end in
  match JS.parse_digits 10 s None with
  | Some n =>
      let n := if neg : bool then - n else n in
      if bool_decide (skip_spaces (after_digits s) = "") && Zod.is_int4 n
      then Some n else None
  | None => None
  end.

(** The time values of the years 1 to 9999, the only ones whose
    [toISOString] text PostgreSQL reads as a [timestamp]: 0001-01-01 at
    midnight and 9999-12-31 one millisecond before midnight. *)
Definition first_instant : Z := -62135596800000.
Definition last_instant : Z := 253402300799999.

(** The first instants of the years 50 and 100. *)
Definition year_50 : Z := -60589296000000.
Definition year_100 : Z := -59011459200000.

(** A stored timestamp comes back as a text ([0001-06-01 00:00:00]) that
    drizzle-orm hands to [new Date] with [+0000] appended.  The text is not
    in the ISO format, and the engine's other parser takes a year below 50
    for a year of the 2000s and a year from 50 to 99 for one of the 1900s:
    a shift of 730485 and of 693960 days. *)
Definition read_back (t : Z) : Z :=
  if bool_decide (t < year_50) then t + 730485 * 86400000
  else if bool_decide (t < year_100) then t + 693960 * 86400000
  else t.

(** An element of an array sent for a [text[]] column: a string is quoted
    and comes back as it is, a number and a boolean are printed and come
    back as text, [null] is [NULL].  (An array or an object as an element is
    taken to be refused; what the store makes of one depends on its
    shape.) *)
Definition stored_element (v : jsval) : option jsval :=
  match v with
  | JNull => Some JNull
  | JStr s => if has_nul s then None else Some v
  | JNum n => Some (JStr (pretty n))
  | JBool b => Some (JStr (if b then "true" else "false"))
  | _ => None
  end.

(** What the store holds, and a later read gives, for a value sent for a
    column; [None] when the value is refused before the statement runs.

    - [null] is [NULL] for every column.
    - A [text] column takes a string without U+0000, and a number or a
      boolean as the driver prints it (a number of 22 digits or more is
      printed with an exponent, which is not written out here).
    - An [integer] or [serial] column takes a number within 32 bits, and a
      string that reads as one.
    - A [timestamp] column takes a [Date] only: drizzle-orm calls
      [toISOString] on the value, which no other value has and which throws
      on an invalid date.
    - A [json] column takes the value as [JSON.stringify] prints it.
    - A [text[]] column takes an array only: drizzle-orm calls [map] on the
      value.

    An array, an object or a [Date] sent for a [text] column is taken to be
    refused: the driver would send a rendering of it, which is not written
    out here.  The schemas let no such value through, and for an [integer]
    column the store refuses the rendering. *)
Definition stored (c : column) (v : jsval) : option jsval :=
  match ctype c, v with
  | _, JNull => Some JNull
  | CText, JStr s => if has_nul s then None else Some v
  | CText, JNum n => Some (JStr (pretty n))
  | CText, JBool b => Some (JStr (if b then "true" else "false"))
  | (CInteger | CSerial), JNum n => if Zod.is_int4 n then Some v else None
  | (CInteger | CSerial), JStr s => JNum <$> integer_of_text s
  | CTimestamp, JDate (Some t) =>
      if bool_decide (first_instant ≤ t ≤ last_instant)
      then Some (JDate (Some (read_back t))) else None
  | CJson, _ => Some v
  | CTextArray, JArr l => JArr <$> mapM stored_element l
  | _, _ => None
  end.

(** Whether a value can be sent for a column, and the value then held. *)
Definition accepts (c : column) (v : jsval) : bool :=
  bool_decide (is_Some (stored c v)).

Definition held (c : column) (v : jsval) : jsval :=
  from_option id v (stored c v).

Definition accepts_all (t : table) (values : jsobject) : bool :=
  forallb (λ c, from_option (accepts c) true (values !! cname c)) (tcolumns t).

(** The identifier of a [where(eq(t.id, id))]: the store takes a 32-bit
    number and fails on anything else ([NaN] included). *)
Definition valid_id (id : jsnumber) : option Z :=
  match id with
  | Num n => if Zod.is_int4 n then Some n else None
  | NaN => None
  end.

Definition default_value (rt : runtime) (db : Db) (t : table) (c : column) : jsval :=
  match ctype c, cdefault c with
  | CSerial, _ => JNum (nextval (tname t) db)
  | _, Some (DefaultValue v) => v
  | _, Some DefaultNow => JDate (Some (Date_now rt))
  | _, None => JNull
  end.

(** The row an insert makes: the value given for a column, as the store
    holds it, or the column's default when the values leave the column out;
    keys that name no column are ignored. *)
Definition insert_row (rt : runtime) (db : Db) (t : table) (values : jsobject) : jsobject :=
  list_to_map
    ((λ c, (cname c, from_option (held c) (default_value rt db t c) (values !! cname c)))
       <$> tcolumns t).

Definition draws_serial (t : table) (values : jsobject) : bool :=
  existsb (λ c, match ctype c, values !! cname c with
                | CSerial, None => true
                | _, _ => false
                end) (tcolumns t).

(** [NOT NULL] on the value [v] of column [c]. *)
Definition not_null_ok (c : column) (v : option jsval) : bool :=
  negb (cnotNull c) || negb (is_null v).

(** A reference: [NULL], or the identifier of a row of the referenced
    table. *)
Definition reference_ok (db : Db) (c : column) (v : option jsval) : bool :=
  match creferences c with
  | None => true
  | Some t' => is_null v || existsb (λ r, sql_eq (r !! "id") v) (rows t' db)
  end.

(** Primary key and [UNIQUE]: no row among [others] holds the value. *)
Definition unique_ok (others : list jsobject) (c : column) (v : option jsval) : bool :=
  negb (cprimary c || cunique c) || negb (existsb (λ r, sql_eq (r !! cname c) v) others).

(** [db.insert(t).values(values).returning()]. *)
Definition db_insert (rt : runtime) (t : table) (values : jsobject) : M jsobject :=
  λ db,
    if negb (accepts_all t values) then (Throw (StoreError "invalid input value"), db)
    else
      let r := insert_row rt db t values in
      let db1 := if draws_serial t values then advance (tname t) db else db in
      if forallb (λ c, not_null_ok c (r !! cname c)
                       && reference_ok db c (r !! cname c)
                       && unique_ok (rows (tname t) db) c (r !! cname c)) (tcolumns t)
      then (Ok r, set_rows (tname t) (rows (tname t) db ++ [r]) db1)
      else (Throw (StoreError "constraint violation"), db1).

(** The assignments of an update: the entries of [set] that name a column,
    each as the store holds it. *)
Definition assignments (t : table) (set : jsobject) : jsobject :=
  list_to_map (omap (λ c, (λ v, (cname c, held c v)) <$> set !! cname c) (tcolumns t)).

(** [db.update(t).set(set).where(eq(t.id, id)).returning()].  An empty [set]
    is refused before any statement is sent.  Stored rows satisfy their
    constraints, so only an assigned column can break one. *)
Definition db_update (t : table) (set : jsobject) (id : jsnumber) : M (list jsobject) :=
  λ db,
    if bool_decide (size set = 0%nat) then (Throw (StoreError "No values to set"), db)
    else if negb (accepts_all t set) then (Throw (StoreError "invalid input value"), db)
    else
      match valid_id id with
      | None => (Throw (StoreError "invalid input syntax for type integer"), db)
      | Some n =>
          let set' := assignments t set in
          let matched := filter (λ r, has_id n r = true) (rows (tname t) db) in
          let others := filter (λ r, has_id n r = false) (rows (tname t) db) in
          let assigned_ok c :=
            match set' !! cname c with
            | None => true
            | Some v =>
                not_null_ok c (Some v) && reference_ok db c (Some v)
                && unique_ok others c (Some v)
                && (negb (cprimary c || cunique c) || is_null (Some v)
                    || bool_decide (length matched ≤ 1)%nat)
            end in
          if bool_decide (matched = []) || forallb assigned_ok (tcolumns t)
          then (Ok ((λ r, set' ∪ r) <$> matched),
                set_rows (tname t)
                  ((λ r, if has_id n r then set' ∪ r else r) <$> rows (tname t) db) db)
          else (Throw (StoreError "constraint violation"), db)
      end.

(** Whether a row of some table refers to the row [n] of table [t]. *)
Definition referenced (t : table) (n : Z) (db : Db) : bool :=
  existsb (λ t', existsb (λ c,
    bool_decide (creferences c = Some (tname t))
    && existsb (λ r, sql_eq (r !! cname c) (Some (JNum n))) (rows (tname t') db))
    (tcolumns t')) all_tables.

(** [db.delete(t).where(eq(t.id, id))], giving [rowCount].  The references
    declare no [ON DELETE] action: a row that is still referred to cannot be
    deleted. *)
Definition db_delete (t : table) (id : jsnumber) : M Z :=
  λ db,
    match valid_id id with
    | None => (Throw (StoreError "invalid input syntax for type integer"), db)
    | Some n =>
        let matched := filter (λ r, has_id n r = true) (rows (tname t) db) in
        if negb (bool_decide (matched = [])) && referenced t n db
        then (Throw (StoreError "violates foreign key constraint"), db)
        else (Ok (Z.of_nat (length matched)),
              set_rows (tname t) (filter (λ r, has_id n r = false) (rows (tname t) db)) db)
    end.

(** [db.select().from(t)] and [db.select().from(t).where(eq(t.id, id))]. *)
Definition db_select (t : table) : M (list jsobject) :=
  λ db, (Ok (rows (tname t) db), db).

Definition db_select_by_id (t : table) (id : jsnumber) : M (list jsobject) :=
  λ db,
    match valid_id id with
    | None => (Throw (StoreError "invalid input syntax for type integer"), db)
    | Some n => (Ok (filter (λ r, has_id n r = true) (rows (tname t) db)), db)
    end.

(** *** Well-formed stores and payloads *)

(** The sequence of a table is ahead of the identifiers in the table, as it
    is when every identifier was drawn from the sequence. *)
Definition sequence_ahead (t : tid) (db : Db) : Prop :=
  ∀ r n, r ∈ rows t db → row_id r = Some n → n < nextval t db.

(** An object whose every property can be assigned to the column of its
    name: the store takes the value, it is not [null] for a [NOT NULL]
    column, and the column is no key and no reference. *)
Definition assignable (t : table) (set : jsobject) : Prop :=
  ∀ k v, set !! k = Some v →
    ∃ c, c ∈ tcolumns t ∧ cname c = k
         ∧ accepts c v = true ∧ not_null_ok c (Some (held c v)) = true
         ∧ cprimary c || cunique c = false ∧ creferences c = None.

(** Values in which no string holds U+0000. *)
Fixpoint no_nul (v : jsval) : bool :=
  match v with
  | JStr s => negb (has_nul s)
  | JArr l => forallb no_nul l
  | JObj l => forallb (λ kv, no_nul (snd kv)) l
  | _ => true
  end.

(** An object in which no string holds U+0000. *)
Definition nul_free (o : jsobject) : Prop := map_Forall (λ _ v, no_nul v = true) o.

#[global] Instance nul_free_dec o : Decision (nul_free o).
Proof. unfold nul_free. apply _. Defined.

(** The instants that a [timestamp] column takes, and those among them that
    come back as they were sent. *)
Definition storable_instant (t : Z) : Prop := first_instant ≤ t ≤ last_instant.

Definition faithful_instant (t : Z) : Prop := year_100 ≤ t ≤ last_instant.

#[global] Instance storable_instant_dec t : Decision (storable_instant t).
Proof. unfold storable_instant. apply _. Defined.

#[global] Instance faithful_instant_dec t : Decision (faithful_instant t).
Proof. unfold faithful_instant. apply _. Defined.

(** *** Ordering *)

(** The key a row is ordered by: the number or the time stored in the
    column, [None] for [NULL]. *)
Definition sort_key (col : string) (r : jsobject) : option Z :=
  match r !! col with
  | Some (JNum n) => Some n
  | Some (JDate (Some t)) => Some t
  | _ => None
  end.

(** The store's order on keys: [NULL] is above every value. *)
Definition key_le (a b : option Z) : Prop :=
  match a, b with
  | _, None => True
  | None, Some _ => False
  | Some x, Some y => x ≤ y
  end.

#[global] Instance key_le_dec a b : Decision (key_le a b).
Proof. destruct a, b; simpl; apply _. Defined.

Definition asc (col : string) : relation jsobject :=
  λ r1 r2, key_le (sort_key col r1) (sort_key col r2).

Definition desc (col : string) : relation jsobject :=
  λ r1 r2, key_le (sort_key col r2) (sort_key col r1).

#[global] Instance asc_dec col r1 r2 : Decision (asc col r1 r2).
Proof. unfold asc. apply _. Defined.

#[global] Instance desc_dec col r1 r2 : Decision (desc col r1 r2).
Proof. unfold desc. apply _. Defined.

(** [.orderBy(..)] and [.limit(n)].  The store leaves the order of rows with
    equal keys open; the sort used here keeps something of theirs, and the
    properties proved of it (sorted, a permutation) hold of any other. *)
Definition orderBy (R : relation jsobject) `{∀ x y, Decision (R x y)}
  (l : list jsobject) : list jsobject := merge_sort R l.

Definition limit (n : nat) (l : list jsobject) : list jsobject := take n l.

(** [where(eq(t.col, s))] on a text column. *)
Definition text_is (col s : string) (r : jsobject) : bool :=
  match r !! col with
  | Some (JStr s') => bool_decide (s' = s)
  | _ => false
  end.

End Store.

(** ** server/storage.ts: [DatabaseStorage] *)

Module Storage.
Import Schema Store.

Definition getUser (id : jsnumber) : M (option jsobject) :=
  await found ← db_select_by_id users id;
  ret (head found).

Definition getUserByUsername (username : string) : M (option jsobject) :=
  await all ← db_select users;
  ret (head (filter (λ r, text_is "username" username r = true) all)).

Definition createUser (rt : runtime) (insertUser : jsobject) : M jsobject :=
  db_insert rt users insertUser.

Definition getAllContent : M (list jsobject) :=
  await all ← db_select content;
  ret (orderBy (desc "createdAt") all).

Definition getContentById (id : jsnumber) : M (option jsobject) :=
  await found ← db_select_by_id content id;
  ret (head found).

Definition getPublishedContent : M (list jsobject) :=
  await all ← db_select content;
  ret (orderBy (desc "createdAt") (filter (λ r, text_is "status" "published" r = true) all)).

Definition createContent (rt : runtime) (insertContent : jsobject) : M jsobject :=
  db_insert rt content insertContent.

Definition updateContent (rt : runtime) (id : jsnumber) (updateContent : jsobject)
  : M (option jsobject) :=
  await updated ← db_update content (<["updatedAt" := JDate (Some (Date_now rt))]> updateContent) id;
  ret (head updated).

Definition deleteContent (id : jsnumber) : M bool :=
  await rowCount ← db_delete content id;
  ret (bool_decide (0 < rowCount)).

Definition getAllUpcomingContent : M (list jsobject) :=
  await all ← db_select upcomingContent;
  ret (orderBy (asc "sectionOrder") all).

Definition getUpcomingContentById (id : jsnumber) : M (option jsobject) :=
  await found ← db_select_by_id upcomingContent id;
  ret (head found).

Definition createUpcomingContent (rt : runtime) (insertUpcoming : jsobject) : M jsobject :=
  db_insert rt upcomingContent insertUpcoming.

Definition updateUpcomingContent (id : jsnumber) (updateUpcoming : jsobject)
  : M (option jsobject) :=
  await updated ← db_update upcomingContent updateUpcoming id;
  ret (head updated).

Definition deleteUpcomingContent (id : jsnumber) : M bool :=
  await rowCount ← db_delete upcomingContent id;
  ret (bool_decide (0 < rowCount)).

Definition createAnalyticsEvent (rt : runtime) (event : jsobject) : M jsobject :=
  db_insert rt analytics event.

(** The object that [getAnalytics] returns.  The two totals are whatever
    the queries gave: the return type of the source says [number], which is
    not checked when the program runs. *)
Record analytics_summary : Type := Summary {
  totalViews : jsval;
  totalContent : jsval;
  popularContent : list jsobject;
  recentViews : list jsobject;
}.

(** The [count] aggregate of a query, as the row of the result holds it.
    PostgreSQL counts in [bigint], and the driver gives a [bigint] as the
    text of the number; [sql<number>] types the expression and converts
    nothing. *)
Definition count (l : list jsobject) : jsval := JStr (pretty (Z.of_nat (length l))).

(** The values that [||] takes for false. *)
Definition falsy (v : jsval) : bool :=
  match v with
  | JNull | JBool false | JNum 0 | JStr EmptyString => true
  | _ => false
  end.

(** [v || 0]. *)
Definition or_zero (v : jsval) : jsval := if falsy v then JNum 0 else v.

Definition is_view (r : jsobject) : Prop := text_is "eventType" "view" r = true.

Definition getAnalytics : M analytics_summary :=
  await events ← db_select analytics;
  await all ← db_select content;
  let totalViewsResult := count (filter is_view events) in
  let totalContentResult := count all in
  let popularContent := limit 10 (orderBy (desc "views") all) in
  let recentViews := limit 50 (orderBy (desc "timestamp") (filter is_view events)) in
  ret (Summary (or_zero totalViewsResult) (or_zero totalContentResult)
         popularContent recentViews).

End Storage.

(** ** server/routes.ts: the handlers

    A handler takes what it reads of the request: the path parameter [id], a
    string, and the body, the object that the JSON body parser made of the
    request.  It gives the response it sends and leaves the store as its
    storage calls left it. *)

Module Routes.
Import Schema Store Storage Shared.

Inductive resbody : Type :=
| Row (r : jsobject)
| Rows (l : list jsobject)
| Aggregate (a : analytics_summary)
| Success
| Failure (error : string)
| Invalid (error : string) (details : list Zod.issue).

Record response : Type := Response {
  status : Z;
  body : resbody;
}.

(** [res.json(b)] answers with status 200. *)
Definition json (b : resbody) : response := Response 200 b.

(** [try { .. } catch (error) { .. }] around a handler's body. *)
Definition try_catch (body : M response) (catch : exn → response) : Db → response * Db :=
  λ db,
    match body db with
    | (Ok r, db') => (r, db')
    | (Throw e, db') => (catch e, db')
    end.

(** [schema.parse(req.body)], which throws a [ZodError]. *)
Definition parse (rt : runtime) (shape : Zod.zobject) (req_body : jsobject) : M jsobject :=
  match Zod.parse rt shape req_body with
  | inr validatedData => ret validatedData
  | inl errors => throw (ZodError errors)
  end.

(** The [catch] of a handler that tells a [ZodError] apart, and of one that
    does not. *)
Definition catch_zod (msg : string) (e : exn) : response :=
  match e with
  | ZodError errors => Response 400 (Invalid "Invalid data" errors)
  | StoreError _ => Response 500 (Failure msg)
  end.

Definition catch_all (msg : string) (e : exn) : response :=
  Response 500 (Failure msg).

Definition GET_api_content : Db → response * Db :=
  try_catch
    (await content ← getAllContent;
     ret (json (Rows content)))
    (catch_all "Failed to fetch content").

Definition GET_api_content_published : Db → response * Db :=
  try_catch
    (await content ← getPublishedContent;
     ret (json (Rows content)))
    (catch_all "Failed to fetch published content").

Definition GET_api_content_id (req_params_id : string) : Db → response * Db :=
  try_catch
    (let id := JS.parseInt req_params_id in
     await content ← getContentById id;
     match content with
     | None => ret (Response 404 (Failure "Content not found"))
     | Some c => ret (json (Row c))
     end)
    (catch_all "Failed to fetch content").

Definition POST_api_content (rt : runtime) (req_body : jsobject) : Db → response * Db :=
  try_catch
    (await validatedData ← parse rt insertContentSchema req_body;
     await content ← createContent rt validatedData;
     ret (json (Row content)))
    (catch_zod "Failed to create content").

Definition PUT_api_content_id (rt : runtime) (req_params_id : string) (req_body : jsobject)
  : Db → response * Db :=
  try_catch
    (let id := JS.parseInt req_params_id in
     await validatedData ← parse rt (Zod.partial insertContentSchema) req_body;
     await content ← updateContent rt id validatedData;
     match content with
     | None => ret (Response 404 (Failure "Content not found"))
     | Some c => ret (json (Row c))
     end)
    (catch_zod "Failed to update content").

Definition DELETE_api_content_id (req_params_id : string) : Db → response * Db :=
  try_catch
    (let id := JS.parseInt req_params_id in
     await success ← deleteContent id;
     if success : bool then ret (json Success)
     else ret (Response 404 (Failure "Content not found")))
    (catch_all "Failed to delete content").

Definition GET_api_upcoming_content : Db → response * Db :=
  try_catch
    (await content ← getAllUpcomingContent;
     ret (json (Rows content)))
    (catch_all "Failed to fetch upcoming content").

Definition GET_api_upcoming_content_id (req_params_id : string) : Db → response * Db :=
  try_catch
    (let id := JS.parseInt req_params_id in
     await content ← getUpcomingContentById id;
     match content with
     | None => ret (Response 404 (Failure "Upcoming content not found"))
     | Some c => ret (json (Row c))
     end)
    (catch_all "Failed to fetch upcoming content").

(** The body is not parsed against a schema here: it is spread into the
    values of the insert, with [releaseDate] replaced by a [Date]. *)
Definition POST_api_upcoming_content (rt : runtime) (req_body : jsobject)
  : Db → response * Db :=
  try_catch
    (let data := <["releaseDate" := JS.new_Date rt (req_body !! "releaseDate")]> req_body in
     await content ← createUpcomingContent rt data;
     ret (json (Row content)))
    (catch_all "Failed to create upcoming content").

Definition PUT_api_upcoming_content_id (rt : runtime) (req_params_id : string)
  (req_body : jsobject) : Db → response * Db :=
  try_catch
    (let id := JS.parseInt req_params_id in
     await validatedData ← parse rt (Zod.partial insertUpcomingContentSchema) req_body;
     await content ← updateUpcomingContent id validatedData;
     match content with
     | None => ret (Response 404 (Failure "Upcoming content not found"))
     | Some c => ret (json (Row c))
     end)
    (catch_zod "Failed to update upcoming content").

Definition DELETE_api_upcoming_content_id (req_params_id : string) : Db → response * Db :=
  try_catch
    (let id := JS.parseInt req_params_id in
     await success ← deleteUpcomingContent id;
     if success : bool then ret (json Success)
     else ret (Response 404 (Failure "Upcoming content not found")))
    (catch_all "Failed to delete upcoming content").

Definition POST_api_analytics (rt : runtime) (req_body : jsobject) : Db → response * Db :=
  try_catch
    (await validatedData ← parse rt insertAnalyticsSchema req_body;
     await event ← createAnalyticsEvent rt validatedData;
     ret (json (Row event)))
    (catch_zod "Failed to create analytics event").

Definition GET_api_analytics : Db → response * Db :=
  try_catch
    (await analytics ← getAnalytics;
     ret (json (Aggregate analytics)))
    (catch_all "Failed to fetch analytics").

(** A request to one of the routes, and [registerRoutes] as the dispatch
    from requests to handlers. *)
Inductive request : Type :=
| GET_content
| GET_content_published
| GET_content_id (id : string)
| POST_content (req_body : jsobject)
| PUT_content_id (id : string) (req_body : jsobject)
| DELETE_content_id (id : string)
| GET_upcoming_content
| GET_upcoming_content_id (id : string)
| POST_upcoming_content (req_body : jsobject)
| PUT_upcoming_content_id (id : string) (req_body : jsobject)
| DELETE_upcoming_content_id (id : string)
| POST_analytics (req_body : jsobject)
| GET_analytics.

Definition registerRoutes (rt : runtime) (req : request) : Db → response * Db :=
  match req with
  | GET_content => GET_api_content
  | GET_content_published => GET_api_content_published
  | GET_content_id id => GET_api_content_id id
  | POST_content b => POST_api_content rt b
  | PUT_content_id id b => PUT_api_content_id rt id b
  | DELETE_content_id id => DELETE_api_content_id id
  | GET_upcoming_content => GET_api_upcoming_content
  | GET_upcoming_content_id id => GET_api_upcoming_content_id id
  | POST_upcoming_content b => POST_api_upcoming_content rt b
  | PUT_upcoming_content_id id b => PUT_api_upcoming_content_id rt id b
  | DELETE_upcoming_content_id id => DELETE_api_upcoming_content_id id
  | POST_analytics b => POST_api_analytics rt b
  | GET_analytics => GET_api_analytics
  end.

(** The store after a sequence of requests, each served at its own
    instant. *)
Definition serve (reqs : list (runtime * request)) (db : Db) : Db :=
  foldl (λ d '(rt, req), snd (registerRoutes rt req d)) db reqs.

End Routes.

(** ** The upload forms: what [handleSubmit] does before a request is sent *)

Module Client.

(** What a submission ends in: an error toast and no request, the mutation
    started with the request data, or an exception out of [handleSubmit]. *)
Inductive submission : Type :=
| Toast (title description : string)
| Mutate (data : jsobject)
| Uncaught.

(** [s || null] on a string, and [l.length > 0 ? l : null] on a list. *)
Definition or_null (s : string) : jsval :=
  if bool_decide (s = "") then JNull else JStr s.

Definition list_or_null (l : list string) : jsval :=
  match l with
  | [] => JNull
  | _ => JArr (JStr <$> l)
  end.

Definition number_or_null (n : option Z) : jsval :=
  match n with
  | Some n => JNum n
  | None => JNull
  end.

(** [!episodes || episodes <= 0], [episodes] being a number or [null]. *)
Definition no_episodes (episodes : option Z) : bool :=
  match episodes with
  | None => true
  | Some n => bool_decide (n = 0) || bool_decide (n ≤ 0)
  end.

End Client.

Module ContentUploadForm.
Import Client.

Record FormData : Type := mkFormData {
  title : string;
  type : string;
  genres : list string;
  duration : string;
  rating : string;
  status : string;
  description : string;
  thumbnailUrl : string;
  videoUrl : string;
  trailerUrl : string;
  releaseYear : Z;
  director : string;
  writer : string;
  cast : list string;
  tags : list string;
  episodes : option Z;
}.

Definition handleSubmit (formData : FormData) : submission :=
  if bool_decide (length (genres formData) = 0%nat) then
    Toast "Error" "Please add at least one genre"
  else if bool_decide (type formData = "tv_show") && no_episodes (episodes formData) then
    Toast "Error" "Please enter the number of episodes for TV shows"
  else
    Mutate (list_to_map [
      ("title", JStr (title formData));
      ("type", JStr (type formData));
      ("genres", JArr (JStr <$> genres formData));
      ("duration", or_null (duration formData));
      ("rating", JStr (rating formData));
      ("status", JStr (status formData));
      ("description", or_null (description formData));
      ("thumbnailUrl", or_null (thumbnailUrl formData));
      ("videoUrl", or_null (videoUrl formData));
      ("trailerUrl", or_null (trailerUrl formData));
      ("releaseYear", JNum (releaseYear formData));
      ("director", or_null (director formData));
      ("writer", or_null (writer formData));
      ("cast", list_or_null (cast formData));
      ("tags", list_or_null (tags formData));
      ("episodes", if bool_decide (type formData = "tv_show")
                   then number_or_null (episodes formData) else JNull)
    ]).

End ContentUploadForm.

Module UpcomingUploadForm.
Import Client.

Record FormData : Type := mkFormData {
  title : string;
  type : string;
  genres : list string;
  episodes : option Z;
  releaseDate : string;
  description : string;
  thumbnailUrl : string;
  trailerUrl : string;
  sectionOrder : Z;
}.

(** [new Date(formData.releaseDate).toISOString()] throws on an invalid
    date. *)
Definition handleSubmit (rt : runtime) (formData : FormData) : submission :=
  if bool_decide (length (genres formData) = 0%nat) then
    Toast "Error" "Please add at least one genre"
  else if bool_decide (type formData = "tv_show") && no_episodes (episodes formData) then
    Toast "Error" "Please enter the number of episodes for TV shows"
  else
    match Date_parse rt (releaseDate formData) with
    | None => Uncaught
    | Some t =>
        Mutate (list_to_map [
          ("title", JStr (title formData));
          ("type", JStr (type formData));
          ("genres", JArr (JStr <$> genres formData));
          ("episodes", if bool_decide (type formData = "tv_show")
                       then number_or_null (episodes formData) else JNull);
          ("releaseDate", JStr (Date_toISOString rt t));
          ("description", JStr (description formData));
          ("thumbnailUrl", or_null (thumbnailUrl formData));
          ("trailerUrl", or_null (trailerUrl formData));
          ("sectionOrder", JNum (sectionOrder formData))
        ])
    end.

End UpcomingUploadForm.

(** ** A reference engine

    [Date.parse] and [toISOString] on the two ISO forms the application
    exchanges: the date-only form of a date input ([2025-01-01], midnight
    UTC) and the form [toISOString] prints ([2025-01-01T00:00:00.000Z]).
    The theorems below hold for every [runtime]; this one instantiates
    them. *)

Module Engine.

Definition is_digit (a : ascii) : bool :=
  bool_decide (48 ≤ Z.of_nat (nat_of_ascii a) ≤ 57).

Fixpoint all_digits (s : string) : bool :=
  match s with
  | String a s' => is_digit a && all_digits s'
  | EmptyString => true
  end.

(** The number a run of decimal digits denotes. *)
Definition number (s : string) : option Z :=
  if all_digits s then JS.parse_digits 10 s None else None.

Definition leap (y : Z) : bool :=
  bool_decide (y mod 4 = 0) && (negb (bool_decide (y mod 100 = 0)) || bool_decide (y mod 400 = 0)).

Definition days_in_month (y m : Z) : Z :=
  if bool_decide (m = 2) then (if leap y then 29 else 28)
  else if bool_decide (m ∈ [4; 6; 9; 11]) then 30 else 31.

(** Days since 1970-01-01 of a date of the proleptic Gregorian calendar. *)
Definition days_from_civil (y m d : Z) : Z :=
  let y' := if bool_decide (m ≤ 2) then y - 1 else y in
  let era := y' / 400 in
  let yoe := y' - era * 400 in
  let mp := (m + 9) mod 12 in
  let doy := (153 * mp + 2) / 5 + d - 1 in
  let doe := yoe * 365 + yoe / 4 - yoe / 100 + doy in
  era * 146097 + doe - 719468.

Definition civil_from_days (z : Z) : Z * Z * Z :=
  let z' := z + 719468 in
  let era := z' / 146097 in
  let doe := z' - era * 146097 in
  let yoe := (doe - doe / 1460 + doe / 36524 - doe / 146096) / 365 in
  let doy := doe - (365 * yoe + yoe / 4 - yoe / 100) in
  let mp := (5 * doy + 2) / 153 in
  let d := doy - (153 * mp + 2) / 5 + 1 in
  let m := if bool_decide (mp < 10) then mp + 3 else mp - 9 in
  let y := yoe + era * 400 + (if bool_decide (m ≤ 2) then 1 else 0) in
  (y, m, d).

Definition ms_per_day : Z := 86400000.

(** [YYYY-MM-DD]. *)
Definition parse_date (s : string) : option Z :=
  if bool_decide (String.length s = 10%nat)
     && bool_decide (String.get 4 s = Some "-"%char)
     && bool_decide (String.get 7 s = Some "-"%char)
  then
    match number (String.substring 0 4 s), number (String.substring 5 2 s),
          number (String.substring 8 2 s) with
    | Some y, Some m, Some d =>
        if bool_decide (1 ≤ m ≤ 12) && bool_decide (1 ≤ d ≤ days_in_month y m)
        then Some (days_from_civil y m d * ms_per_day) else None
    | _, _, _ => None
    end
  else None.

(** [HH:mm:ss.sss]. *)
Definition parse_time (s : string) : option Z :=
  if bool_decide (String.length s = 12%nat)
     && bool_decide (String.get 2 s = Some ":"%char)
     && bool_decide (String.get 5 s = Some ":"%char)
     && bool_decide (String.get 8 s = Some "."%char)
  then
    match number (String.substring 0 2 s), number (String.substring 3 2 s),
          number (String.substring 6 2 s), number (String.substring 9 3 s) with
    | Some h, Some mi, Some sec, Some ms =>
        if bool_decide (h ≤ 23) && bool_decide (mi ≤ 59) && bool_decide (sec ≤ 59)
        then Some (((h * 60 + mi) * 60 + sec) * 1000 + ms) else None
    | _, _, _, _ => None
    end
  else None.

Definition parse (s : string) : option Z :=
  if bool_decide (String.length s = 10%nat) then parse_date s
  else if bool_decide (String.length s = 24%nat)
          && bool_decide (String.get 10 s = Some "T"%char)
          && bool_decide (String.get 23 s = Some "Z"%char)
  then
    match parse_date (String.substring 0 10 s), parse_time (String.substring 11 12 s) with
    | Some d, Some t => Some (d + t)
    | _, _ => None
    end
  else None.

(** A number printed on at least [width] digits. *)
Definition pad (width : nat) (n : Z) : string :=
  let s := pretty n in
  String.concat "" (replicate (width - String.length s) "0") +:+ s.

Definition toISOString (t : Z) : string :=
  let '(y, m, d) := civil_from_days (t / ms_per_day) in
  let r := t mod ms_per_day in
  pad 4 y +:+ "-" +:+ pad 2 m +:+ "-" +:+ pad 2 d +:+ "T"
  +:+ pad 2 (r / 3600000) +:+ ":" +:+ pad 2 (r / 60000 mod 60) +:+ ":"
  +:+ pad 2 (r / 1000 mod 60) +:+ "." +:+ pad 3 (r mod 1000) +:+ "Z".

(** The engine at the instant [now]. *)
Definition at_time (now : Z) : runtime := Runtime parse toISOString now.

End Engine.

(** ** Sample requests and store states

    The states are reached from the empty store by the handlers
    themselves. *)

Module Sample.
Import Store Routes.

(** The engine on 2025-01-01 at midnight UTC. *)
Definition rt : runtime := Engine.at_time 1735689600000.

Definition movie : jsobject :=
  {[ "title" := JStr "X"; "type" := JStr "movie";
     "genres" := JArr [JStr "Drama"]; "rating" := JStr "PG" ]}.

Definition movie_without_genres : jsobject :=
  {[ "title" := JStr "X"; "type" := JStr "movie"; "rating" := JStr "PG" ]}.

Definition view_of_1 : jsobject :=
  {[ "contentId" := JNum 1; "eventType" := JStr "view" ]}.

(** A show with no genre and no episode count, which neither upload form
    would send. *)
Definition bare_show : jsobject :=
  {[ "title" := JStr "X"; "type" := JStr "tv_show";
     "genres" := JArr []; "rating" := JStr "PG" ]}.

(** A payload that tries to set the server's fields. *)
Definition forged_movie : jsobject :=
  <["id" := JNum 999]> (<["views" := JNum 1000000]>
    (<["createdAt" := JStr "1999-12-31"]> (<["updatedAt" := JStr "1999-12-31"]> movie))).

Definition forged_event : jsobject :=
  {[ "id" := JNum 999; "timestamp" := JStr "1999-12-31"; "eventType" := JStr "view" ]}.

(** Content whose [type] and [status] are the given strings, and an event
    of the given kind. *)
Definition content_of (type status : string) : jsobject :=
  <["type" := JStr type]> (<["status" := JStr status]> movie).

Definition event_of (eventType : string) : jsobject :=
  {[ "eventType" := JStr eventType ]}.

(** An announcement whose release date is no date, and one that is dated. *)
Definition undated : jsobject :=
  {[ "title" := JStr "T"; "type" := JStr "movie"; "genres" := JArr [JStr "Drama"];
     "releaseDate" := JStr "not-a-date"; "description" := JStr "d" ]}.

Definition dated : jsobject := <["releaseDate" := JStr "2025-06-01"]> undated.



Definition later : runtime := Engine.at_time 1735689660000.

(** A path identifier made of decimal digits only. *)
Definition numeric (s : string) : bool :=
  Engine.all_digits s && negb (bool_decide (s = "")).

(** The row of a response that carries one. *)
Definition row_of (r : response) : jsobject :=
  match body r with
  | Row row => row
  | _ => ∅
  end.

(** One content row, of identifier 1, after [POST /api/content]. *)
Definition one_movie : Db := snd (POST_api_content rt movie empty_db).

(** The same with one [view] event on it, after [POST /api/analytics]. *)
Definition viewed_movie : Db := snd (POST_api_analytics rt view_of_1 one_movie).

End Sample.

(** ** The state of the upload forms

    The handlers of the two form components, as functions on the state that
    [useState] holds.  One event is handled at a time, so the [formData] a
    handler closes over and the [prev] its updater receives are the same
    state. *)

Module Text.

(** [String.prototype.trim]: the string without the white space at its two
    ends. *)
Fixpoint trim_end (s : string) : string :=
  match s with
  | EmptyString => EmptyString
  | String a s' =>
      let t := String a (trim_end s') in
      if bool_decide (JS.skip_ws t = "") then EmptyString else t
  end.

Definition trim (s : string) : string := trim_end (JS.skip_ws s).

(** [parseInt(text) || fallback], the fallback taken for [NaN] and for 0. *)
Definition parseInt_or {A} (of_number : Z → A) (fallback : A) (text : string) : A :=
  match JS.parseInt text with
  | Num n => if bool_decide (n = 0) then fallback else of_number n
  | NaN => fallback
  end.

End Text.

Module ContentUploadFormState.
Import Client ContentUploadForm Text.

Record State : Type := mkState {
  formData : FormData;
  newGenre : string;
  newCastMember : string;
  newTag : string;
}.

(** The initial [formData], also set by [onSuccess]; [year] is [new
    Date().getFullYear()], the year of the local clock. *)
Definition initialFormData (year : Z) : FormData :=
  mkFormData "" "movie" [] "" "" "draft" "" "" "" "" year "" "" [] [] None.

Definition initial (year : Z) : State := mkState (initialFormData year) "" "" "".

(** [{...prev, field: value}], one definition per field that is set. *)
Definition set_title (value : string) (prev : FormData) : FormData :=
  mkFormData value (type prev) (genres prev) (duration prev) (rating prev) (status prev)
    (description prev) (thumbnailUrl prev) (videoUrl prev) (trailerUrl prev)
    (releaseYear prev) (director prev) (writer prev) (cast prev) (tags prev)
    (episodes prev).

Definition set_type (value : string) (prev : FormData) : FormData :=
  mkFormData (title prev) value (genres prev) (duration prev) (rating prev)
    (status prev) (description prev) (thumbnailUrl prev) (videoUrl prev)
    (trailerUrl prev) (releaseYear prev) (director prev) (writer prev) (cast prev)
    (tags prev) (episodes prev).

Definition set_genres (value : list string) (prev : FormData) : FormData :=
  mkFormData (title prev) (type prev) value (duration prev) (rating prev) (status prev)
    (description prev) (thumbnailUrl prev) (videoUrl prev) (trailerUrl prev)
    (releaseYear prev) (director prev) (writer prev) (cast prev) (tags prev)
    (episodes prev).

Definition set_duration (value : string) (prev : FormData) : FormData :=
  mkFormData (title prev) (type prev) (genres prev) value (rating prev) (status prev)
    (description prev) (thumbnailUrl prev) (videoUrl prev) (trailerUrl prev)
    (releaseYear prev) (director prev) (writer prev) (cast prev) (tags prev)
    (episodes prev).

Definition set_rating (value : string) (prev : FormData) : FormData :=
  mkFormData (title prev) (type prev) (genres prev) (duration prev) value (status prev)
    (description prev) (thumbnailUrl prev) (videoUrl prev) (trailerUrl prev)
    (releaseYear prev) (director prev) (writer prev) (cast prev) (tags prev)
    (episodes prev).

Definition set_status (value : string) (prev : FormData) : FormData :=
  mkFormData (title prev) (type prev) (genres prev) (duration prev) (rating prev) value
    (description prev) (thumbnailUrl prev) (videoUrl prev) (trailerUrl prev)
    (releaseYear prev) (director prev) (writer prev) (cast prev) (tags prev)
    (episodes prev).

Definition set_description (value : string) (prev : FormData) : FormData :=
  mkFormData (title prev) (type prev) (genres prev) (duration prev) (rating prev)
    (status prev) value (thumbnailUrl prev) (videoUrl prev) (trailerUrl prev)
    (releaseYear prev) (director prev) (writer prev) (cast prev) (tags prev)
    (episodes prev).

Definition set_thumbnailUrl (value : string) (prev : FormData) : FormData :=
  mkFormData (title prev) (type prev) (genres prev) (duration prev) (rating prev)
    (status prev) (description prev) value (videoUrl prev) (trailerUrl prev)
    (releaseYear prev) (director prev) (writer prev) (cast prev) (tags prev)
    (episodes prev).

Definition set_videoUrl (value : string) (prev : FormData) : FormData :=
  mkFormData (title prev) (type prev) (genres prev) (duration prev) (rating prev)
    (status prev) (description prev) (thumbnailUrl prev) value (trailerUrl prev)
    (releaseYear prev) (director prev) (writer prev) (cast prev) (tags prev)
    (episodes prev).

Definition set_trailerUrl (value : string) (prev : FormData) : FormData :=
  mkFormData (title prev) (type prev) (genres prev) (duration prev) (rating prev)
    (status prev) (description prev) (thumbnailUrl prev) (videoUrl prev) value
    (releaseYear prev) (director prev) (writer prev) (cast prev) (tags prev)
    (episodes prev).

Definition set_releaseYear (value : Z) (prev : FormData) : FormData :=
  mkFormData (title prev) (type prev) (genres prev) (duration prev) (rating prev)
    (status prev) (description prev) (thumbnailUrl prev) (videoUrl prev)
    (trailerUrl prev) value (director prev) (writer prev) (cast prev) (tags prev)
    (episodes prev).

Definition set_director (value : string) (prev : FormData) : FormData :=
  mkFormData (title prev) (type prev) (genres prev) (duration prev) (rating prev)
    (status prev) (description prev) (thumbnailUrl prev) (videoUrl prev)
    (trailerUrl prev) (releaseYear prev) value (writer prev) (cast prev) (tags prev)
    (episodes prev).

Definition set_writer (value : string) (prev : FormData) : FormData :=
  mkFormData (title prev) (type prev) (genres prev) (duration prev) (rating prev)
    (status prev) (description prev) (thumbnailUrl prev) (videoUrl prev)
    (trailerUrl prev) (releaseYear prev) (director prev) value (cast prev) (tags prev)
    (episodes prev).

Definition set_cast (value : list string) (prev : FormData) : FormData :=
  mkFormData (title prev) (type prev) (genres prev) (duration prev) (rating prev)
    (status prev) (description prev) (thumbnailUrl prev) (videoUrl prev)
    (trailerUrl prev) (releaseYear prev) (director prev) (writer prev) value (tags prev)
    (episodes prev).

Definition set_tags (value : list string) (prev : FormData) : FormData :=
  mkFormData (title prev) (type prev) (genres prev) (duration prev) (rating prev)
    (status prev) (description prev) (thumbnailUrl prev) (videoUrl prev)
    (trailerUrl prev) (releaseYear prev) (director prev) (writer prev) (cast prev) value
    (episodes prev).

Definition set_episodes (value : option Z) (prev : FormData) : FormData :=
  mkFormData (title prev) (type prev) (genres prev) (duration prev) (rating prev)
    (status prev) (description prev) (thumbnailUrl prev) (videoUrl prev)
    (trailerUrl prev) (releaseYear prev) (director prev) (writer prev) (cast prev)
    (tags prev) value.

(** [handleInputChange(field, value)] at its call sites: the field and the
    type of the value each of them passes. *)
Inductive change : Type :=
| change_title (value : string)
| change_type (value : string)
| change_episodes (value : option Z)
| change_duration (value : string)
| change_rating (value : string)
| change_status (value : string)
| change_releaseYear (value : Z)
| change_description (value : string)
| change_director (value : string)
| change_writer (value : string)
| change_thumbnailUrl (value : string)
| change_videoUrl (value : string)
| change_trailerUrl (value : string).

Definition handleInputChange (c : change) (st : State) : State :=
  let prev := formData st in
  let formData' :=
    match c with
    | change_title v => set_title v prev
    | change_type v => set_type v prev
    | change_episodes v => set_episodes v prev
    | change_duration v => set_duration v prev
    | change_rating v => set_rating v prev
    | change_status v => set_status v prev
    | change_releaseYear v => set_releaseYear v prev
    | change_description v => set_description v prev
    | change_director v => set_director v prev
    | change_writer v => set_writer v prev
    | change_thumbnailUrl v => set_thumbnailUrl v prev
    | change_videoUrl v => set_videoUrl v prev
    | change_trailerUrl v => set_trailerUrl v prev
    end in
  mkState formData' (newGenre st) (newCastMember st) (newTag st).

Definition addGenre (st : State) : State :=
  let genre := trim (newGenre st) in
  if negb (bool_decide (genre = "")) && negb (bool_decide (genre ∈ genres (formData st)))
  then mkState (set_genres (genres (formData st) ++ [genre]) (formData st))
         "" (newCastMember st) (newTag st)
  else st.

Definition removeGenre (genreToRemove : string) (st : State) : State :=
  mkState (set_genres (filter (λ genre, genre ≠ genreToRemove) (genres (formData st)))
             (formData st))
    (newGenre st) (newCastMember st) (newTag st).

Definition addCastMember (st : State) : State :=
  let member := trim (newCastMember st) in
  if negb (bool_decide (member = "")) && negb (bool_decide (member ∈ cast (formData st)))
  then mkState (set_cast (cast (formData st) ++ [member]) (formData st))
         (newGenre st) "" (newTag st)
  else st.

Definition removeCastMember (memberToRemove : string) (st : State) : State :=
  mkState (set_cast (filter (λ member, member ≠ memberToRemove) (cast (formData st)))
             (formData st))
    (newGenre st) (newCastMember st) (newTag st).

Definition addTag (st : State) : State :=
  let tag := trim (newTag st) in
  if negb (bool_decide (tag = "")) && negb (bool_decide (tag ∈ tags (formData st)))
  then mkState (set_tags (tags (formData st) ++ [tag]) (formData st))
         (newGenre st) (newCastMember st) ""
  else st.

Definition removeTag (tagToRemove : string) (st : State) : State :=
  mkState (set_tags (filter (λ tag, tag ≠ tagToRemove) (tags (formData st))) (formData st))
    (newGenre st) (newCastMember st) (newTag st).

(** [onSuccess] of the mutation resets [formData] and leaves the three text
    inputs. *)
Definition onSuccess (year : Z) (st : State) : State :=
  mkState (initialFormData year) (newGenre st) (newCastMember st) (newTag st).

(** The values of the [SelectItem]s of the three [Select]s. *)
Definition type_items : list string := ["movie"; "tv_show"].

Definition rating_items : list string :=
  ["G"; "PG"; "PG-13"; "R"; "NC-17"; "TV-Y"; "TV-Y7"; "TV-G"; "TV-PG"; "TV-14"; "TV-MA"].

Definition status_items : list string := ["draft"; "published"].

(** What the rendered form lets happen: text typed into an input, an item
    of a [Select] chosen (by its position), a button or a badge clicked, and
    the mutation succeeding.  The episodes input is rendered for a TV show
    only.  [year] is the year of the local clock at the event. *)
Inductive event : Type :=
| input_title (text : string)
| select_type (item : nat)
| input_episodes (text : string)
| input_newGenre (text : string)
| click_addGenre
| click_removeGenre (genre : string)
| input_duration (text : string)
| select_rating (item : nat)
| select_status (item : nat)
| input_releaseYear (text : string) (year : Z)
| input_description (text : string)
| input_director (text : string)
| input_writer (text : string)
| input_newCastMember (text : string)
| click_addCastMember
| click_removeCastMember (member : string)
| input_newTag (text : string)
| click_addTag
| click_removeTag (tag : string)
| input_thumbnailUrl (text : string)
| input_videoUrl (text : string)
| input_trailerUrl (text : string)
| mutation_succeeded (year : Z).

Definition select (items : list string) (item : nat) (c : string → change) (st : State)
  : State :=
  match items !! item with
  | Some value => handleInputChange (c value) st
  | None => st
  end.

Definition dispatch (st : State) (e : event) : State :=
  match e with
  | input_title text => handleInputChange (change_title text) st
  | select_type item => select type_items item change_type st
  | input_episodes text =>
      if bool_decide (type (formData st) = "tv_show")
      then handleInputChange (change_episodes (parseInt_or Some None text)) st
      else st
  | input_newGenre text => mkState (formData st) text (newCastMember st) (newTag st)
  | click_addGenre => addGenre st
  | click_removeGenre genre => removeGenre genre st
  | input_duration text => handleInputChange (change_duration text) st
  | select_rating item => select rating_items item change_rating st
  | select_status item => select status_items item change_status st
  | input_releaseYear text year =>
      handleInputChange (change_releaseYear (parseInt_or id year text)) st
  | input_description text => handleInputChange (change_description text) st
  | input_director text => handleInputChange (change_director text) st
  | input_writer text => handleInputChange (change_writer text) st
  | input_newCastMember text => mkState (formData st) (newGenre st) text (newTag st)
  | click_addCastMember => addCastMember st
  | click_removeCastMember member => removeCastMember member st
  | input_newTag text => mkState (formData st) (newGenre st) (newCastMember st) text
  | click_addTag => addTag st
  | click_removeTag tag => removeTag tag st
  | input_thumbnailUrl text => handleInputChange (change_thumbnailUrl text) st
  | input_videoUrl text => handleInputChange (change_videoUrl text) st
  | input_trailerUrl text => handleInputChange (change_trailerUrl text) st
  | mutation_succeeded year => onSuccess year st
  end.

(** The state after a sequence of events on the freshly mounted form. *)
Definition run (year : Z) (events : list event) : State :=
  foldl dispatch (initial year) events.

End ContentUploadFormState.
Module UpcomingUploadFormState.
Import Client UpcomingUploadForm Text.

Record State : Type := mkState {
  formData : FormData;
  newGenre : string;
}.

Definition initialFormData : FormData := mkFormData "" "" [] None "" "" "" "" 0.

Definition initial : State := mkState initialFormData "".

Definition set_title (value : string) (prev : FormData) : FormData :=
  mkFormData value (type prev) (genres prev) (episodes prev) (releaseDate prev)
    (description prev) (thumbnailUrl prev) (trailerUrl prev) (sectionOrder prev).

Definition set_type (value : string) (prev : FormData) : FormData :=
  mkFormData (title prev) value (genres prev) (episodes prev) (releaseDate prev)
    (description prev) (thumbnailUrl prev) (trailerUrl prev) (sectionOrder prev).

Definition set_genres (value : list string) (prev : FormData) : FormData :=
  mkFormData (title prev) (type prev) value (episodes prev) (releaseDate prev)
    (description prev) (thumbnailUrl prev) (trailerUrl prev) (sectionOrder prev).

Definition set_episodes (value : option Z) (prev : FormData) : FormData :=
  mkFormData (title prev) (type prev) (genres prev) value (releaseDate prev)
    (description prev) (thumbnailUrl prev) (trailerUrl prev) (sectionOrder prev).

Definition set_releaseDate (value : string) (prev : FormData) : FormData :=
  mkFormData (title prev) (type prev) (genres prev) (episodes prev) value
    (description prev) (thumbnailUrl prev) (trailerUrl prev) (sectionOrder prev).

Definition set_description (value : string) (prev : FormData) : FormData :=
  mkFormData (title prev) (type prev) (genres prev) (episodes prev) (releaseDate prev)
    value (thumbnailUrl prev) (trailerUrl prev) (sectionOrder prev).

Definition set_thumbnailUrl (value : string) (prev : FormData) : FormData :=
  mkFormData (title prev) (type prev) (genres prev) (episodes prev) (releaseDate prev)
    (description prev) value (trailerUrl prev) (sectionOrder prev).

Definition set_trailerUrl (value : string) (prev : FormData) : FormData :=
  mkFormData (title prev) (type prev) (genres prev) (episodes prev) (releaseDate prev)
    (description prev) (thumbnailUrl prev) value (sectionOrder prev).

Definition set_sectionOrder (value : Z) (prev : FormData) : FormData :=
  mkFormData (title prev) (type prev) (genres prev) (episodes prev) (releaseDate prev)
    (description prev) (thumbnailUrl prev) (trailerUrl prev) value.

Inductive change : Type :=
| change_title (value : string)
| change_type (value : string)
| change_episodes (value : option Z)
| change_releaseDate (value : string)
| change_description (value : string)
| change_thumbnailUrl (value : string)
| change_trailerUrl (value : string)
| change_sectionOrder (value : Z).

Definition handleInputChange (c : change) (st : State) : State :=
  let prev := formData st in
  let formData' :=
    match c with
    | change_title v => set_title v prev
    | change_type v => set_type v prev
    | change_episodes v => set_episodes v prev
    | change_releaseDate v => set_releaseDate v prev
    | change_description v => set_description v prev
    | change_thumbnailUrl v => set_thumbnailUrl v prev
    | change_trailerUrl v => set_trailerUrl v prev
    | change_sectionOrder v => set_sectionOrder v prev
    end in
  mkState formData' (newGenre st).

Definition addGenre (st : State) : State :=
  let genre := trim (newGenre st) in
  if negb (bool_decide (genre = "")) && negb (bool_decide (genre ∈ genres (formData st)))
  then mkState (set_genres (genres (formData st) ++ [genre]) (formData st)) ""
  else st.

Definition removeGenre (genreToRemove : string) (st : State) : State :=
  mkState (set_genres (filter (λ genre, genre ≠ genreToRemove) (genres (formData st)))
             (formData st))
    (newGenre st).

Definition onSuccess (st : State) : State := mkState initialFormData (newGenre st).

Definition type_items : list string := ["movie"; "tv_show"].

Inductive event : Type :=
| input_title (text : string)
| select_type (item : nat)
| input_episodes (text : string)
| input_newGenre (text : string)
| click_addGenre
| click_removeGenre (genre : string)
| input_releaseDate (text : string)
| input_description (text : string)
| input_thumbnailUrl (text : string)
| input_trailerUrl (text : string)
| input_sectionOrder (text : string)
| mutation_succeeded.

Definition dispatch (st : State) (e : event) : State :=
  match e with
  | input_title text => handleInputChange (change_title text) st
  | select_type item =>
      match type_items !! item with
      | Some value => handleInputChange (change_type value) st
      | None => st
      end
  | input_episodes text =>
      if bool_decide (type (formData st) = "tv_show")
      then handleInputChange (change_episodes (parseInt_or Some None text)) st
      else st
  | input_newGenre text => mkState (formData st) text
  | click_addGenre => addGenre st
  | click_removeGenre genre => removeGenre genre st
  | input_releaseDate text => handleInputChange (change_releaseDate text) st
  | input_description text => handleInputChange (change_description text) st
  | input_thumbnailUrl text => handleInputChange (change_thumbnailUrl text) st
  | input_trailerUrl text => handleInputChange (change_trailerUrl text) st
  | input_sectionOrder text =>
      handleInputChange (change_sectionOrder (parseInt_or id 0 text)) st
  | mutation_succeeded => onSuccess st
  end.

Definition run (events : list event) : State := foldl dispatch initial events.

End UpcomingUploadFormState.

(** ** Sample forms and stores *)

Module Scenario.
Import Store Routes Client.

(** The payload of a submission that started the mutation. *)
Definition payload_of (s : submission) : jsobject :=
  match s with
  | Mutate data => data
  | _ => ∅
  end.

(** A show of eight episodes, as the content form holds it. *)
Definition show : ContentUploadForm.FormData :=
  ContentUploadForm.mkFormData "X" "tv_show" ["Drama"] "" "PG" "draft" "" "" "" "" 2024
    "" "" [] [] (Some 8).

(** The events that fill the content form with it, the genre typed with
    spaces around it. *)
Definition filling_show : list ContentUploadFormState.event :=
  [ ContentUploadFormState.input_title "X";
    ContentUploadFormState.select_type 1;
    ContentUploadFormState.input_episodes "8";
    ContentUploadFormState.input_newGenre " Drama ";
    ContentUploadFormState.click_addGenre;
    ContentUploadFormState.select_rating 1 ].

(** An announcement as the upcoming form holds it, and the events that fill
    the form with it without choosing a type. *)
Definition announcement : UpcomingUploadForm.FormData :=
  UpcomingUploadForm.mkFormData "T" "movie" ["Drama"] None "2025-06-01" "d" "" "" 0.

Definition filling_untyped : list UpcomingUploadFormState.event :=
  [ UpcomingUploadFormState.input_title "T";
    UpcomingUploadFormState.input_newGenre "Drama";
    UpcomingUploadFormState.click_addGenre;
    UpcomingUploadFormState.input_releaseDate "2025-06-01";
    UpcomingUploadFormState.input_description "d" ].

(** The store after [POST /api/upcoming-content] of the dated announcement,
    and after the same with an identifier chosen by the client. *)
Definition one_announcement : Db :=
  snd (POST_api_upcoming_content Sample.rt Sample.dated empty_db).

Definition with_id_1 : jsobject := <["id" := JNum 1]> Sample.dated.

Definition taken : Db := snd (POST_api_upcoming_content Sample.rt with_id_1 empty_db).

(** A view event by the user 1, and an account. *)
Definition view_by_user_1 : jsobject :=
  {[ "userId" := JNum 1; "eventType" := JStr "view" ]}.

Definition admin : jsobject :=
  {[ "username" := JStr "admin"; "password" := JStr "secret" ]}.

End Scenario.

(** * Properties *)

(** Closed decidable facts, by evaluation. *)
Ltac by_compute := apply (bool_decide_unpack _); vm_compute; exact I.

(** Evaluates the parse of a closed body in the goal. *)
Ltac evaluate_parse :=
  match goal with
  | |- context [Zod.parse ?rt ?shape ?body] =>
      let v := eval vm_compute in (Zod.parse rt shape body) in
      change (Zod.parse rt shape body) with v
  end.

(** A property of every column of a declared table: one goal per column. *)
Ltac each_column :=
  cbn [Schema.tcolumns Schema.users Schema.content Schema.upcomingContent Schema.analytics];
  repeat match goal with
         | |- Forall _ (_ :: _) => constructor
         | |- Forall _ [] => constructor
         end.

(** A column of a declared table is among its columns. *)
Ltac in_columns :=
  cbn [Schema.tcolumns Schema.users Schema.content Schema.upcomingContent Schema.analytics];
  repeat first [apply list_elem_of_here | apply list_elem_of_further].

(** The value a literal payload gives for the key [k]. *)
Ltac assoc k m :=
  lazymatch m with
  | list_to_map ?l => assoc k l
  | (k, ?v) :: _ => v
  | _ :: ?l => assoc k l
  | <[k := ?v]> _ => v
  | <[_ := _]> ?m' => assoc k m'
  | {[k := ?v]} => v
  end.

(** Replaces the lookups of literal keys in a literal payload by their
    values. *)
Ltac lookup_payload :=
  repeat match goal with
         | |- context [@lookup _ _ _ _ ?k ?m] =>
             let H := fresh in
             first [ let v := assoc k m in
                     assert (H : m !! k = Some v) by reflexivity
                   | assert (H : m !! k = None) by reflexivity ];
             rewrite H; clear H
         end.

(** ** Ordering and limits *)

Section ordering.
Import Store.

#[local] Instance key_le_total : Total key_le.
Proof. intros [x|] [y|]; simpl; auto; lia. Qed.

#[local] Instance key_le_trans : Transitive key_le.
Proof. intros [x|] [y|] [z|]; simpl; auto; try lia; tauto. Qed.

#[export] Instance desc_total col : Total (desc col).
Proof. intros r1 r2. unfold desc. destruct (total key_le (sort_key col r1) (sort_key col r2)); auto. Qed.

#[export] Instance desc_trans col : Transitive (desc col).
Proof. intros r1 r2 r3 H12 H23. unfold desc in *. by transitivity (sort_key col r2). Qed.

#[export] Instance asc_total col : Total (asc col).
Proof. intros r1 r2. unfold asc. apply (total key_le). Qed.

#[export] Instance asc_trans col : Transitive (asc col).
Proof. intros r1 r2 r3 H12 H23. unfold asc in *. by transitivity (sort_key col r2). Qed.

Context (R : relation jsobject) `{∀ x y, Decision (R x y)} `{!Total R} `{!Transitive R}.

Lemma orderBy_sorted l : StronglySorted R (orderBy R l).
Proof. unfold orderBy. by apply StronglySorted_merge_sort. Qed.

Lemma orderBy_perm l : orderBy R l ≡ₚ l.
Proof. unfold orderBy. apply merge_sort_Permutation. Qed.

Lemma limit_sorted n l : StronglySorted R l → StronglySorted R (limit n l).
Proof.
  intros Hs. unfold limit. rewrite <- (take_drop n l) in Hs.
  by apply StronglySorted_app_1_l in Hs.
Qed.

(** The rows a limit keeps come before all the rows it drops. *)
Lemma limit_top n l :
  StronglySorted R l → Forall (λ x, Forall (R x) (drop n l)) (limit n l).
Proof.
  intros Hs. unfold limit. rewrite <- (take_drop n l) in Hs.
  apply Forall_forall. intros x Hx. apply Forall_forall. intros y Hy.
  eapply StronglySorted_app_1_elem_of; eauto.
Qed.

Lemma limit_length n l : length (limit n l) = (n `min` length l)%nat.
Proof. unfold limit. by rewrite length_take. Qed.

Lemma limit_rest n l : limit n l ++ drop n l = l.
Proof. apply take_drop. Qed.

End ordering.

Section analytics.
Import Schema Store Storage.

(** The digits of a number are put in front of what is printed already, so
    a number in decimal is never the empty string. *)
Lemma pretty_N_go_length (x : N) (s : string) :
  (String.length s ≤ String.length (pretty_N_go x s))%nat.
Proof.
  revert s. induction (N.lt_wf_0 x) as [x _ IH]; intros s.
  destruct (decide (x = 0)%N) as [->|Hx]; [by rewrite pretty_N_go_0|].
  rewrite pretty_N_go_step by lia.
  etrans; [|apply IH; apply N.div_lt; lia]. simpl. lia.
Qed.

Lemma pretty_nat_nonempty (n : nat) : pretty (Z.of_nat n) ≠ "".
Proof.
  destruct n as [|n]; [done|].
  change (Z.of_nat (S n)) with (Z.pos (Pos.of_succ_nat n)).
  unfold pretty, pretty_Z, pretty, pretty_positive, pretty, pretty_N.
  rewrite decide_False by done. rewrite pretty_N_go_step by lia.
  intros Heq.
  pose proof (pretty_N_go_length (N.pos (Pos.of_succ_nat n) `div` 10)
                (String (pretty_N_char (N.pos (Pos.of_succ_nat n) `mod` 10)) "")) as Hlen.
  rewrite Heq in Hlen. simpl in Hlen. lia.
Qed.

(** The text of a count is not empty, so [|| 0] leaves it as it is: a
    count of zero is the string [0], not the number. *)
Lemma or_zero_count (l : list jsobject) : or_zero (count l) = count l.
Proof.
  unfold or_zero, count, falsy.
  destruct (pretty (Z.of_nat (length l))) eqn:E; [|done].
  by apply pretty_nat_nonempty in E.
Qed.

(** C2.  In every store state [getAnalytics] returns, without changing the
    store, an aggregate whose [totalViews] is the decimal text of the number
    of stored events of kind [view] and whose [totalContent] is the decimal
    text of the number of content rows: a string in both cases (the string
    [0] in the empty store), not the number that the method's return type
    declares.  [popularContent] is sorted by view counter, descending (a row
    without a counter is ordered as the store orders [NULL], above every
    number), has at most 10 rows, and these are rows of the content table
    that come before all the others in that order; [recentViews] holds
    events of kind [view] only, sorted by timestamp, descending, at most 50
    of them, and these come before all the other [view] events in that
    order. *)
Theorem getAnalytics_aggregate (db : Db) :
  ∃ a other_content older_views,
    getAnalytics db = (Ok a, db)
    ∧ totalViews a = JStr (pretty (Z.of_nat (length (filter is_view (analytics_rows db)))))
    ∧ totalContent a = JStr (pretty (Z.of_nat (length (content_rows db))))
    ∧ (∀ n, totalViews a ≠ JNum n ∧ totalContent a ≠ JNum n)
    ∧ StronglySorted (desc "views") (popularContent a)
    ∧ length (popularContent a) = (10 `min` length (content_rows db))%nat
    ∧ popularContent a ++ other_content ≡ₚ content_rows db
    ∧ Forall (λ r, Forall (desc "views" r) other_content) (popularContent a)
    ∧ Forall is_view (recentViews a)
    ∧ StronglySorted (desc "timestamp") (recentViews a)
    ∧ (length (recentViews a) ≤ 50)%nat
    ∧ recentViews a ++ older_views ≡ₚ filter is_view (analytics_rows db)
    ∧ Forall (λ r, Forall (desc "timestamp" r) older_views) (recentViews a).
Proof.
  set (sorted_content := orderBy (desc "views") (content_rows db)).
  set (sorted_views := orderBy (desc "timestamp") (filter is_view (analytics_rows db))).
  exists (Summary (or_zero (count (filter is_view (analytics_rows db))))
            (or_zero (count (content_rows db)))
            (limit 10 sorted_content) (limit 50 sorted_views)),
    (drop 10 sorted_content), (drop 50 sorted_views).
  assert (Hsc : StronglySorted (desc "views") sorted_content) by (apply orderBy_sorted; apply _).
  assert (Hsv : StronglySorted (desc "timestamp") sorted_views) by (apply orderBy_sorted; apply _).
  split; [reflexivity|].
  cbn [totalViews totalContent popularContent recentViews].
  rewrite !or_zero_count. unfold count. repeat split; try discriminate.
  - by apply limit_sorted.
  - rewrite limit_length. unfold sorted_content. by rewrite orderBy_perm.
  - rewrite limit_rest. apply orderBy_perm.
  - by apply limit_top.
  - apply Forall_forall. intros r Hr.
    apply (subseteq_take 50) in Hr. unfold sorted_views in Hr.
    rewrite orderBy_perm in Hr. by apply list_elem_of_filter in Hr as [? _].
  - by apply limit_sorted.
  - rewrite limit_length. lia.
  - rewrite limit_rest. apply orderBy_perm.
  - by apply limit_top.
Qed.

(** C6.  In every store state [getPublishedContent] returns, without
    changing the store, exactly the content rows whose status is
    [published] (each as often as it is stored), newest first by creation
    time; no returned row has another status. *)
Theorem getPublishedContent_exact (db : Db) :
  ∃ l,
    getPublishedContent db = (Ok l, db)
    ∧ l ≡ₚ filter (λ r, text_is "status" "published" r = true) (content_rows db)
    ∧ StronglySorted (desc "createdAt") l
    ∧ Forall (λ r, r !! "status" = Some (JStr "published")) l
    ∧ (∀ r, r ∈ l ↔ r ∈ content_rows db ∧ r !! "status" = Some (JStr "published")).
Proof.
  eexists. split; [reflexivity|].
  assert (Hst : ∀ r : jsobject,
    text_is "status" "published" r = true ↔ r !! "status" = Some (JStr "published")).
  { intros r. unfold text_is. destruct (r !! "status") as [[]|] eqn:E; try (split; congruence).
    rewrite bool_decide_eq_true. split; congruence. }
  split; [apply orderBy_perm|].
  split; [apply orderBy_sorted; apply _|].
  split.
  - apply Forall_forall. intros r Hr. rewrite orderBy_perm in Hr.
    apply list_elem_of_filter in Hr as [Hp _]. by apply Hst.
  - intros r. rewrite orderBy_perm, list_elem_of_filter, Hst. tauto.
Qed.

End analytics.

(** ** What a parsed object holds *)

Section zod_facts.
Import Schema Zod DrizzleZod.

Lemma collect_inr {A} (rs : list (list issue + A)) (l : list A) :
  collect rs = inr l → rs = inr <$> l.
Proof.
  unfold collect.
  destruct (omap _ rs) eqn:Herr; [|discriminate].
  intros [= <-]. induction rs as [|[errs|a] rs IH]; simpl in *.
  - done.
  - discriminate.
  - f_equal. by apply IH.
Qed.

(** The elements of a parsed array of strings are strings. *)
Lemma zcheck_strings rt (path : nat → list string) (l l' : list jsval) :
  imap (λ i x, zcheck rt ZString (path i) x) l = inr <$> l' →
  forallb (λ x, match x with JStr _ => true | _ => false end) l' = true.
Proof.
  revert path l'. induction l as [|x l IH]; intros path [|x' l'] Heq; try done.
  simpl in Heq. injection Heq as Hx Hl.
  simpl. apply andb_true_intro. split.
  - destruct x; simpl in Hx; try discriminate. by injection Hx as <-.
  - by apply (IH (path ∘ S)).
Qed.

(** An array of strings sent for a [text[]] column is held as it is, unless
    one of the strings holds U+0000. *)
Lemma stored_strings (l : list jsval) :
  forallb (λ x, match x with JStr _ => true | _ => false end) l = true →
  mapM Store.stored_element l = if forallb Store.no_nul l then Some l else None.
Proof.
  induction l as [|x l IH]; [done|]. simpl. intros Hl.
  apply andb_prop in Hl as [Hx Hl]. destruct x; try discriminate.
  cbn [mapM Store.stored_element Store.no_nul]. rewrite (IH Hl).
  destruct (Store.has_nul s); [done|]. simpl.
  by destruct (forallb Store.no_nul l).
Qed.

(** A checked value of a column's schema is of the column's type.  For a
    column that is no timestamp it is held as it is when the store takes it,
    and the store takes it unless one of its strings holds U+0000; for a
    [json] column the store takes every value.  It is [null] for a [json]
    column only. *)
Lemma zcheck_stored rt (c : column) path (x o : jsval) :
  zcheck rt (column_ztype c) path x = inr o →
  match ctype c with
  | CTimestamp => ∃ t, o = JDate (Some t)
  | CJson => Store.stored c o = Some o
  | _ => o ≠ JNull ∧ Store.stored c o = if Store.no_nul o then Some o else None
  end.
Proof.
  unfold column_ztype, Store.stored, is_int4, int4_min, int4_max.
  destruct (ctype c) eqn:Hc; simpl; intros Hz.
  - destruct x; try discriminate.
    repeat case_bool_decide; try discriminate. injection Hz as <-.
    split; [done|]. simpl. rewrite bool_decide_eq_true_2; [done|].
    unfold int4_min, int4_max in *. lia.
  - destruct x; try discriminate. injection Hz as <-. split; [done|]. simpl.
    by destruct (Store.has_nul s).
  - destruct x; try discriminate.
    repeat case_bool_decide; try discriminate. injection Hz as <-.
    split; [done|]. simpl. rewrite bool_decide_eq_true_2; [done|].
    unfold int4_min, int4_max in *. lia.
  - destruct x as [| | | | | |[t|]]; try discriminate. injection Hz as <-. eauto.
  - destruct (is_json x); [|discriminate]. injection Hz as <-. by destruct x.
  - destruct x; try discriminate.
    destruct (collect _) as [errs|l'] eqn:Hcol; [discriminate|].
    injection Hz as <-. split; [done|].
    apply collect_inr in Hcol.
    rewrite (stored_strings l' (zcheck_strings rt (λ i, path ++ [pretty i]) _ _ Hcol)).
    cbn [Store.no_nul]. by destruct (forallb Store.no_nul l').
Qed.

(** A property that parsing puts in its output is [null], for a nullable
    property or one of any JSON type, or the checked value of the input's
    property. *)
Lemma zparse_field_Some rt k (f : zfield) (v : option jsval) (o : jsval) :
  zparse_field rt k f v = inr (Some o) →
  (o = JNull ∧ fnullable f = true)
  ∨ (∃ x, v = Some x ∧ zcheck rt (ftype f) [k] x = inr o).
Proof.
  unfold zparse_field. destruct v as [x|]; [|by destruct (foptional f)].
  assert (Hgen : match zcheck rt (ftype f) [k] x with
                 | inr v' => inr (Some v')
                 | inl errs => inl errs
                 end = inr (Some o) →
                 ∃ x0, Some x = Some x0 ∧ zcheck rt (ftype f) [k] x0 = inr o).
  { destruct (zcheck rt (ftype f) [k] x) eqn:E; [discriminate|].
    intros [= <-]. eauto. }
  destruct x; try (intros H; right; by apply Hgen).
  destruct (fnullable f) eqn:Hn.
  - intros [= <-]. by left.
  - intros H. right. by apply Hgen.
Qed.

(** Every property of the output of [parse] is named by the shape, and was
    parsed by its schema from the property of the same name. *)
Lemma parse_lookup_Some rt (shape : zobject) (body out : jsobject) k v :
  parse rt shape body = inr out →
  out !! k = Some v →
  ∃ f, (k, f) ∈ shape ∧ zparse_field rt k f (body !! k) = inr (Some v).
Proof.
  unfold parse. destruct (collect _) as [errs|kvs] eqn:Hcol; [discriminate|].
  intros [= <-] Hk. apply collect_inr in Hcol.
  apply elem_of_list_to_map_2 in Hk.
  apply list_elem_of_omap in Hk as ([k' o] & Hin & Ho).
  destruct o as [v'|]; [|discriminate]. simpl in Ho. injection Ho as -> ->.
  assert (Hin' : inr (k, Some v) ∈ (inr <$> kvs : list (list issue + (string * option jsval)))).
  { by apply list_elem_of_fmap_2. }
  rewrite <- Hcol in Hin'.
  apply list_elem_of_fmap in Hin' as ([k0 f] & Hf & Hsh).
  destruct (zparse_field rt k0 f (body !! k0)) eqn:E; [discriminate|].
  injection Hf as -> ->. eauto.
Qed.

Lemma parse_lookup_None rt (shape : zobject) (body out : jsobject) k :
  parse rt shape body = inr out → k ∉ keys shape → out !! k = None.
Proof.
  intros Hp Hk. destruct (out !! k) as [v|] eqn:E; [|done].
  destruct (parse_lookup_Some _ _ _ _ _ _ Hp E) as (f & Hin & _).
  exfalso. apply Hk. unfold keys. apply list_elem_of_fmap. by exists (k, f).
Qed.

(** The shape of an insert schema with some columns omitted, and of its
    partial form. *)
Lemma elem_of_omit_insert_schema (t : table) ks k f :
  (k, f) ∈ omit ks (createInsertSchema t) →
  ∃ c, c ∈ tcolumns t ∧ cname c = k ∧ k ∉ ks ∧ f = column_zfield c.
Proof.
  unfold omit, createInsertSchema. intros Hin.
  apply list_elem_of_filter in Hin as [Hk Hin].
  apply list_elem_of_fmap in Hin as (c & [= -> ->] & Hc). eauto.
Qed.

Lemma elem_of_partial (shape : zobject) k f :
  (k, f) ∈ partial shape →
  ∃ f', (k, f') ∈ shape ∧ f = ZField (ftype f') (fnullable f') true.
Proof.
  unfold partial. intros Hin.
  apply list_elem_of_fmap in Hin as ([k' f'] & [= -> ->] & Hin). eauto.
Qed.

Lemma keys_partial (shape : zobject) : keys (partial shape) = keys shape.
Proof.
  unfold keys, partial. rewrite <- list_fmap_compose.
  apply list_fmap_ext. by intros _ [k f] _.
Qed.

(** What a validated insert or update payload holds under a key whose
    column is no timestamp: a value of the column's type, not [null] when
    the column is [NOT NULL], which the store holds as it is, or refuses
    when one of its strings holds U+0000; the omitted columns have no key. *)
Lemma insert_schema_sound rt (t : table) ks (body out : jsobject) k v :
  Forall (λ c, cnotNull c = true → ctype c ≠ CJson) (tcolumns t) →
  Forall (λ c, ctype c = CTimestamp → cname c ∈ ks) (tcolumns t) →
  parse rt (omit ks (createInsertSchema t)) body = inr out
  ∨ parse rt (partial (omit ks (createInsertSchema t))) body = inr out →
  out !! k = Some v →
  ∃ c, c ∈ tcolumns t ∧ cname c = k ∧ k ∉ ks
       ∧ Store.not_null_ok c (Some v) = true
       ∧ Store.stored c v
         = if Store.no_nul v || bool_decide (ctype c = CJson) then Some v else None.
Proof.
  intros Hjson Htime Hp Hk.
  assert (∃ c, c ∈ tcolumns t ∧ cname c = k ∧ k ∉ ks
               ∧ ((v = JNull ∧ cnotNull c = false)
                  ∨ ∃ x, zcheck rt (column_ztype c) [k] x = inr v))
    as (c & Hc & Hn & Hks & Hv).
  { destruct Hp as [Hp|Hp];
      destruct (parse_lookup_Some _ _ _ _ _ _ Hp Hk) as (f & Hin & Hf).
    - apply elem_of_omit_insert_schema in Hin as (c & Hc & Hn & Hks & ->).
      exists c. repeat split; try done.
      apply zparse_field_Some in Hf as [[-> Hnull]|(x & _ & Hx)]; simpl in *.
      + left. split; [done|]. by apply negb_true_iff.
      + right. eauto.
    - apply elem_of_partial in Hin as (f' & Hin & ->).
      apply elem_of_omit_insert_schema in Hin as (c & Hc & Hn & Hks & ->).
      exists c. repeat split; try done.
      apply zparse_field_Some in Hf as [[-> Hnull]|(x & _ & Hx)]; simpl in *.
      + left. split; [done|]. by apply negb_true_iff.
      + right. eauto. }
  exists c. repeat split; try done.
  - unfold Store.not_null_ok. destruct Hv as [[-> ->]|[x Hx]]; [done|].
    apply zcheck_stored in Hx.
    destruct (cnotNull c) eqn:Hnn; [|done]. simpl.
    destruct v; try done. exfalso.
    rewrite Forall_forall in Hjson, Htime.
    destruct (ctype c) eqn:Hty;
      try (by destruct Hx as [Hx _]); try (by destruct Hx as [? [=]]).
    exact (Hjson c Hc Hnn Hty).
  - destruct Hv as [[-> _]|[x Hx]]; [unfold Store.stored; by destruct (ctype c)|].
    apply zcheck_stored in Hx. rewrite Forall_forall in Htime.
    destruct (ctype c) eqn:Hty; try (by destruct Hx as [_ ->]; rewrite orb_false_r).
    + exfalso. apply Hks. rewrite <- Hn. by apply Htime.
    + by rewrite orb_true_r.
Qed.

End zod_facts.

(** ** The store's statements *)

Section store_facts.
Import Schema Store.

Lemma rows_set_rows t l db : rows t (set_rows t l db) = l.
Proof. by destruct t. Qed.

Lemma rows_set_rows_ne t t' l db : t ≠ t' → rows t' (set_rows t l db) = rows t' db.
Proof. by destruct t, t'. Qed.

Lemma set_rows_same t db : set_rows t (rows t db) db = db.
Proof. by destruct t, db. Qed.

Lemma nextval_set_rows t t' l db : nextval t' (set_rows t l db) = nextval t' db.
Proof. by destruct t, t'. Qed.

Lemma rows_advance t t' db : rows t' (advance t db) = rows t' db.
Proof. by destruct t, t'. Qed.

Lemma nextval_advance t db : nextval t (advance t db) = nextval t db + 1.
Proof. by destruct t. Qed.

(** Two columns of a table with the same name are the same column. *)
Lemma column_by_name (t : table) c c' :
  NoDup (column_names t) → c ∈ tcolumns t → c' ∈ tcolumns t → cname c = cname c' → c = c'.
Proof.
  unfold column_names. induction (tcolumns t) as [|c0 l IH]; intros Hnd Hc Hc' Hn.
  - by apply elem_of_nil in Hc.
  - rewrite fmap_cons in Hnd. apply NoDup_cons in Hnd as [Hnotin Hnd].
    apply elem_of_cons in Hc as [->|Hc]; apply elem_of_cons in Hc' as [->|Hc']; auto.
    + exfalso. apply Hnotin. rewrite Hn. by apply list_elem_of_fmap_2.
    + exfalso. apply Hnotin. rewrite <- Hn. by apply list_elem_of_fmap_2.
Qed.

(** What the store takes it holds. *)
Lemma accepts_stored (c : column) (v : jsval) :
  accepts c v = true → stored c v = Some (held c v).
Proof.
  unfold accepts, held. rewrite bool_decide_eq_true. by intros [o ->].
Qed.

Lemma stored_accepts (c : column) (v o : jsval) :
  stored c v = Some o → accepts c v = true ∧ held c v = o.
Proof.
  unfold accepts, held. intros ->. split; [|done]. by apply bool_decide_eq_true.
Qed.

Lemma accepts_false (c : column) (v : jsval) : stored c v = None → accepts c v = false.
Proof.
  unfold accepts. intros ->. apply bool_decide_eq_false. by intros [? ?].
Qed.

(** Only [null] is held as [NULL]. *)
Lemma held_null (c : column) (v : jsval) : held c v = JNull → v = JNull.
Proof.
  unfold held, stored.
  destruct (ctype c), v as [| | | | | |[?|]]; simpl; try done;
    repeat case_match; simpl; try done;
    try (destruct (integer_of_text _); simpl; done);
    try (destruct (mapM _ _); simpl; done).
Qed.

(** An [integer] or [serial] column holds numbers within 32 bits. *)
Lemma stored_integer (c : column) (v o : jsval) :
  ctype c = CInteger ∨ ctype c = CSerial →
  stored c v = Some o →
  o = JNull ∨ ∃ n, o = JNum n ∧ Zod.is_int4 n = true.
Proof.
  unfold stored, integer_of_text. intros [-> | ->] Hs.
  all: destruct v as [| | | | | |[?|]]; simplify_eq/=; auto.
  all: repeat case_match; simplify_eq/=; right; eexists; split; try done.
  all: match goal with H : _ && _ = true |- _ => by apply andb_prop in H as [_ ?] end.
Qed.

(** The assignments of an update are the properties that name a column,
    each as the store holds it. *)
Lemma assignments_None (t : table) (set : jsobject) k :
  set !! k = None → assignments t set !! k = None.
Proof.
  unfold assignments. intros Hk. apply not_elem_of_list_to_map_1. intros Hin.
  apply list_elem_of_fmap in Hin as ([k' v] & -> & Hin).
  apply list_elem_of_omap in Hin as (c & Hc & Hv).
  destruct (set !! cname c) eqn:E; simplify_eq/=.
Qed.

Lemma assignments_not_column (t : table) (set : jsobject) k :
  k ∉ column_names t → assignments t set !! k = None.
Proof.
  unfold assignments, column_names. intros Hk. apply not_elem_of_list_to_map_1. intros Hin.
  apply list_elem_of_fmap in Hin as ([k' v] & -> & Hin).
  apply list_elem_of_omap in Hin as (c & Hc & Hv).
  destruct (set !! cname c) eqn:E; simplify_eq/=.
  apply Hk. by apply list_elem_of_fmap_2.
Qed.

Lemma assignments_lookup (t : table) (set : jsobject) c :
  NoDup (column_names t) → c ∈ tcolumns t →
  assignments t set !! cname c = held c <$> set !! cname c.
Proof.
  unfold assignments, column_names. induction (tcolumns t) as [|c0 l IH]; intros Hnd Hc.
  - by apply elem_of_nil in Hc.
  - rewrite fmap_cons in Hnd. apply NoDup_cons in Hnd as [Hnotin Hnd].
    change (omap (λ c1, (λ v, (cname c1, held c1 v)) <$> set !! cname c1) (c0 :: l))
      with (match (λ v, (cname c0, held c0 v)) <$> set !! cname c0 with
            | Some y => y :: omap (λ c1, (λ v, (cname c1, held c1 v)) <$> set !! cname c1) l
            | None => omap (λ c1, (λ v, (cname c1, held c1 v)) <$> set !! cname c1) l
            end).
    apply elem_of_cons in Hc as [->|Hc].
    + destruct (set !! cname c0) as [v|] eqn:E; simpl.
      * by rewrite lookup_insert_eq.
      * apply not_elem_of_list_to_map_1. intros Hin.
        apply list_elem_of_fmap in Hin as ([k' v] & Hk & Hin).
        apply list_elem_of_omap in Hin as (c & Hc & Hv).
        destruct (set !! cname c) eqn:E'; [|discriminate].
        injection Hv as <- _. simpl in Hk.
        apply Hnotin. rewrite Hk. by apply list_elem_of_fmap_2.
    + assert (Hne : cname c0 ≠ cname c).
      { intros Heq. apply Hnotin. rewrite Heq. by apply list_elem_of_fmap_2. }
      destruct (set !! cname c0) as [v|] eqn:E; simpl.
      * rewrite lookup_insert_ne by done. by apply IH.
      * by apply IH.
Qed.

Lemma assignable_lookup (t : table) (set : jsobject) c :
  NoDup (column_names t) → assignable t set → c ∈ tcolumns t →
  assignments t set !! cname c = held c <$> set !! cname c.
Proof. intros Hnd _ Hc. by apply assignments_lookup. Qed.

Lemma assignable_accepts_all (t : table) (set : jsobject) :
  NoDup (column_names t) → assignable t set → accepts_all t set = true.
Proof.
  intros Hnd Ha. unfold accepts_all. apply forallb_forall. intros c Hc.
  apply list_elem_of_In in Hc.
  destruct (set !! cname c) as [v|] eqn:E; [|done]. simpl.
  destruct (Ha _ _ E) as (c' & Hc' & Hn & Hacc & _).
  by rewrite <- (column_by_name t c' c Hnd Hc' Hc Hn).
Qed.

(** A value that the store refuses for its column makes the statement
    fail before it runs. *)
Lemma accepts_all_false (t : table) (values : jsobject) c v :
  c ∈ tcolumns t → values !! cname c = Some v → accepts c v = false →
  accepts_all t values = false.
Proof.
  intros Hc Hv Hacc. destruct (accepts_all t values) eqn:Hall; [|done].
  unfold accepts_all in Hall. rewrite forallb_forall in Hall.
  apply list_elem_of_In in Hc. specialize (Hall c Hc). rewrite Hv in Hall. simpl in Hall.
  congruence.
Qed.

(** The rows of a table after an update of the rows with identifier [n]. *)
Lemma Forall2_update (set : jsobject) n (l : list jsobject) :
  Forall2 (λ r r', if has_id n r then r' = set ∪ r else r' = r)
    l ((λ r, if has_id n r then set ∪ r else r) <$> l).
Proof.
  induction l as [|r l IH]; simpl; constructor; [|done]. by destruct (has_id n r).
Qed.

(** An update with assignable properties goes through: it rewrites the rows
    with the identifier, returns them as rewritten, and touches nothing
    else. *)
Lemma db_update_assignable (t : table) (set : jsobject) (n : Z) (db : Db) :
  NoDup (column_names t) →
  assignable t set →
  size set ≠ 0%nat →
  Zod.is_int4 n = true →
  db_update t set (Num n) db =
    (Ok ((λ r, assignments t set ∪ r) <$> filter (λ r, has_id n r = true) (rows (tname t) db)),
     set_rows (tname t)
       ((λ r, if has_id n r then assignments t set ∪ r else r) <$> rows (tname t) db) db).
Proof.
  intros Hnd Ha Hsize Hid. unfold db_update.
  rewrite bool_decide_eq_false_2 by done.
  rewrite assignable_accepts_all by done. simpl. rewrite Hid.
  match goal with |- (if ?b then _ else _) = _ => assert (Hb : b = true); [|by rewrite Hb] end.
  apply orb_true_intro. right. apply forallb_forall. intros c Hc.
  apply list_elem_of_In in Hc. rewrite assignments_lookup by done.
  destruct (set !! cname c) as [v|] eqn:E; [|done]. simpl.
  destruct (Ha _ _ E) as (c' & Hc' & Hn & Hacc & Hnn & Hkey & Href).
  rewrite (column_by_name t c' c Hnd Hc' Hc Hn) in *.
  unfold reference_ok, unique_ok. rewrite Hnn, Hkey, Href. done.
Qed.

(** An update that sends a value the store refuses fails and changes
    nothing. *)
Lemma db_update_refused (t : table) (set : jsobject) (id : jsnumber) (db : Db) :
  accepts_all t set = false →
  ∃ msg, db_update t set id db = (Throw (StoreError msg), db).
Proof.
  intros Hacc. unfold db_update. case_bool_decide; [eauto|].
  rewrite Hacc. simpl. eauto.
Qed.

End store_facts.

(** ** Partial updates *)

Section updates.
Import Schema Store Storage Shared.

Lemma content_names_NoDup : NoDup (column_names content).
Proof. by_compute. Qed.

Lemma upcoming_names_NoDup : NoDup (column_names upcomingContent).
Proof. by_compute. Qed.

Lemma analytics_names_NoDup : NoDup (column_names analytics).
Proof. by_compute. Qed.

Lemma content_no_json : Forall (λ c, cnotNull c = true → ctype c ≠ CJson) (tcolumns content).
Proof. each_column; done. Qed.

Lemma content_plain_columns :
  Forall (λ c, cname c ≠ "id" → cprimary c || cunique c = false ∧ creferences c = None)
    (tcolumns content).
Proof. each_column; done. Qed.

Lemma upcoming_plain_columns :
  Forall (λ c, cname c ≠ "id" → cprimary c || cunique c = false ∧ creferences c = None)
    (tcolumns upcomingContent).
Proof. each_column; done. Qed.

Lemma content_timestamps_omitted :
  Forall (λ c, ctype c = CTimestamp → cname c ∈ ["id"; "createdAt"; "updatedAt"; "views"])
    (tcolumns content).
Proof. each_column; try done; intros _; set_solver. Qed.

Lemma content_not_json : Forall (λ c, ctype c ≠ CJson) (tcolumns content).
Proof. each_column; done. Qed.

(** What a payload holds that the partial content schema, or the content
    schema itself, lets through: values for columns that the client may
    set, each held by the store as it is unless one of its strings holds
    U+0000, which the store refuses. *)
Lemma content_payload_sound rt (body v : jsobject) k x :
  Zod.parse rt insertContentSchema body = inr v
  ∨ Zod.parse rt (Zod.partial insertContentSchema) body = inr v →
  v !! k = Some x →
  ∃ c, c ∈ tcolumns content ∧ cname c = k
       ∧ k ∉ ["id"; "createdAt"; "updatedAt"; "views"]
       ∧ not_null_ok c (Some x) = true
       ∧ cprimary c || cunique c = false ∧ creferences c = None
       ∧ stored c x = if no_nul x then Some x else None.
Proof.
  intros Hp Hk.
  destruct (insert_schema_sound rt content _ body v k x content_no_json
              content_timestamps_omitted Hp Hk)
    as (c & Hc & Hn & Hks & Hnn & Hst).
  exists c. repeat split; try done.
  1, 2: pose proof content_plain_columns as Hplain;
    rewrite Forall_forall in Hplain; apply Hplain; [done|];
    rewrite Hn; intros ->; apply Hks; set_solver.
  pose proof content_not_json as Hj. rewrite Forall_forall in Hj.
  rewrite Hst, (bool_decide_eq_false_2 _ (Hj c Hc)). by rewrite orb_false_r.
Qed.

(** A payload the partial content schema lets through, with the refreshed
    [updatedAt] added, is assignable to the content table when none of its
    strings holds U+0000 and the clock reads an instant of the years 1 to
    9999; otherwise the store refuses one of the values. *)
Lemma content_patch_assignable rt (body patch : jsobject) :
  Zod.parse rt (Zod.partial insertContentSchema) body = inr patch →
  nul_free patch → storable_instant (Date_now rt) →
  assignable content (<["updatedAt" := JDate (Some (Date_now rt))]> patch).
Proof.
  intros Hp Hnul Hnow k v Hk. rewrite lookup_insert in Hk. case_decide as Hupd.
  - injection Hk as <-. subst k.
    exists (notNull (defaultNow (timestamp "updatedAt"))).
    assert (Hst : stored (notNull (defaultNow (timestamp "updatedAt"))) (JDate (Some (Date_now rt)))
                  = Some (JDate (Some (read_back (Date_now rt))))).
    { unfold stored. cbn [ctype notNull defaultNow timestamp].
      by rewrite bool_decide_eq_true_2. }
    apply stored_accepts in Hst as [Hacc Hheld].
    rewrite Hheld. repeat split; try done. in_columns.
  - destruct (content_payload_sound rt body patch k v (or_intror Hp) Hk)
      as (c & Hc & Hn & Hks & Hnn & Hkey & Href & Hst).
    rewrite (Hnul k v Hk) in Hst. apply stored_accepts in Hst as [Hacc Hheld].
    exists c. rewrite Hheld. done.
Qed.

Lemma content_patch_refused rt (body patch : jsobject) :
  Zod.parse rt (Zod.partial insertContentSchema) body = inr patch →
  ¬ (nul_free patch ∧ storable_instant (Date_now rt)) →
  accepts_all content (<["updatedAt" := JDate (Some (Date_now rt))]> patch) = false.
Proof.
  intros Hp Hnot.
  destruct (decide (storable_instant (Date_now rt))) as [Hnow|Hnow].
  - assert (Hnul : ¬ nul_free patch) by tauto.
    apply map_not_Forall in Hnul as (k & v & Hk & Hv); [|apply _].
    apply not_true_is_false in Hv.
    destruct (content_payload_sound rt body patch k v (or_intror Hp) Hk)
      as (c & Hc & Hn & Hks & Hnn & Hkey & Href & Hst).
    rewrite Hv in Hst. apply accepts_false in Hst.
    apply (accepts_all_false content _ c v Hc); [|done].
    rewrite Hn, lookup_insert_ne; [done|]. intros <-. apply Hks. set_solver.
  - apply (accepts_all_false content _ (notNull (defaultNow (timestamp "updatedAt")))
             (JDate (Some (Date_now rt)))).
    + in_columns.
    + by rewrite lookup_insert_eq.
    + apply accepts_false. unfold stored. cbn [ctype notNull defaultNow timestamp].
      by rewrite bool_decide_eq_false_2.
Qed.


Lemma has_id_union (set r : jsobject) n :
  set !! "id" = None → has_id n (set ∪ r) = has_id n r.
Proof.
  intros Hset. unfold has_id, row_id. by rewrite lookup_union_r.
Qed.

Lemma filter_update (set : jsobject) n (l : list jsobject) :
  set !! "id" = None →
  filter (λ r, has_id n r = true) ((λ r, if has_id n r then set ∪ r else r) <$> l)
  = (λ r, set ∪ r) <$> filter (λ r, has_id n r = true) l.
Proof.
  intros Hset. induction l as [|r l IH]; [done|].
  rewrite fmap_cons, !filter_cons.
  destruct (has_id n r) eqn:Hr.
  - rewrite !decide_True by (by rewrite ?has_id_union). by rewrite fmap_cons, IH.
  - rewrite !decide_False by (by rewrite Hr). done.
Qed.


End updates.

(** ** Creation *)

Section creation.
Import Schema Store Storage Shared Routes.

(** A required property of the shape is present in the output of [parse]. *)
Lemma parse_required rt (shape : Zod.zobject) (body out : jsobject) k f :
  Zod.parse rt shape body = inr out →
  (k, f) ∈ shape → Zod.foptional f = false → is_Some (out !! k).
Proof.
  unfold Zod.parse. destruct (Zod.collect _) as [errs|kvs] eqn:Hcol; [discriminate|].
  intros [= <-] Hin Hopt. apply collect_inr in Hcol.
  assert (Hf : (let '(k, f) := (k, f) in
                match Zod.zparse_field rt k f (body !! k) with
                | inr o => inr (k, o)
                | inl errs => inl errs
                end) ∈ (inr <$> kvs : list (list Zod.issue + (string * option jsval)))).
  { rewrite <- Hcol. apply list_elem_of_fmap. by exists (k, f). }
  apply list_elem_of_fmap in Hf as ([k' o] & Hf & Hkv). simpl in Hf.
  destruct (Zod.zparse_field rt k f (body !! k)) as [|o'] eqn:E; [discriminate|].
  injection Hf as <- <-.
  assert (∃ v, o' = Some v) as [v ->].
  { unfold Zod.zparse_field in E. rewrite Hopt in E.
    destruct (body !! k) as [x|]; [|discriminate].
    destruct x; repeat case_match; simplify_eq; eauto. }
  apply not_eq_None_Some. intros Hnone.
  apply not_elem_of_list_to_map_2 in Hnone. apply Hnone.
  apply list_elem_of_fmap. exists (k, v). split; [done|].
  apply list_elem_of_omap. by exists (k, Some v).
Qed.

(** The row an insert makes holds, for each column, the value given for it,
    as the store holds it, or else its default. *)
Lemma insert_row_lookup rt db (t : table) (values : jsobject) c :
  NoDup (column_names t) → c ∈ tcolumns t →
  insert_row rt db t values !! cname c
  = Some (from_option (held c) (default_value rt db t c) (values !! cname c)).
Proof.
  intros Hnd Hc. unfold insert_row. apply elem_of_list_to_map_1.
  - rewrite <- list_fmap_compose. exact Hnd.
  - apply list_elem_of_fmap. by exists c.
Qed.

(** A number sent for an [integer] column is held as it is. *)
Lemma held_number (c : column) (n : Z) :
  ctype c = CInteger ∨ ctype c = CSerial → held c (JNum n) = JNum n.
Proof.
  unfold held, stored. intros [-> | ->]; by destruct (Zod.is_int4 n).
Qed.

(** The store holds a validated value of a column that is no timestamp as
    it is. *)
Lemma insert_schema_held rt (t : table) ks (body v : jsobject) c x :
  Forall (λ c, cnotNull c = true → ctype c ≠ CJson) (tcolumns t) →
  Forall (λ c, ctype c = CTimestamp → cname c ∈ ks) (tcolumns t) →
  NoDup (column_names t) →
  Zod.parse rt (Zod.omit ks (DrizzleZod.createInsertSchema t)) body = inr v
  ∨ Zod.parse rt (Zod.partial (Zod.omit ks (DrizzleZod.createInsertSchema t))) body = inr v →
  c ∈ tcolumns t → v !! cname c = Some x → held c x = x.
Proof.
  intros Hjson Htime Hnd Hp Hc Hk.
  destruct (insert_schema_sound rt t ks body v _ x Hjson Htime Hp Hk)
    as (c' & Hc' & Hn & _ & _ & Hst).
  rewrite (column_by_name t c' c Hnd Hc' Hc Hn) in Hst.
  unfold held. rewrite Hst. by destruct (_ || _).
Qed.

Lemma analytics_no_json : Forall (λ c, cnotNull c = true → ctype c ≠ CJson) (tcolumns analytics).
Proof. each_column; done. Qed.

Lemma analytics_timestamps_omitted :
  Forall (λ c, ctype c = CTimestamp → cname c ∈ ["id"; "timestamp"]) (tcolumns analytics).
Proof. each_column; try done; intros _; set_solver. Qed.

Lemma analytics_event_held rt (body v : jsobject) c x :
  Zod.parse rt insertAnalyticsSchema body = inr v →
  c ∈ tcolumns analytics → v !! cname c = Some x → held c x = x.
Proof.
  intros Hp. apply (insert_schema_held rt analytics _ body v c x analytics_no_json
                      analytics_timestamps_omitted analytics_names_NoDup (or_introl Hp)).
Qed.

(** An insert that draws its identifier from a sequence that is ahead, with
    values the store takes and a row that meets [NOT NULL] and its
    references, goes through: the row is appended and the sequence moves
    on. *)
Lemma db_insert_fresh rt (t : table) (values : jsobject) (db : Db) :
  accepts_all t values = true →
  values !! "id" = None →
  sequence_ahead (tname t) db →
  Forall (λ c,
    not_null_ok c (insert_row rt db t values !! cname c) = true
    ∧ reference_ok db c (insert_row rt db t values !! cname c) = true
    ∧ (cprimary c || cunique c = true →
       insert_row rt db t values !! cname c = Some (JNum (nextval (tname t) db))
       ∧ cname c = "id" ∧ ctype c = CSerial)) (tcolumns t) →
  Exists (λ c, cname c = "id" ∧ ctype c = CSerial) (tcolumns t) →
  db_insert rt t values db =
    (Ok (insert_row rt db t values),
     set_rows (tname t) (rows (tname t) db ++ [insert_row rt db t values])
       (advance (tname t) db)).
Proof.
  intros Hacc Hid Hseq Hcols Hserial. unfold db_insert. rewrite Hacc. simpl.
  assert (Hdraw : draws_serial t values = true).
  { unfold draws_serial. apply existsb_exists.
    apply Exists_exists in Hserial as (c & Hc & Hn & Hty).
    exists c. split; [by apply list_elem_of_In|]. by rewrite Hty, Hn, Hid. }
  rewrite Hdraw.
  match goal with |- (if ?b then _ else _) = _ => assert (Hb : b = true); [|by rewrite Hb] end.
  apply forallb_forall. intros c Hc. apply list_elem_of_In in Hc.
  rewrite Forall_forall in Hcols. destruct (Hcols c Hc) as (Hnn & Href & Hkey).
  rewrite Hnn, Href. simpl. unfold unique_ok.
  destruct (cprimary c || cunique c) eqn:Hk; [|done]. simpl.
  destruct (Hkey eq_refl) as (Hval & Hn & _). rewrite Hval, Hn.
  apply negb_true_iff. apply not_true_iff_false. intros Hex.
  apply existsb_exists in Hex as (r & Hr & Heq). apply list_elem_of_In in Hr.
  unfold sql_eq in Heq. destruct (r !! "id") as [[]|] eqn:E; try discriminate.
  apply bool_decide_eq_true in Heq. subst.
  specialize (Hseq r (nextval (tname t) db) Hr). unfold row_id in Hseq. rewrite E in Hseq.
  specialize (Hseq eq_refl). lia.
Qed.

Lemma content_required :
  Forall (λ c, cnotNull c = true →
    hasDefault c = true
    ∨ ((cname c, DrizzleZod.column_zfield c) ∈ insertContentSchema
       ∧ Zod.foptional (DrizzleZod.column_zfield c) = false)) (tcolumns content).
Proof.
  each_column; intros Hnn;
    first [ discriminate Hnn | left; reflexivity | right; split; [by_compute|reflexivity] ].
Qed.

Lemma content_defaults rt db :
  Forall (λ c, hasDefault c = true →
    is_null (Some (default_value rt db content c)) = false) (tcolumns content).
Proof. each_column; done. Qed.

Lemma content_keys :
  Forall (λ c, creferences c = None
    ∧ (cprimary c || cunique c = true → cname c = "id" ∧ ctype c = CSerial))
    (tcolumns content).
Proof. each_column; done. Qed.

(** A payload the content insert schema lets through is assignable when
    none of its strings holds U+0000, and the store then holds its values as
    they are; otherwise the store refuses one of its values. *)
Lemma content_insert_assignable rt (body v : jsobject) :
  Zod.parse rt insertContentSchema body = inr v → nul_free v → assignable content v.
Proof.
  intros Hp Hnul k x Hk.
  destruct (content_payload_sound rt body v k x (or_introl Hp) Hk)
    as (c & Hc & Hn & Hks & Hnn & Hkey & Href & Hst).
  rewrite (Hnul k x Hk) in Hst. apply stored_accepts in Hst as [Hacc Hheld].
  exists c. rewrite Hheld. done.
Qed.

Lemma content_insert_held rt (body v : jsobject) c x :
  Zod.parse rt insertContentSchema body = inr v → nul_free v →
  c ∈ tcolumns content → v !! cname c = Some x → held c x = x.
Proof.
  intros Hp Hnul Hc Hk.
  destruct (content_payload_sound rt body v _ x (or_introl Hp) Hk)
    as (c' & Hc' & Hn & Hks & Hnn & Hkey & Href & Hst).
  rewrite (column_by_name content c' c content_names_NoDup Hc' Hc Hn) in Hst.
  rewrite (Hnul _ x Hk) in Hst. by apply stored_accepts in Hst as [_ ?].
Qed.

Lemma content_insert_refused rt (body v : jsobject) :
  Zod.parse rt insertContentSchema body = inr v → ¬ nul_free v →
  accepts_all content v = false.
Proof.
  intros Hp Hnul.
  apply map_not_Forall in Hnul as (k & x & Hk & Hx); [|apply _].
  apply not_true_is_false in Hx.
  destruct (content_payload_sound rt body v k x (or_introl Hp) Hk)
    as (c & Hc & Hn & Hks & Hnn & Hkey & Href & Hst).
  rewrite Hx in Hst. apply accepts_false in Hst.
  apply (accepts_all_false content _ c x Hc); [|done]. by rewrite Hn.
Qed.

(** The row of a validated payload without U+0000 holds the payload's
    values as they are. *)
Lemma content_insert_row rt (body v : jsobject) (db : Db) c :
  Zod.parse rt insertContentSchema body = inr v → nul_free v →
  c ∈ tcolumns content →
  insert_row rt db content v !! cname c
  = Some (from_option id (default_value rt db content c) (v !! cname c)).
Proof.
  intros Hp Hnul Hc. rewrite (insert_row_lookup rt db content v c content_names_NoDup Hc).
  destruct (v !! cname c) as [x|] eqn:E; [|done]. simpl.
  by rewrite (content_insert_held rt body v c x Hp Hnul Hc E).
Qed.

(** Creating content from a validated payload, in a store whose content
    sequence is ahead.  When no string of the payload holds U+0000 the row
    is made of the payload and of the defaults, appended, and returned;
    otherwise the store refuses the payload and nothing changes. *)
Lemma createContent_validated rt (body v : jsobject) (db : Db) :
  Zod.parse rt insertContentSchema body = inr v →
  nul_free v →
  sequence_ahead Content db →
  createContent rt v db =
    (Ok (insert_row rt db content v),
     set_rows Content (content_rows db ++ [insert_row rt db content v])
       (advance Content db)).
Proof.
  intros Hp Hnul Hseq. unfold createContent.
  pose proof (content_insert_assignable rt body v Hp Hnul) as Ha.
  assert (Hid : v !! "id" = None).
  { eapply parse_lookup_None; [exact Hp|]. by_compute. }
  apply (db_insert_fresh rt content v db); try done.
  - by apply assignable_accepts_all, Ha; apply content_names_NoDup.
  - apply Forall_forall. intros c Hc.
    rewrite (insert_row_lookup rt db content v c content_names_NoDup Hc).
    pose proof content_required as Hreq. pose proof (content_defaults rt db) as Hdef.
    pose proof content_keys as Hkeys.
    rewrite Forall_forall in Hreq, Hdef, Hkeys.
    destruct (Hkeys c Hc) as [Href Hkey].
    split; [|split].
    + unfold not_null_ok. destruct (cnotNull c) eqn:Hnn; [|done]. simpl.
      apply negb_true_iff.
      destruct (v !! cname c) as [x|] eqn:E; simpl.
      * destruct (Ha _ _ E) as (c' & Hc' & Hn & _ & Hnn' & _).
        rewrite (column_by_name content c' c content_names_NoDup Hc' Hc Hn) in Hnn'.
        unfold not_null_ok in Hnn'. rewrite Hnn in Hnn'. by apply negb_true_iff in Hnn'.
      * destruct (Hreq c Hc Hnn) as [Hd|[Hin Hopt]]; [by apply Hdef|].
        destruct (parse_required rt _ body v _ _ Hp Hin Hopt) as [x Hx]. congruence.
    + unfold reference_ok. by rewrite Href.
    + intros Hk. destruct (Hkey Hk) as [Hn Hty]. repeat split; try done.
      rewrite Hn, Hid. simpl. unfold default_value. by rewrite Hty.
  - apply Exists_cons_hd. done.
Qed.

Lemma createContent_refused rt (body v : jsobject) (db : Db) :
  Zod.parse rt insertContentSchema body = inr v →
  ¬ nul_free v →
  createContent rt v db = (Throw (StoreError "invalid input value"), db).
Proof.
  intros Hp Hnul. unfold createContent, db_insert.
  by rewrite (content_insert_refused rt body v Hp Hnul).
Qed.

End creation.

(** ** [POST /api/content] and [POST /api/analytics] *)

Section posts.
Import Schema Store Storage Shared Routes.

(** What [POST /api/content] answers in a store whose content sequence is
    ahead: 400 with the issues when the body fails the insert schema; 500
    when it passes and a string of it holds U+0000; and else 200 with the
    new row, which is appended to the table. *)
Lemma POST_api_content_spec rt (body : jsobject) (db : Db) :
  sequence_ahead Content db →
  POST_api_content rt body db =
    match Zod.parse rt insertContentSchema body with
    | inl errors => (Response 400 (Invalid "Invalid data" errors), db)
    | inr v =>
        if bool_decide (nul_free v) then
          (json (Row (insert_row rt db content v)),
           set_rows Content (content_rows db ++ [insert_row rt db content v])
             (advance Content db))
        else (Response 500 (Failure "Failed to create content"), db)
    end.
Proof.
  intros Hseq. unfold POST_api_content, try_catch, bind, parse.
  destruct (Zod.parse rt insertContentSchema body) as [errs|v] eqn:Hp; [done|].
  unfold ret. case_bool_decide as Hnul.
  - by rewrite (createContent_validated rt body v db Hp Hnul Hseq).
  - by rewrite (createContent_refused rt body v db Hp Hnul).
Qed.


Lemma analytics_event_fresh rt (ev : string) (db : Db) :
  has_nul ev = false →
  sequence_ahead Analytics db →
  createAnalyticsEvent rt (Sample.event_of ev) db =
    (Ok (insert_row rt db analytics (Sample.event_of ev)),
     set_rows Analytics (analytics_rows db ++ [insert_row rt db analytics (Sample.event_of ev)])
       (advance Analytics db)).
Proof.
  intros Hnul Hseq. unfold createAnalyticsEvent.
  assert (Hheld : held (notNull (text "eventType")) (JStr ev) = JStr ev).
  { unfold held, stored. cbn [ctype notNull text]. by rewrite Hnul. }
  apply (db_insert_fresh rt analytics); try done.
  - unfold accepts_all. apply forallb_forall. intros c Hc. apply list_elem_of_In in Hc.
    revert c Hc. apply Forall_forall. each_column; try done.
    unfold Sample.event_of. cbn [cname notNull text]. rewrite lookup_singleton_eq. simpl.
    unfold accepts, stored. cbn [ctype notNull text]. by rewrite Hnul.
  - each_column; repeat split; try done; try (intros; discriminate).
    rewrite (insert_row_lookup rt db analytics _ (notNull (text "eventType")) analytics_names_NoDup)
      by in_columns.
    unfold Sample.event_of. cbn [cname notNull text]. rewrite lookup_singleton_eq. simpl.
    by rewrite Hheld.
  - apply Exists_cons_hd. done.
Qed.

(** C5.  In a store whose content sequence is ahead of the stored
    identifiers, [POST /api/content] with the body [{title: "X", type:
    "movie", genres: ["Drama"], rating: "PG"}] answers 200 with the stored
    row, whose [id] is the next value of the sequence, whose [views] is 0 and
    whose [status] is [draft]; the same body without [genres] answers 400
    with one issue, whose path is [genres], and stores nothing. *)
Theorem POST_content_scenario rt (db : Db) :
  sequence_ahead Content db →
  (∃ row db',
     POST_api_content rt Sample.movie db = (Response 200 (Row row), db')
     ∧ content_rows db' = content_rows db ++ [row]
     ∧ row !! "id" = Some (JNum (content_seq db))
     ∧ row !! "views" = Some (JNum 0)
     ∧ row !! "status" = Some (JStr "draft")
     ∧ row !! "title" = Some (JStr "X")
     ∧ row !! "type" = Some (JStr "movie")
     ∧ row !! "genres" = Some (JArr [JStr "Drama"])
     ∧ row !! "rating" = Some (JStr "PG"))
  ∧ POST_api_content rt Sample.movie_without_genres db =
      (Response 400 (Invalid "Invalid data"
         [Zod.Issue ["genres"] "invalid_type" "Required"]), db).
Proof.
  intros Hseq. split.
  - eexists _, _. split.
    { rewrite (POST_api_content_spec rt _ db Hseq).
      evaluate_parse. cbv beta iota.
      rewrite bool_decide_eq_true_2 by by_compute. reflexivity. }
    repeat split; by vm_compute.
  - rewrite (POST_api_content_spec rt _ db Hseq). by vm_compute.
Qed.

End posts.

(** ** What a client can and cannot put in a new record *)

Section insert_schemas.
Import Schema Store Storage Shared Routes.

(** A column the values leave out gets its default. *)
Lemma insert_row_default rt db (t : table) (values : jsobject) c k :
  NoDup (column_names t) → c ∈ tcolumns t → cname c = k → values !! k = None →
  insert_row rt db t values !! k = Some (default_value rt db t c).
Proof.
  intros Hnd Hc <- Hnone. by rewrite (insert_row_lookup rt db t values c Hnd Hc), Hnone.
Qed.

(** C9.  Both upload forms refuse, before any request, a submission with
    no genre, and one of type [tv_show] with no positive episode count.  The
    server enforces neither: in a store whose content sequence is ahead,
    [POST /api/content] with a body of type [tv_show] that has an empty
    genre list and no [episodes] passes the insert schema, answers 200 and
    stores the row, with its empty genre list and [NULL] episodes. *)
Theorem genres_and_episodes_checked_by_forms_only rt (db : Db) :
  sequence_ahead Content db →
  (∀ fd, ContentUploadForm.genres fd = [] →
     ContentUploadForm.handleSubmit fd = Client.Toast "Error" "Please add at least one genre")
  ∧ (∀ fd, ContentUploadForm.genres fd ≠ [] → ContentUploadForm.type fd = "tv_show" →
       Client.no_episodes (ContentUploadForm.episodes fd) = true →
       ContentUploadForm.handleSubmit fd
       = Client.Toast "Error" "Please enter the number of episodes for TV shows")
  ∧ (∀ rt' fd, UpcomingUploadForm.genres fd = [] →
       UpcomingUploadForm.handleSubmit rt' fd
       = Client.Toast "Error" "Please add at least one genre")
  ∧ (∀ rt' fd, UpcomingUploadForm.genres fd ≠ [] → UpcomingUploadForm.type fd = "tv_show" →
       Client.no_episodes (UpcomingUploadForm.episodes fd) = true →
       UpcomingUploadForm.handleSubmit rt' fd
       = Client.Toast "Error" "Please enter the number of episodes for TV shows")
  ∧ Zod.parse rt insertContentSchema Sample.bare_show = inr Sample.bare_show
  ∧ (∃ row db',
       POST_api_content rt Sample.bare_show db = (Response 200 (Row row), db')
       ∧ content_rows db' = content_rows db ++ [row]
       ∧ row !! "type" = Some (JStr "tv_show")
       ∧ row !! "genres" = Some (JArr [])
       ∧ row !! "episodes" = Some JNull).
Proof.
  intros Hseq. repeat split.
  - intros fd Hg. unfold ContentUploadForm.handleSubmit. by rewrite Hg.
  - intros fd Hg Hty Hep. unfold ContentUploadForm.handleSubmit.
    rewrite bool_decide_eq_false_2 by (by destruct (ContentUploadForm.genres fd)).
    by rewrite Hty, Hep.
  - intros rt' fd Hg. unfold UpcomingUploadForm.handleSubmit. by rewrite Hg.
  - intros rt' fd Hg Hty Hep. unfold UpcomingUploadForm.handleSubmit.
    rewrite bool_decide_eq_false_2 by (by destruct (UpcomingUploadForm.genres fd)).
    by rewrite Hty, Hep.
  - eexists _, _. split.
    { rewrite (POST_api_content_spec rt _ db Hseq). evaluate_parse. cbv beta iota.
      rewrite bool_decide_eq_true_2 by by_compute. reflexivity. }
    repeat split; by vm_compute.
Qed.

(** C10.  The insert schemas restrict none of the variant fields.  For all
    strings [type], [status] and [eventType] that the store can hold (none
    holds the character U+0000), in a store whose content and analytics
    sequences are ahead: [POST /api/content] with a body of that [type] and
    [status] answers 200 and stores the row with both as supplied, and [POST
    /api/analytics] with an event of that [eventType] answers 200 and stores
    the event with it as supplied. *)
Theorem variant_fields_unrestricted rt (db : Db) (type status eventType : string) :
  has_nul type = false →
  has_nul status = false →
  has_nul eventType = false →
  sequence_ahead Content db →
  sequence_ahead Analytics db →
  (∃ row db',
     POST_api_content rt (Sample.content_of type status) db = (Response 200 (Row row), db')
     ∧ content_rows db' = content_rows db ++ [row]
     ∧ row !! "type" = Some (JStr type)
     ∧ row !! "status" = Some (JStr status))
  ∧ (∃ row db',
       POST_api_analytics rt (Sample.event_of eventType) db = (Response 200 (Row row), db')
       ∧ analytics_rows db' = analytics_rows db ++ [row]
       ∧ row !! "eventType" = Some (JStr eventType)).
Proof.
  intros Hty Hst Hev Hc Ha. split.
  - assert (Hp : Zod.parse rt insertContentSchema (Sample.content_of type status)
                 = inr (Sample.content_of type status)) by (vm_compute; reflexivity).
    assert (Hnul : nul_free (Sample.content_of type status)).
    { unfold nul_free, Sample.content_of, Sample.movie.
      repeat (apply map_Forall_insert_2; [by simpl; rewrite ?Hty, ?Hst|]).
      apply map_Forall_empty. }
    eexists _, _. split.
    { rewrite (POST_api_content_spec rt _ db Hc), Hp.
      rewrite bool_decide_eq_true_2 by done. reflexivity. }
    split; [done|].
    split.
    + pose proof (content_insert_row rt _ _ db (notNull (text "type")) Hp Hnul) as Hrow.
      cbn [cname notNull text] in Hrow. rewrite Hrow by in_columns. by vm_compute.
    + pose proof (content_insert_row rt _ _ db (default (JStr "draft") (notNull (text "status")))
                    Hp Hnul) as Hrow.
      cbn [cname default notNull text] in Hrow. rewrite Hrow by in_columns. by vm_compute.
  - eexists _, _. split.
    { assert (Hp : Zod.parse rt insertAnalyticsSchema (Sample.event_of eventType)
                   = inr (Sample.event_of eventType)) by (vm_compute; reflexivity).
      unfold POST_api_analytics, try_catch, bind, parse. rewrite Hp. unfold ret at 1.
      rewrite (analytics_event_fresh rt eventType db Hev Ha). reflexivity. }
    split; [done|].
    pose proof (insert_row_lookup rt db analytics (Sample.event_of eventType)
                  (notNull (text "eventType")) analytics_names_NoDup) as Hrow.
    cbn [cname notNull text] in Hrow. rewrite Hrow by in_columns.
    unfold Sample.event_of. rewrite lookup_singleton_eq. simpl.
    unfold held, stored. cbn [ctype notNull text]. by rewrite Hev.
Qed.

End insert_schemas.

(** ** Path identifiers and deletion *)

Section identifiers.
Import Schema Store Storage Shared Routes.

Lemma set_rows_set_rows t l l' db : set_rows t l (set_rows t l' db) = set_rows t l db.
Proof. by destruct t. Qed.

Lemma filter_none n (l : list jsobject) :
  (∀ r, r ∈ l → has_id n r = false) →
  filter (λ r, has_id n r = true) l = [] ∧ filter (λ r, has_id n r = false) l = l.
Proof.
  induction l as [|r l IH]; intros Hnone; [done|].
  rewrite !filter_cons.
  assert (Hr : has_id n r = false) by (apply Hnone, list_elem_of_here).
  destruct IH as [IH1 IH2].
  { intros r' Hr'. by apply Hnone, list_elem_of_further. }
  rewrite decide_False by (by rewrite Hr). rewrite decide_True by done.
  by rewrite IH1, IH2.
Qed.

Lemma filter_some n (l : list jsobject) :
  (∃ r, r ∈ l ∧ has_id n r = true) → filter (λ r, has_id n r = true) l ≠ [].
Proof.
  intros (r & Hr & Hid) Hnil.
  assert (r ∈ filter (λ r, has_id n r = true) l) as Hin by (by apply list_elem_of_filter).
  rewrite Hnil in Hin. by apply elem_of_nil in Hin.
Qed.

(** Only the analytics events refer to content rows. *)
Lemma referenced_content n db :
  referenced content n db = true
  ↔ ∃ e, e ∈ analytics_rows db ∧ e !! "contentId" = Some (JNum n).
Proof.
  assert (Href : referenced content n db
                 = existsb (λ r, sql_eq (r !! "contentId") (Some (JNum n))) (analytics_rows db)).
  { unfold referenced. cbn.
    repeat (case_bool_decide; try congruence). simpl. by destruct (existsb _ _). }
  rewrite Href. split.
  - intros Hex. apply existsb_exists in Hex as (e & He & Heq).
    exists e. split; [by apply list_elem_of_In|].
    unfold sql_eq in Heq. destruct (e !! "contentId") as [[]|]; try discriminate.
    apply bool_decide_eq_true in Heq. by subst.
  - intros (e & He & Heq). apply existsb_exists. exists e.
    split; [by apply list_elem_of_In|]. rewrite Heq. simpl. by apply bool_decide_eq_true.
Qed.

(** The amended C4.  For a path identifier that [parseInt] reads as the
    32-bit number [n]: when no content row has the identifier,
    [deleteContent] returns [false] without raising and the route answers
    404; when a row has it and no analytics event refers to it,
    [deleteContent] removes the row and returns [true], the route answers
    [{success: true}], and a second deletion returns [false] and answers
    404; when a row has it and an analytics event still refers to it, the
    store refuses the deletion, nothing is removed and the route answers
    500. *)
Theorem deleteContent_result (s : string) (n : Z) (db : Db) :
  JS.parseInt s = Num n →
  Zod.is_int4 n = true →
  let db' := set_rows Content (filter (λ r, has_id n r = false) (content_rows db)) db in
  ((∀ r, r ∈ content_rows db → has_id n r = false) →
     deleteContent (Num n) db = (Ok false, db)
     ∧ DELETE_api_content_id s db = (Response 404 (Failure "Content not found"), db))
  ∧ ((∃ r, r ∈ content_rows db ∧ has_id n r = true) →
     (∀ e, e ∈ analytics_rows db → e !! "contentId" ≠ Some (JNum n)) →
     deleteContent (Num n) db = (Ok true, db')
     ∧ DELETE_api_content_id s db = (Response 200 Success, db')
     ∧ deleteContent (Num n) db' = (Ok false, db')
     ∧ DELETE_api_content_id s db' = (Response 404 (Failure "Content not found"), db'))
  ∧ ((∃ r, r ∈ content_rows db ∧ has_id n r = true) →
     (∃ e, e ∈ analytics_rows db ∧ e !! "contentId" = Some (JNum n)) →
     deleteContent (Num n) db = (Throw (StoreError "violates foreign key constraint"), db)
     ∧ DELETE_api_content_id s db = (Response 500 (Failure "Failed to delete content"), db)).
Proof.
  intros Hs Hn db'. subst db'.
  assert (Hnone : ∀ d, (∀ r, r ∈ content_rows d → has_id n r = false) →
            deleteContent (Num n) d = (Ok false, d)
            ∧ DELETE_api_content_id s d = (Response 404 (Failure "Content not found"), d)).
  { intros d Hd. destruct (filter_none n _ Hd) as [Hf1 Hf2].
    assert (Hdel : deleteContent (Num n) d = (Ok false, d)).
    { unfold deleteContent, bind, db_delete, valid_id. rewrite Hn.
      cbn [tname content rows]. rewrite Hf1, Hf2.
      rewrite bool_decide_eq_true_2 by done. cbn [negb andb]. unfold ret.
      change (content_rows d) with (rows Content d). by rewrite set_rows_same. }
    split; [done|]. unfold DELETE_api_content_id, try_catch, bind. by rewrite Hs, Hdel. }
  split; [apply Hnone|]. split.
  - intros Hex Hno.
    assert (Href : referenced content n db = false).
    { apply not_true_iff_false. rewrite referenced_content. intros (e & He & Heq).
      by apply (Hno e He). }
    apply filter_some in Hex.
    assert (Hdel : deleteContent (Num n) db
                   = (Ok true, set_rows Content
                                 (filter (λ r, has_id n r = false) (content_rows db)) db)).
    { unfold deleteContent, bind, db_delete, valid_id. rewrite Hn, Href, andb_false_r.
      unfold ret. cbn [tname content rows]. rewrite bool_decide_eq_true_2; [done|].
      destruct (filter _ (content_rows db)); [done|]. rewrite length_cons. lia. }
    split; [done|].
    split; [unfold DELETE_api_content_id, try_catch, bind; by rewrite Hs, Hdel|].
    apply Hnone. intros r Hr.
    change (content_rows ?d) with (rows Content d) in Hr. rewrite rows_set_rows in Hr.
    by apply list_elem_of_filter in Hr as [Hr _].
  - intros Hex Href. apply referenced_content in Href. apply filter_some in Hex.
    assert (Hdel : deleteContent (Num n) db
                   = (Throw (StoreError "violates foreign key constraint"), db)).
    { unfold deleteContent, bind, db_delete, valid_id. rewrite Hn, Href.
      cbn [tname content rows]. by rewrite bool_decide_eq_false_2. }
    split; [done|]. unfold DELETE_api_content_id, try_catch, bind. by rewrite Hs, Hdel.
Qed.

(** An update whose identifier is no 32-bit number fails, whatever it
    sets, and changes nothing. *)
Lemma db_update_invalid_id (t : table) (set : jsobject) (id : jsnumber) (db : Db) :
  valid_id id = None → ∃ msg, db_update t set id db = (Throw (StoreError msg), db).
Proof.
  intros Hid. unfold db_update. rewrite Hid.
  case_bool_decide; [eauto|]. destruct (accepts_all t set); simpl; eauto.
Qed.

(** The amended C7.  No handler checks the path identifier.  Each of the six
    handlers that take one passes [parseInt] of it to the storage method,
    and its answer depends on the identifier through that number only: two
    identifiers that [parseInt] reads alike are answered alike, whatever
    follows the digits.  When [parseInt] gives [NaN], or a number beyond 32
    bits, the value reaches the storage method all the same and the query
    fails: [GET] and [DELETE] answer 500, and [PUT] answers 400 when the
    body fails the partial schema and 500 when it passes; the store is
    unchanged.  When [parseInt] gives a 32-bit number, [GET] answers with
    the first row of that identifier, or 404 when there is none. *)
Theorem path_identifier_unchecked (s s' : string) (db : Db) :
  (JS.parseInt s = JS.parseInt s' →
     GET_api_content_id s db = GET_api_content_id s' db
     ∧ DELETE_api_content_id s db = DELETE_api_content_id s' db
     ∧ (∀ rt body, PUT_api_content_id rt s body db = PUT_api_content_id rt s' body db)
     ∧ GET_api_upcoming_content_id s db = GET_api_upcoming_content_id s' db
     ∧ DELETE_api_upcoming_content_id s db = DELETE_api_upcoming_content_id s' db
     ∧ (∀ rt body,
          PUT_api_upcoming_content_id rt s body db = PUT_api_upcoming_content_id rt s' body db))
  ∧ (valid_id (JS.parseInt s) = None →
       (∃ msg, getContentById (JS.parseInt s) db = (Throw (StoreError msg), db))
       ∧ GET_api_content_id s db = (Response 500 (Failure "Failed to fetch content"), db)
       ∧ DELETE_api_content_id s db = (Response 500 (Failure "Failed to delete content"), db)
       ∧ (∀ rt body,
            PUT_api_content_id rt s body db
            = (match Zod.parse rt (Zod.partial insertContentSchema) body with
               | inl errors => Response 400 (Invalid "Invalid data" errors)
               | inr _ => Response 500 (Failure "Failed to update content")
               end, db))
       ∧ GET_api_upcoming_content_id s db
         = (Response 500 (Failure "Failed to fetch upcoming content"), db)
       ∧ DELETE_api_upcoming_content_id s db
         = (Response 500 (Failure "Failed to delete upcoming content"), db)
       ∧ (∀ rt body,
            PUT_api_upcoming_content_id rt s body db
            = (match Zod.parse rt (Zod.partial insertUpcomingContentSchema) body with
               | inl errors => Response 400 (Invalid "Invalid data" errors)
               | inr _ => Response 500 (Failure "Failed to update upcoming content")
               end, db)))
  ∧ (JS.parseInt s = NaN → valid_id (JS.parseInt s) = None)
  ∧ (∀ n, JS.parseInt s = Num n → Zod.is_int4 n = true →
       GET_api_content_id s db =
         (match head (filter (λ r, has_id n r = true) (content_rows db)) with
          | Some r => Response 200 (Row r)
          | None => Response 404 (Failure "Content not found")
          end, db)
       ∧ GET_api_upcoming_content_id s db =
           (match head (filter (λ r, has_id n r = true) (upcoming_rows db)) with
            | Some r => Response 200 (Row r)
            | None => Response 404 (Failure "Upcoming content not found")
            end, db)).
Proof.
  split; [|split; [|split]].
  - intros Hs.
    unfold GET_api_content_id, DELETE_api_content_id, PUT_api_content_id,
      GET_api_upcoming_content_id, DELETE_api_upcoming_content_id,
      PUT_api_upcoming_content_id.
    rewrite Hs. done.
  - intros Hs. split; [|split; [|split; [|split; [|split; [|split]]]]].
    + unfold getContentById, bind, db_select_by_id. rewrite Hs. eauto.
    + unfold GET_api_content_id, try_catch, bind, getContentById, bind, db_select_by_id.
      by rewrite Hs.
    + unfold DELETE_api_content_id, try_catch, bind, deleteContent, bind, db_delete.
      by rewrite Hs.
    + intros rt body.
      unfold PUT_api_content_id, try_catch, bind, parse.
      destruct (Zod.parse rt (Zod.partial insertContentSchema) body) as [errs|patch]; [done|].
      unfold ret at 1. unfold updateContent, bind.
      by destruct (db_update_invalid_id content
                     (<["updatedAt" := JDate (Some (Date_now rt))]> patch) _ db Hs) as [msg ->].
    + unfold GET_api_upcoming_content_id, try_catch, bind, getUpcomingContentById, bind,
        db_select_by_id.
      by rewrite Hs.
    + unfold DELETE_api_upcoming_content_id, try_catch, bind, deleteUpcomingContent, bind,
        db_delete.
      by rewrite Hs.
    + intros rt body.
      unfold PUT_api_upcoming_content_id, try_catch, bind, parse.
      destruct (Zod.parse rt (Zod.partial insertUpcomingContentSchema) body) as [errs|patch];
        [done|].
      unfold ret at 1. unfold updateUpcomingContent, bind.
      by destruct (db_update_invalid_id upcomingContent patch _ db Hs) as [msg ->].
  - by intros ->.
  - intros n Hs Hn. split.
    + unfold GET_api_content_id, try_catch, bind, getContentById, bind.
      rewrite Hs. unfold db_select_by_id, valid_id. rewrite Hn. unfold ret.
      cbn [tname content rows]. by destruct (head _).
    + unfold GET_api_upcoming_content_id, try_catch, bind, getUpcomingContentById, bind.
      rewrite Hs. unfold db_select_by_id, valid_id. rewrite Hn. unfold ret.
      cbn [tname upcomingContent rows]. by destruct (head _).
Qed.

End identifiers.

(** ** Release dates that do not parse *)

Section release_dates.
Import Schema Store Storage Shared Routes.

(** A property of the input that the shape names is in the output. *)
Lemma parse_present rt (shape : Zod.zobject) (body out : jsobject) k f :
  Zod.parse rt shape body = inr out →
  (k, f) ∈ shape → is_Some (body !! k) → is_Some (out !! k).
Proof.
  unfold Zod.parse. destruct (Zod.collect _) as [errs|kvs] eqn:Hcol; [discriminate|].
  intros [= <-] Hin [x Hx]. apply collect_inr in Hcol.
  assert (Hf : (let '(k, f) := (k, f) in
                match Zod.zparse_field rt k f (body !! k) with
                | inr o => inr (k, o)
                | inl errs => inl errs
                end) ∈ (inr <$> kvs : list (list Zod.issue + (string * option jsval)))).
  { rewrite <- Hcol. apply list_elem_of_fmap. by exists (k, f). }
  apply list_elem_of_fmap in Hf as ([k' o] & Hf & Hkv). simpl in Hf.
  destruct (Zod.zparse_field rt k f (body !! k)) as [|o'] eqn:E; [discriminate|].
  injection Hf as <- <-.
  assert (∃ v, o' = Some v) as [v ->].
  { unfold Zod.zparse_field in E. rewrite Hx in E.
    destruct x; repeat case_match; simplify_eq; eauto. }
  apply not_eq_None_Some. intros Hnone.
  apply not_elem_of_list_to_map_2 in Hnone. apply Hnone.
  apply list_elem_of_fmap. exists (k, v). split; [done|].
  apply list_elem_of_omap. by exists (k, Some v).
Qed.

(** An invalid date is refused: [toISOString] throws on it. *)
Lemma invalid_date_refused :
  accepts (notNull (timestamp "releaseDate")) (JDate None) = false.
Proof. by apply accepts_false. Qed.

(** C1, as the code has it.  When [releaseDate] is a string that
    [Date.parse] does not read, the schema's coercion of the property does
    not fail: it yields an invalid [Date].  [POST /api/upcoming-content]
    parses nothing, hands the invalid date to the store and answers 500;
    [PUT /api/upcoming-content/:id] answers 500 as well whenever the body
    passes the partial schema, as the body that holds the date alone does.
    Neither answers 400 on account of the date. *)
Theorem unparseable_releaseDate_not_rejected rt (s id : string) (body : jsobject) (db : Db) :
  Date_parse rt s = None →
  body !! "releaseDate" = Some (JStr s) →
  Zod.zparse_field rt "releaseDate" (Zod.ZField Zod.ZStringToDate false false)
    (body !! "releaseDate") = inr (Some (JDate None))
  ∧ POST_api_upcoming_content rt body db
    = (Response 500 (Failure "Failed to create upcoming content"), db)
  ∧ (∀ patch : jsobject,
       Zod.parse rt (Zod.partial insertUpcomingContentSchema) body = inr patch →
       patch !! "releaseDate" = Some (JDate None)
       ∧ PUT_api_upcoming_content_id rt id body db
         = (Response 500 (Failure "Failed to update upcoming content"), db))
  ∧ PUT_api_upcoming_content_id rt id {[ "releaseDate" := JStr s ]} db
    = (Response 500 (Failure "Failed to update upcoming content"), db).
Proof.
  intros Hdate Hbody.
  assert (Hcol : notNull (timestamp "releaseDate") ∈ tcolumns upcomingContent) by in_columns.
  assert (Hput : ∀ (b patch : jsobject),
            b !! "releaseDate" = Some (JStr s) →
            Zod.parse rt (Zod.partial insertUpcomingContentSchema) b = inr patch →
            patch !! "releaseDate" = Some (JDate None)
            ∧ PUT_api_upcoming_content_id rt id b db
              = (Response 500 (Failure "Failed to update upcoming content"), db)).
  { intros b patch Hb Hp.
    assert (Hrd : patch !! "releaseDate" = Some (JDate None)).
    { destruct (parse_present rt _ b patch "releaseDate"
                  (Zod.ZField Zod.ZStringToDate false true) Hp) as [v Hv];
        [by_compute|by rewrite Hb|].
      destruct (parse_lookup_Some rt _ b patch _ _ Hp Hv) as (f & Hin & Hf).
      rewrite Hb in Hf. vm_compute in Hin.
      repeat (apply elem_of_cons in Hin as [Hin|Hin]; [try discriminate Hin|]);
        [|by apply elem_of_nil in Hin].
      injection Hin as ->. simpl in Hf. rewrite Hdate in Hf. by injection Hf as <-. }
    split; [done|].
    unfold PUT_api_upcoming_content_id, try_catch, bind, parse. rewrite Hp. unfold ret at 1.
    unfold updateUpcomingContent, bind, db_update.
    rewrite bool_decide_eq_false_2.
    2:{ intros Hsz. apply map_size_empty_iff in Hsz. by rewrite Hsz, lookup_empty in Hrd. }
    by rewrite (accepts_all_false upcomingContent patch _ _ Hcol Hrd invalid_date_refused). }
  split; [by rewrite Hbody; simpl; rewrite Hdate|].
  split; [|split].
  - unfold POST_api_upcoming_content, try_catch, bind, createUpcomingContent, db_insert.
    rewrite Hbody. simpl JS.new_Date. rewrite Hdate.
    rewrite (accepts_all_false upcomingContent _ _ (JDate None) Hcol);
      [done| |apply invalid_date_refused].
    apply lookup_insert_eq.
  - intros patch Hp. by apply Hput.
  - assert (Hp : Zod.parse rt (Zod.partial insertUpcomingContentSchema)
                   {[ "releaseDate" := JStr s ]}
                 = inr {[ "releaseDate" := JDate (Date_parse rt s) ]})
      by (vm_compute; reflexivity).
    eapply Hput; [|exact Hp]. apply lookup_singleton_eq.
Qed.

End release_dates.

(** ** Stores reached through the routes *)

Section reachable.
Import Schema Store Storage Shared Routes.

(** What the three kinds of statement leave alone. *)
Lemma db_insert_frame rt (t : table) (values : jsobject) (db db' : Db) o :
  db_insert rt t values db = (o, db') →
  ∀ t', t' ≠ tname t → rows t' db' = rows t' db ∧ nextval t' db' = nextval t' db.
Proof.
  unfold db_insert. intros Hins t' Hne.
  repeat case_match; simplify_eq;
    rewrite ?rows_set_rows_ne, ?nextval_set_rows by done; try done;
    by destruct (tname t), t'.
Qed.

Lemma db_update_frame (t : table) (set : jsobject) id (db db' : Db) o :
  db_update t set id db = (o, db') →
  (∀ t', nextval t' db' = nextval t' db) ∧ (∀ t', t' ≠ tname t → rows t' db' = rows t' db).
Proof.
  unfold db_update. intros Hupd.
  repeat case_match; simplify_eq; try done.
  split; intros t'; [by rewrite nextval_set_rows|]. intros Hne. by rewrite rows_set_rows_ne.
Qed.

Lemma db_delete_frame (t : table) id (db db' : Db) o :
  db_delete t id db = (o, db') →
  (∀ t', nextval t' db' = nextval t' db)
  ∧ (∀ t', t' ≠ tname t → rows t' db' = rows t' db)
  ∧ rows (tname t) db' ⊆ rows (tname t) db.
Proof.
  unfold db_delete. intros Hdel.
  repeat case_match; simplify_eq; try done.
  split; [intros t'; by rewrite nextval_set_rows|].
  split; [intros t' Hne; by rewrite rows_set_rows_ne|].
  rewrite rows_set_rows. intros r Hr. by apply list_elem_of_filter in Hr as [_ Hr].
Qed.

(** A statement that leaves a table and its sequence alone keeps the
    sequence ahead. *)
Lemma sequence_ahead_frame t (db db' : Db) :
  rows t db' ⊆ rows t db → nextval t db' = nextval t db →
  sequence_ahead t db → sequence_ahead t db'.
Proof.
  intros Hrows Hseq Hahead r n Hr Hid. rewrite Hseq.
  apply (Hahead r n); [by apply Hrows|done].
Qed.

(** An insert whose values give no identifier keeps the sequence ahead. *)
Lemma db_insert_ahead rt (t : table) (values : jsobject) (db db' : Db) o :
  NoDup (column_names t) →
  primaryKey (serial "id") ∈ tcolumns t →
  values !! "id" = None →
  db_insert rt t values db = (o, db') →
  sequence_ahead (tname t) db → sequence_ahead (tname t) db'.
Proof.
  intros Hnd Hcol Hid Hins Hahead.
  assert (Hdraw : draws_serial t values = true).
  { unfold draws_serial. apply existsb_exists. exists (primaryKey (serial "id")).
    split; [by apply list_elem_of_In|]. simpl. by rewrite Hid. }
  unfold db_insert in Hins. rewrite Hdraw in Hins.
  repeat case_match; simplify_eq; try done.
  - intros r n Hr Hrid. rewrite rows_set_rows in Hr.
    rewrite nextval_set_rows, nextval_advance.
    apply elem_of_app in Hr as [Hr|Hr].
    + specialize (Hahead r n Hr Hrid). lia.
    + apply list_elem_of_singleton in Hr. subst r. unfold row_id in Hrid.
      rewrite (insert_row_default rt db t values (primaryKey (serial "id")) "id") in Hrid;
        try done.
      change (default_value rt db t (primaryKey (serial "id")))
        with (JNum (nextval (tname t) db)) in Hrid.
      injection Hrid as <-. lia.
  - intros r n Hr Hrid. rewrite rows_advance in Hr. rewrite nextval_advance.
    specialize (Hahead r n Hr Hrid). lia.
Qed.

(** An update that assigns no identifier keeps the sequence ahead. *)
Lemma db_update_ahead (t : table) (set : jsobject) id (db db' : Db) o :
  set !! "id" = None →
  db_update t set id db = (o, db') →
  sequence_ahead (tname t) db → sequence_ahead (tname t) db'.
Proof.
  intros Hid Hupd Hahead. unfold db_update in Hupd.
  repeat case_match; simplify_eq; try done.
  intros r n Hr Hrid. rewrite rows_set_rows in Hr. rewrite nextval_set_rows.
  apply list_elem_of_fmap in Hr as (r0 & -> & Hr0).
  apply (Hahead r0 n Hr0). destruct (has_id _ r0); [|done].
  unfold row_id in *. rewrite lookup_union_r in Hrid; [exact Hrid|].
  by apply assignments_None.
Qed.

(** Every handler keeps the content and the analytics sequences ahead of
    the identifiers stored in their tables. *)
Lemma registerRoutes_ahead rt (req : request) (db : Db) :
  sequence_ahead Content db ∧ sequence_ahead Analytics db →
  sequence_ahead Content (snd (registerRoutes rt req db))
  ∧ sequence_ahead Analytics (snd (registerRoutes rt req db)).
Proof.
  intros [Hc Ha].
  cut (∀ t, t ∈ [Content; Analytics] → sequence_ahead t (snd (registerRoutes rt req db))).
  { intros Hboth. split; apply Hboth; set_solver. }
  assert (Hboth : ∀ d, sequence_ahead Content d ∧ sequence_ahead Analytics d →
            ∀ t, t ∈ [Content; Analytics] → sequence_ahead t d).
  { intros d [? ?] t Ht. repeat (apply elem_of_cons in Ht as [->|Ht]); try done.
    by apply elem_of_nil in Ht. }
  assert (Hparse : ∀ rt' shape (b v : jsobject),
            "id" ∉ Zod.keys shape → Zod.parse rt' shape b = inr v → v !! "id" = None).
  { intros rt' shape b v Hk Hp. by eapply parse_lookup_None. }
  destruct req; cbn [registerRoutes]; try (apply Hboth; split; assumption).
  - (* GET /api/content/:id *)
    unfold GET_api_content_id, try_catch, bind, getContentById, bind, db_select_by_id, ret.
    repeat case_match; simplify_eq; simpl; apply Hboth; by split.
  - (* POST /api/content *)
    unfold POST_api_content, try_catch, bind, parse, createContent.
    destruct (Zod.parse rt insertContentSchema req_body) as [errs|v] eqn:Hp; [apply Hboth; by split|].
    unfold ret at 1. destruct (db_insert rt content v db) as [o db'] eqn:Hins.
    assert (Hid : v !! "id" = None) by (eapply Hparse; [|exact Hp]; by_compute).
    assert (sequence_ahead Content db' ∧ sequence_ahead Analytics db') as Hdb'.
    { split.
      - eapply (db_insert_ahead rt content); eauto using content_names_NoDup.
        apply list_elem_of_here.
      - destruct (db_insert_frame _ _ _ _ _ _ Hins Analytics) as [Hr Hn]; [done|].
        eapply sequence_ahead_frame; [by rewrite Hr|exact Hn|done]. }
    destruct o; simpl; by apply Hboth.
  - (* PUT /api/content/:id *)
    unfold PUT_api_content_id, try_catch, bind, parse, updateContent, bind.
    destruct (Zod.parse rt (Zod.partial insertContentSchema) req_body) as [errs|v] eqn:Hp;
      [apply Hboth; by split|].
    unfold ret at 1.
    destruct (db_update content _ (JS.parseInt id) db) as [o db'] eqn:Hupd.
    assert (Hid : v !! "id" = None).
    { eapply Hparse; [|exact Hp]. rewrite keys_partial. by_compute. }
    assert (sequence_ahead Content db' ∧ sequence_ahead Analytics db') as Hdb'.
    { split.
      - eapply (db_update_ahead content); [|exact Hupd|done].
        by rewrite lookup_insert_ne.
      - destruct (db_update_frame _ _ _ _ _ _ Hupd) as [Hn Hr].
        eapply sequence_ahead_frame; [by rewrite (Hr Analytics)|apply Hn|done]. }
    destruct o as [[|r l]|e]; simpl; by apply Hboth.
  - (* DELETE /api/content/:id *)
    unfold DELETE_api_content_id, try_catch, bind, deleteContent, bind.
    destruct (db_delete content (JS.parseInt id) db) as [o db'] eqn:Hdel.
    destruct (db_delete_frame _ _ _ _ _ Hdel) as (Hn & Hr & Hsub).
    assert (sequence_ahead Content db' ∧ sequence_ahead Analytics db') as Hdb'.
    { split.
      - eapply sequence_ahead_frame; [exact Hsub|apply Hn|done].
      - eapply sequence_ahead_frame; [by rewrite (Hr Analytics)|apply Hn|done]. }
    destruct o as [n|e]; simpl; [|by apply Hboth]. unfold ret.
    destruct (bool_decide (0 < n)); simpl; by apply Hboth.
  - (* GET /api/upcoming-content/:id *)
    unfold GET_api_upcoming_content_id, try_catch, bind, getUpcomingContentById, bind,
      db_select_by_id, ret.
    repeat case_match; simplify_eq; simpl; apply Hboth; by split.
  - (* POST /api/upcoming-content *)
    unfold POST_api_upcoming_content, try_catch, bind, createUpcomingContent.
    destruct (db_insert rt upcomingContent _ db) as [o db'] eqn:Hins.
    destruct (db_insert_frame _ _ _ _ _ _ Hins Content) as [Hrc Hnc]; [done|].
    destruct (db_insert_frame _ _ _ _ _ _ Hins Analytics) as [Hra Hna]; [done|].
    assert (sequence_ahead Content db' ∧ sequence_ahead Analytics db') as Hdb'.
    { split; (eapply sequence_ahead_frame; [|eassumption|done]);
        [by rewrite Hrc|by rewrite Hra]. }
    destruct o; simpl; by apply Hboth.
  - (* PUT /api/upcoming-content/:id *)
    unfold PUT_api_upcoming_content_id, try_catch, bind, parse, updateUpcomingContent, bind.
    destruct (Zod.parse rt _ req_body) as [errs|v] eqn:Hp; [apply Hboth; by split|].
    unfold ret at 1.
    destruct (db_update upcomingContent v (JS.parseInt id) db) as [o db'] eqn:Hupd.
    destruct (db_update_frame _ _ _ _ _ _ Hupd) as [Hn Hr].
    assert (sequence_ahead Content db' ∧ sequence_ahead Analytics db') as Hdb'.
    { split; (eapply sequence_ahead_frame; [|apply Hn|done]);
        [by rewrite (Hr Content)|by rewrite (Hr Analytics)]. }
    destruct o as [[|r l]|e]; simpl; by apply Hboth.
  - (* DELETE /api/upcoming-content/:id *)
    unfold DELETE_api_upcoming_content_id, try_catch, bind, deleteUpcomingContent, bind.
    destruct (db_delete upcomingContent (JS.parseInt id) db) as [o db'] eqn:Hdel.
    destruct (db_delete_frame _ _ _ _ _ Hdel) as (Hn & Hr & _).
    assert (sequence_ahead Content db' ∧ sequence_ahead Analytics db') as Hdb'.
    { split; (eapply sequence_ahead_frame; [|apply Hn|done]);
        [by rewrite (Hr Content)|by rewrite (Hr Analytics)]. }
    destruct o as [n|e]; simpl; [|by apply Hboth]. unfold ret.
    destruct (bool_decide (0 < n)); simpl; by apply Hboth.
  - (* POST /api/analytics *)
    unfold POST_api_analytics, try_catch, bind, parse, createAnalyticsEvent.
    destruct (Zod.parse rt insertAnalyticsSchema req_body) as [errs|v] eqn:Hp; [apply Hboth; by split|].
    unfold ret at 1. destruct (db_insert rt analytics v db) as [o db'] eqn:Hins.
    assert (Hid : v !! "id" = None) by (eapply Hparse; [|exact Hp]; by_compute).
    assert (sequence_ahead Content db' ∧ sequence_ahead Analytics db') as Hdb'.
    { split.
      - destruct (db_insert_frame _ _ _ _ _ _ Hins Content) as [Hr Hn]; [done|].
        eapply sequence_ahead_frame; [by rewrite Hr|exact Hn|done].
      - eapply (db_insert_ahead rt analytics); eauto using analytics_names_NoDup.
        apply list_elem_of_here. }
    destruct o; simpl; by apply Hboth.
Qed.

(** The hypothesis of the creation theorems holds in every store that the
    routes reach from the empty one. *)
Lemma serve_ahead (reqs : list (runtime * request)) :
  sequence_ahead Content (serve reqs empty_db)
  ∧ sequence_ahead Analytics (serve reqs empty_db).
Proof.
  unfold serve.
  assert (Hinit : sequence_ahead Content empty_db ∧ sequence_ahead Analytics empty_db).
  { split; intros r n Hr; by apply elem_of_nil in Hr. }
  revert Hinit. generalize empty_db.
  induction reqs as [|[rt req] reqs IH]; intros db Hdb; [done|].
  simpl. apply IH. by apply registerRoutes_ahead.
Qed.

End reachable.

(** ** The handlers on the sample store *)

Section samples.
Import Schema Store Storage Shared Routes.

(** Decidable forms of the hypotheses on a store, for closed stores. *)
Lemma sequence_ahead_check t db :
  forallb (λ r, match row_id r with
                | Some n => bool_decide (n < nextval t db)
                | None => true
                end) (rows t db) = true →
  sequence_ahead t db.
Proof.
  intros Hall r n Hr Hid. rewrite forallb_forall in Hall.
  specialize (Hall r). rewrite Hid in Hall.
  assert (Hlt : bool_decide (n < nextval t db) = true)
    by (apply Hall; by apply list_elem_of_In).
  by apply bool_decide_eq_true in Hlt.
Qed.

Lemma has_row_check n (l : list jsobject) :
  existsb (has_id n) l = true → ∃ r, r ∈ l ∧ has_id n r = true.
Proof.
  intros Hex. apply existsb_exists in Hex as (r & Hr & Hid).
  exists r. split; [by apply list_elem_of_In|done].
Qed.

Lemma no_reference_check n (l : list jsobject) :
  existsb (λ e, sql_eq (e !! "contentId") (Some (JNum n))) l = false →
  ∀ e, e ∈ l → e !! "contentId" ≠ Some (JNum n).
Proof.
  intros Hex e He Heq. apply not_true_iff_false in Hex. apply Hex.
  apply existsb_exists. exists e. split; [by apply list_elem_of_In|].
  rewrite Heq. simpl. by apply bool_decide_eq_true.
Qed.

(** The counterexample to C4.  The sample store holds the content row 1
    and a [view] event on it.  [DELETE /api/content/1] then does not answer
    [{success: true}]: the store refuses to delete the row, [deleteContent]
    raises, the route answers 500 and the store is unchanged. *)
Lemma referenced_content_not_deleted :
  has_id 1 <$> content_rows Sample.viewed_movie = [true]
  ∧ deleteContent (Num 1) Sample.viewed_movie
    = (Throw (StoreError "violates foreign key constraint"), Sample.viewed_movie)
  ∧ DELETE_api_content_id "1" Sample.viewed_movie
    = (Response 500 (Failure "Failed to delete content"), Sample.viewed_movie).
Proof. split; [|split]; vm_compute; reflexivity. Qed.

(** The counterexample to C7.  [1abc] and [abc] are not numeric.  With the
    content row 1 stored, [GET /api/content/1abc] is answered as [GET
    /api/content/1], with the row and status 200, and [DELETE
    /api/content/1abc] deletes the row; [GET /api/content/abc] passes [NaN]
    to [getContentById], whose query fails, and answers 500. *)
Lemma non_numeric_identifier_reaches_storage :
  Sample.numeric "1abc" = false
  ∧ GET_api_content_id "1abc" Sample.one_movie = GET_api_content_id "1" Sample.one_movie
  ∧ status (fst (GET_api_content_id "1abc" Sample.one_movie)) = 200
  ∧ fst (DELETE_api_content_id "1abc" Sample.one_movie) = Response 200 Success
  ∧ content_rows (snd (DELETE_api_content_id "1abc" Sample.one_movie)) = []
  ∧ Sample.numeric "abc" = false
  ∧ getContentById (JS.parseInt "abc") Sample.one_movie
    = (Throw (StoreError "invalid input syntax for type integer"), Sample.one_movie)
  ∧ fst (GET_api_content_id "abc" Sample.one_movie)
    = Response 500 (Failure "Failed to fetch content").
Proof. repeat (split; [vm_compute; reflexivity|]). vm_compute; reflexivity. Qed.


End samples.

(** ** The theorems at the sample requests *)

Section witnesses.
Import Schema Store Storage Shared Routes.

(** The release date [not-a-date], on the empty store. *)
Lemma unparseable_releaseDate_witness :
  Date_parse Sample.rt "not-a-date" = None
  ∧ POST_api_upcoming_content Sample.rt Sample.undated empty_db
    = (Response 500 (Failure "Failed to create upcoming content"), empty_db)
  ∧ PUT_api_upcoming_content_id Sample.rt "7" {[ "releaseDate" := JStr "not-a-date" ]} empty_db
    = (Response 500 (Failure "Failed to update upcoming content"), empty_db).
Proof.
  split; [vm_compute; reflexivity|].
  destruct (unparseable_releaseDate_not_rejected Sample.rt "not-a-date" "7" Sample.undated
              empty_db) as (_ & Hpost & _ & Hput).
  - vm_compute; reflexivity.
  - vm_compute; reflexivity.
  - split; [exact Hpost|exact Hput].
Defined.


(** Deleting the stored movie, twice. *)
Lemma deleteContent_result_witness :
  ∃ db',
    DELETE_api_content_id "1" Sample.one_movie = (Response 200 Success, db')
    ∧ DELETE_api_content_id "1" db' = (Response 404 (Failure "Content not found"), db').
Proof.
  destruct (deleteContent_result "1" 1 Sample.one_movie) as (_ & Hdel & _).
  - vm_compute; reflexivity.
  - vm_compute; reflexivity.
  - destruct Hdel as (_ & Hfirst & _ & Hsecond).
    + apply has_row_check. vm_compute; reflexivity.
    + apply no_reference_check. vm_compute; reflexivity.
    + eexists. split; [exact Hfirst|exact Hsecond].
Defined.

(** The scenario on the empty store: the first identifier is 1. *)
Lemma POST_content_scenario_witness :
  sequence_ahead Content empty_db
  ∧ (∃ row db',
       POST_api_content Sample.rt Sample.movie empty_db = (Response 200 (Row row), db')
       ∧ row !! "id" = Some (JNum 1))
  ∧ POST_api_content Sample.rt Sample.movie_without_genres empty_db
    = (Response 400 (Invalid "Invalid data"
         [Zod.Issue ["genres"] "invalid_type" "Required"]), empty_db).
Proof.
  assert (Hseq : sequence_ahead Content empty_db)
    by (apply sequence_ahead_check; vm_compute; reflexivity).
  split; [exact Hseq|].
  destruct (POST_content_scenario Sample.rt empty_db Hseq)
    as [(row & db' & Hpost & _ & Hid & _) Hbad].
  split; [|exact Hbad]. exists row, db'. split; [exact Hpost|exact Hid].
Defined.

(** [abc] is read as [NaN], and [1abc] as 1. *)
Lemma path_identifier_unchecked_witness :
  JS.parseInt "abc" = NaN
  ∧ GET_api_content_id "abc" Sample.one_movie
    = (Response 500 (Failure "Failed to fetch content"), Sample.one_movie)
  ∧ JS.parseInt "1abc" = JS.parseInt "1"
  ∧ DELETE_api_content_id "1abc" Sample.one_movie = DELETE_api_content_id "1" Sample.one_movie
  ∧ GET_api_content_id "1abc" Sample.one_movie
    = (match head (filter (λ r, has_id 1 r = true) (content_rows Sample.one_movie)) with
       | Some r => Response 200 (Row r)
       | None => Response 404 (Failure "Content not found")
       end, Sample.one_movie).
Proof.
  split; [vm_compute; reflexivity|].
  split.
  - destruct (path_identifier_unchecked "abc" "abc" Sample.one_movie) as (_ & Hnan & _).
    destruct Hnan as (_ & Hget & _); [vm_compute; reflexivity|exact Hget].
  - split; [vm_compute; reflexivity|].
    destruct (path_identifier_unchecked "1abc" "1" Sample.one_movie) as (Hsame & _ & _ & Hnum).
    split.
    + destruct Hsame as (_ & Hdel & _); [vm_compute; reflexivity|exact Hdel].
    + apply (Hnum 1); vm_compute; reflexivity.
Defined.

(** The show with no genre and no episodes, on the empty store. *)
Lemma genres_and_episodes_witness :
  sequence_ahead Content empty_db
  ∧ ∃ row db',
      POST_api_content Sample.rt Sample.bare_show empty_db = (Response 200 (Row row), db')
      ∧ row !! "genres" = Some (JArr [])
      ∧ row !! "episodes" = Some JNull.
Proof.
  assert (Hseq : sequence_ahead Content empty_db)
    by (apply sequence_ahead_check; vm_compute; reflexivity).
  split; [exact Hseq|].
  destruct (genres_and_episodes_checked_by_forms_only Sample.rt empty_db Hseq)
    as (_ & _ & _ & _ & _ & row & db' & Hpost & _ & _ & Hgenres & Hepisodes).
  exists row, db'. split; [exact Hpost|]. split; [exact Hgenres|exact Hepisodes].
Defined.

(** A [documentary] that is [archived], and an event of kind [explode]. *)
Lemma variant_fields_unrestricted_witness :
  sequence_ahead Content empty_db
  ∧ sequence_ahead Analytics empty_db
  ∧ (∃ row db',
       POST_api_content Sample.rt (Sample.content_of "documentary" "archived") empty_db
       = (Response 200 (Row row), db')
       ∧ row !! "type" = Some (JStr "documentary")
       ∧ row !! "status" = Some (JStr "archived"))
  ∧ (∃ row db',
       POST_api_analytics Sample.rt (Sample.event_of "explode") empty_db
       = (Response 200 (Row row), db')
       ∧ row !! "eventType" = Some (JStr "explode")).
Proof.
  assert (Hc : sequence_ahead Content empty_db)
    by (apply sequence_ahead_check; vm_compute; reflexivity).
  assert (Ha : sequence_ahead Analytics empty_db)
    by (apply sequence_ahead_check; vm_compute; reflexivity).
  split; [exact Hc|]. split; [exact Ha|].
  destruct (variant_fields_unrestricted Sample.rt empty_db "documentary" "archived" "explode"
              eq_refl eq_refl eq_refl Hc Ha)
    as [(row & db' & Hpost & _ & Hty & Hst) (ev & db'' & Hev & _ & Hkind)].
  split.
  - exists row, db'. split; [exact Hpost|]. split; [exact Hty|exact Hst].
  - exists ev, db''. split; [exact Hev|exact Hkind].
Defined.

End witnesses.

(** ** Further evaluations *)

Section evaluations.
Import Schema Store Storage Shared Routes.

Example parseInt_3 : JS.parseInt "3" = Num 3.
Proof. reflexivity. Qed.

Example parseInt_sign_and_space : JS.parseInt " -42 " = Num (-42).
Proof. reflexivity. Qed.

Example parseInt_hex : JS.parseInt "0x1F" = Num 31.
Proof. reflexivity. Qed.

(** A no-break space (U+00A0, the bytes 194 and 160) and an em space
    (U+2003, the bytes 226, 128 and 131) are white space. *)
Example parseInt_after_no_break_space :
  JS.parseInt (String (ascii_of_nat 194) (String (ascii_of_nat 160) "12abc")) = Num 12.
Proof. reflexivity. Qed.

Example trim_em_space :
  Text.trim (String (ascii_of_nat 226) (String (ascii_of_nat 128)
              (String (ascii_of_nat 131) " a b "))) = "a b".
Proof. by vm_compute. Qed.

Example Date_parse_iso : Engine.parse "2025-01-01" = Some 1735689600000.
Proof. by vm_compute. Qed.

Example Date_round_trip : Engine.parse (Engine.toISOString 1709217296789) = Some 1709217296789.
Proof. by vm_compute. Qed.

(** The instants that bound what a [timestamp] column takes and gives
    back unchanged. *)
Example instants :
  Engine.toISOString <$> [Store.first_instant; Store.year_50; Store.year_100; Store.last_instant]
  = ["0001-01-01T00:00:00.000Z"; "0050-01-01T00:00:00.000Z"; "0100-01-01T00:00:00.000Z";
     "9999-12-31T23:59:59.999Z"].
Proof. by vm_compute. Qed.

(** The first of June of the year 1 comes back as that of 2001, and that
    of the year 99 as that of 1999. *)
Example read_back_year_1 :
  (Engine.toISOString ∘ Store.read_back) <$> Engine.parse "0001-06-01"
  = Some "2001-06-01T00:00:00.000Z".
Proof. by vm_compute. Qed.

Example read_back_year_99 :
  (Engine.toISOString ∘ Store.read_back) <$> Engine.parse "0099-06-01"
  = Some "1999-06-01T00:00:00.000Z".
Proof. by vm_compute. Qed.

(** What the store makes of values that are not of the column's type. *)
Example stored_number_as_text : stored (text "title") (JNum 5) = Some (JStr "5").
Proof. by vm_compute. Qed.

Example stored_text_as_number : stored (integer "sectionOrder") (JStr " 12 ") = Some (JNum 12).
Proof. by vm_compute. Qed.

Example stored_text_no_number : stored (integer "sectionOrder") (JStr "12a") = None.
Proof. by vm_compute. Qed.

Example stored_text_as_date : stored (timestamp "createdAt") (JStr "2025-01-01") = None.
Proof. by vm_compute. Qed.

Example stored_nul : stored (text "title") (JStr (String (ascii_of_nat 0) "")) = None.
Proof. by vm_compute. Qed.

(** A dated announcement is created, while the undated one is not. *)
Example POST_upcoming_dated :
  status (fst (POST_api_upcoming_content Sample.rt Sample.dated empty_db)) = 200.
Proof. by vm_compute. Qed.

(** The spec's scenario: [PUT /api/upcoming-content/7] with a release date,
    no row 7 being stored. *)
Example PUT_upcoming_absent :
  fst (PUT_api_upcoming_content_id Sample.rt "7" {[ "releaseDate" := JStr "2025-01-01" ]}
         empty_db)
  = Response 404 (Failure "Upcoming content not found").
Proof. by vm_compute. Qed.

(** The empty partial payload: content is touched ([updatedAt] moves on),
    upcoming content is refused by the query builder. *)
Example PUT_content_empty :
  (λ r, (r !! "createdAt", r !! "updatedAt"))
    <$> content_rows (snd (PUT_api_content_id Sample.later "1" ∅ Sample.one_movie))
  = [(Some (JDate (Some 1735689600000)), Some (JDate (Some 1735689660000)))].
Proof. by vm_compute. Qed.

Example PUT_upcoming_empty :
  fst (PUT_api_upcoming_content_id Sample.rt "1" ∅
         (snd (POST_api_upcoming_content Sample.rt Sample.dated empty_db)))
  = Response 500 (Failure "Failed to update upcoming content").
Proof. by vm_compute. Qed.

(** One view of one movie. *)
Example analytics_of_viewed_movie :
  match fst (getAnalytics Sample.viewed_movie) with
  | Ok a => Some (totalViews a, totalContent a,
                  length (popularContent a), length (recentViews a))
  | Throw _ => None
  end = Some (JStr "1", JStr "1", 1%nat, 1%nat).
Proof. by vm_compute. Qed.

(** In the empty store the two totals are the string [0]. *)
Example analytics_of_empty_store :
  fst (GET_api_analytics empty_db) = Response 200 (Aggregate (Summary (JStr "0") (JStr "0") [] [])).
Proof. by vm_compute. Qed.

End evaluations.

(** * Further properties of the server *)

(** ** Listings *)

Section listings.
Import Schema Store Storage Shared Routes.

(** X1.  [GET /api/content] answers 200 with all the content rows, each as
    often as it is stored, newest first by creation time, and [GET
    /api/upcoming-content] answers 200 with all the announcements in
    ascending [sectionOrder], those without one last; neither changes the
    store. *)
Theorem listings_complete_and_sorted (db : Db) :
  (∃ l, GET_api_content db = (Response 200 (Rows l), db)
        ∧ l ≡ₚ content_rows db
        ∧ StronglySorted (desc "createdAt") l)
  ∧ (∃ l, GET_api_upcoming_content db = (Response 200 (Rows l), db)
          ∧ l ≡ₚ upcoming_rows db
          ∧ StronglySorted (asc "sectionOrder") l
          ∧ ∀ r r' n, r ∈ l → r' ∈ l →
              sort_key "sectionOrder" r = None → sort_key "sectionOrder" r' = Some n →
              ∃ i j, l !! i = Some r' ∧ l !! j = Some r ∧ (i < j)%nat).
Proof.
  split.
  - eexists. split; [reflexivity|]. split; [apply orderBy_perm|].
    apply orderBy_sorted; apply _.
  - eexists. split; [reflexivity|]. split; [apply orderBy_perm|].
    assert (Hs : StronglySorted (asc "sectionOrder")
                   (orderBy (asc "sectionOrder") (rows UpcomingContent db)))
      by (apply orderBy_sorted; apply _).
    split; [exact Hs|].
    cbn [tname upcomingContent]. intros r r' n Hr Hr' Hnull Hnum.
    revert Hs Hr Hr'. generalize (orderBy (asc "sectionOrder") (rows UpcomingContent db)).
    intros l Hs. induction Hs as [|x l Hs IH Hx]; intros Hr Hr'.
    { by apply elem_of_nil in Hr. }
    apply elem_of_cons in Hr' as [->|Hr'].
    + apply elem_of_cons in Hr as [->|Hr]; [congruence|].
      apply list_elem_of_lookup in Hr as [j Hj].
      exists 0%nat, (S j). repeat split; [done|lia].
    + apply elem_of_cons in Hr as [->|Hr].
      * exfalso. rewrite Forall_forall in Hx. specialize (Hx r' Hr').
        unfold asc in Hx. rewrite Hnull, Hnum in Hx. done.
      * destruct (IH Hr Hr') as (i & j & Hi & Hj & Hij).
        exists (S i), (S j). repeat split; [done..|lia].
Qed.

End listings.

(** ** Round trips through the content routes *)

Section round_trips.
Import Schema Store Storage Shared Routes.

(** An array of strings parses to itself. *)
Lemma zcheck_strings_same rt (path : nat → list string) (l l' : list jsval) :
  imap (λ i x, Zod.zcheck rt Zod.ZString (path i) x) l = inr <$> l' → l' = l.
Proof.
  revert path l'. induction l as [|x l IH]; intros path [|x' l'] Heq; try done.
  simpl in Heq. injection Heq as Hx Hl. f_equal.
  - destruct x; simpl in Hx; try discriminate. by injection Hx as <-.
  - by apply (IH (path ∘ S)).
Qed.

(** The schema of a column changes no value: what it lets through is what
    it was given. *)
Lemma zcheck_column_same rt (c : column) path (x o : jsval) :
  Zod.zcheck rt (DrizzleZod.column_ztype c) path x = inr o → o = x.
Proof.
  unfold DrizzleZod.column_ztype. destruct (ctype c); simpl; intros Hz.
  - destruct x; try discriminate. repeat case_bool_decide; try discriminate. by injection Hz.
  - destruct x; try discriminate. by injection Hz.
  - destruct x; try discriminate. repeat case_bool_decide; try discriminate. by injection Hz.
  - destruct x as [| | | | | |[t|]]; try discriminate. by injection Hz.
  - destruct (Zod.is_json x); [|discriminate]. by injection Hz.
  - destruct x; try discriminate.
    destruct (Zod.collect _) as [errs|l'] eqn:Hcol; [discriminate|].
    injection Hz as <-. apply collect_inr in Hcol. f_equal.
    exact (zcheck_strings_same rt (λ i, path ++ [pretty i]) _ _ Hcol).
Qed.

(** A property of the body that an insert schema names is, once validated,
    the property of the body. *)
Lemma validated_same rt (t : table) ks (body v : jsobject) k x :
  Zod.parse rt (Zod.omit ks (DrizzleZod.createInsertSchema t)) body = inr v
  ∨ Zod.parse rt (Zod.partial (Zod.omit ks (DrizzleZod.createInsertSchema t))) body = inr v →
  v !! k = Some x → body !! k = Some x.
Proof.
  intros Hp Hk.
  assert (∃ c f, Zod.ftype f = DrizzleZod.column_ztype c
                 ∧ Zod.zparse_field rt k f (body !! k) = inr (Some x)) as (c & f & Hty & Hf).
  { destruct Hp as [Hp|Hp];
      destruct (parse_lookup_Some _ _ _ _ _ _ Hp Hk) as (f & Hin & Hf).
    - apply elem_of_omit_insert_schema in Hin as (c & _ & _ & _ & ->). eexists c, _. split; [|exact Hf]. done.
    - apply elem_of_partial in Hin as (f' & Hin & ->).
      apply elem_of_omit_insert_schema in Hin as (c & _ & _ & _ & ->). eexists c, _. split; [|exact Hf]. done. }
  unfold Zod.zparse_field in Hf. rewrite Hty in Hf.
  destruct (body !! k) as [y|]; [|by destruct (Zod.foptional f)].
  assert (Hgen : match Zod.zcheck rt (DrizzleZod.column_ztype c) [k] y with
                 | inr v' => inr (Some v')
                 | inl errs => inl errs
                 end = inr (Some x) → Some y = Some x).
  { destruct (Zod.zcheck _ _ _ y) as [|o] eqn:E; [discriminate|].
    intros [= <-]. f_equal. symmetry. by eapply zcheck_column_same. }
  destruct y; try (by apply Hgen).
  destruct (Zod.fnullable f); [by injection Hf as <-|by apply Hgen].
Qed.

(** The row an insert makes of validated content that the store takes
    holds every property of the body that the insert schema names, as the
    body gave it. *)
Lemma content_row_keeps rt (body v : jsobject) (db : Db) k x :
  Zod.parse rt insertContentSchema body = inr v →
  nul_free v →
  k ∈ Zod.keys insertContentSchema →
  body !! k = Some x →
  insert_row rt db content v !! k = Some x.
Proof.
  intros Hp Hnul Hk Hb.
  unfold Zod.keys in Hk. apply list_elem_of_fmap in Hk as ([k' f] & -> & Hin).
  cbn [fst] in *. destruct (parse_present rt _ body v k' f Hp Hin) as [y Hy]; [by rewrite Hb|].
  pose proof (validated_same rt content _ body v k' y (or_introl Hp) Hy) as Hsame.
  assert (y = x) as -> by congruence.
  apply elem_of_omit_insert_schema in Hin as (c & Hc & <- & _).
  by rewrite (content_insert_row rt body v db c Hp Hnul Hc), Hy.
Qed.

(** X2.  Create, then read.  In a store whose content sequence is ahead and
    within 32 bits, when [POST /api/content] answers 200 with a row, the row
    holds every property of the body that the insert schema names, as the
    body gave it, and [GET /api/content/:id] for the new identifier answers
    200 with that same row and leaves the store as it is. *)
Theorem POST_then_GET_content rt (body row : jsobject) (s : string) (db db' : Db) :
  sequence_ahead Content db →
  Zod.is_int4 (content_seq db) = true →
  JS.parseInt s = Num (content_seq db) →
  POST_api_content rt body db = (Response 200 (Row row), db') →
  GET_api_content_id s db' = (Response 200 (Row row), db')
  ∧ (∀ k x, k ∈ Zod.keys insertContentSchema → body !! k = Some x → row !! k = Some x).
Proof.
  intros Hseq Hint Hs Hpost.
  rewrite (POST_api_content_spec rt body db Hseq) in Hpost.
  destruct (Zod.parse rt insertContentSchema body) as [errs|v] eqn:Hp; [discriminate|].
  case_bool_decide as Hnul; [|discriminate].
  apply pair_equal_spec in Hpost as [Hrow <-]. injection Hrow as <-.
  set (row := insert_row rt db content v).
  assert (Hid : row !! "id" = Some (JNum (content_seq db))).
  { unfold row.
    rewrite (insert_row_default rt db content v (primaryKey (serial "id")) "id"
               content_names_NoDup); [done|apply list_elem_of_here|done|].
    eapply parse_lookup_None; [exact Hp|]. by_compute. }
  split.
  - unfold GET_api_content_id, try_catch, bind, getContentById, bind, db_select_by_id, valid_id.
    rewrite Hs, Hint. unfold ret. cbn [tname content]. rewrite rows_set_rows.
    rewrite filter_app.
    assert (Hold : filter (λ r, has_id (content_seq db) r = true) (content_rows db) = []).
    { apply filter_none. intros r Hr. apply bool_decide_eq_false. intros Hrid.
      specialize (Hseq r _ Hr Hrid). cbn [nextval] in Hseq. lia. }
    rewrite Hold, filter_cons, decide_True; [done|].
    unfold has_id, row_id. rewrite Hid. by apply bool_decide_eq_true.
  - intros k x Hk Hb. by apply (content_row_keeps rt body v db).
Qed.

(** What a statement can do, read off its branches. *)
Lemma db_update_inv (t : table) (set : jsobject) id (db db' : Db) o :
  db_update t set id db = (o, db') →
  (∃ msg, o = Throw (StoreError msg) ∧ db' = db)
  ∨ (∃ n, valid_id id = Some n
          ∧ o = Ok ((λ r, assignments t set ∪ r)
                      <$> filter (λ r, has_id n r = true) (rows (tname t) db))
          ∧ db' = set_rows (tname t)
                    ((λ r, if has_id n r then assignments t set ∪ r else r)
                       <$> rows (tname t) db) db).
Proof. unfold db_update. intros Hupd. repeat case_match; simplify_eq; eauto. Qed.

Lemma db_delete_inv (t : table) id (db db' : Db) o :
  db_delete t id db = (o, db') →
  (∃ msg, o = Throw (StoreError msg) ∧ db' = db)
  ∨ (∃ n, valid_id id = Some n
          ∧ o = Ok (Z.of_nat (length (filter (λ r, has_id n r = true) (rows (tname t) db))))
          ∧ db' = set_rows (tname t)
                    (filter (λ r, has_id n r = false) (rows (tname t) db)) db
          ∧ (filter (λ r, has_id n r = true) (rows (tname t) db) = []
             ∨ referenced t n db = false)).
Proof.
  unfold db_delete. intros Hdel.
  destruct (valid_id id) as [n|]; [|simplify_eq; eauto].
  destruct (bool_decide (_ = [])) eqn:Hnil; cbn [negb andb] in Hdel.
  - apply bool_decide_eq_true in Hnil. simplify_eq. right. exists n. eauto.
  - destruct (referenced t n db) eqn:Href; simplify_eq; [eauto|].
    right. exists n. eauto.
Qed.

Lemma db_insert_inv rt (t : table) (values : jsobject) (db db' : Db) o :
  db_insert rt t values db = (o, db') →
  let db1 := if draws_serial t values then advance (tname t) db else db in
  (∃ msg, o = Throw (StoreError msg) ∧ (db' = db ∨ db' = db1))
  ∨ (o = Ok (insert_row rt db t values)
     ∧ accepts_all t values = true
     ∧ db' = set_rows (tname t) (rows (tname t) db ++ [insert_row rt db t values]) db1
     ∧ Forall (λ c, not_null_ok c (insert_row rt db t values !! cname c) = true
                    ∧ reference_ok db c (insert_row rt db t values !! cname c) = true
                    ∧ unique_ok (rows (tname t) db) c (insert_row rt db t values !! cname c)
                      = true) (tcolumns t)).
Proof.
  intros Hins. unfold db_insert in Hins. cbv zeta in *.
  destruct (accepts_all t values); cbn [negb] in Hins; [|simplify_eq; eauto].
  destruct (forallb _ _) eqn:Hall; simplify_eq; [|eauto].
  right. repeat split; try done.
  apply Forall_forall. intros c Hc. rewrite forallb_forall in Hall.
  specialize (Hall c (proj1 (list_elem_of_In _ _) Hc)).
  by repeat (apply andb_prop in Hall as [Hall ?]).
Qed.

(** X3.  Update, then read.  Whatever the body, [PUT /api/content/:id]
    leaves the [id], the [views] and the [createdAt] of every content row as
    they were, and the other tables and all sequences untouched; and when it
    answers 200 with a row, [GET /api/content/:id] for the same path
    identifier answers 200 with that row. *)
Theorem PUT_content_then_GET rt (s : string) (body : jsobject) (db : Db) :
  let resp := fst (PUT_api_content_id rt s body db) in
  let db' := snd (PUT_api_content_id rt s body db) in
  Forall2 (λ r r', r' !! "id" = r !! "id" ∧ r' !! "views" = r !! "views"
                   ∧ r' !! "createdAt" = r !! "createdAt")
    (content_rows db) (content_rows db')
  ∧ users_rows db' = users_rows db ∧ upcoming_rows db' = upcoming_rows db
  ∧ analytics_rows db' = analytics_rows db
  ∧ (∀ t, nextval t db' = nextval t db)
  ∧ (∀ row, resp = Response 200 (Row row) →
       GET_api_content_id s db' = (Response 200 (Row row), db')).
Proof.
  cbn zeta. destruct (PUT_api_content_id rt s body db) as [resp db'] eqn:Hput.
  cbn [fst snd].
  assert (Hsame : Forall2 (λ r r' : jsobject, r' !! "id" = r !! "id"
                     ∧ r' !! "views" = r !! "views" ∧ r' !! "createdAt" = r !! "createdAt")
                    (content_rows db) (content_rows db)).
  { apply Forall_Forall2_diag, Forall_forall. done. }
  unfold PUT_api_content_id, try_catch, bind, parse in Hput.
  destruct (Zod.parse rt (Zod.partial insertContentSchema) body) as [errs|v] eqn:Hp.
  { unfold throw in Hput. simplify_eq. repeat split; done. }
  unfold ret at 1 in Hput. unfold updateContent, bind in Hput.
  set (set := <["updatedAt" := JDate (Some (Date_now rt))]> v) in *.
  assert (Hnone : ∀ k, k ∈ ["id"; "views"; "createdAt"] → assignments content set !! k = None).
  { intros k Hk. apply assignments_None.
    unfold set. rewrite lookup_insert_ne.
    - eapply parse_lookup_None; [exact Hp|]. rewrite keys_partial.
      repeat (apply elem_of_cons in Hk as [->|Hk]); [by_compute..|by apply elem_of_nil in Hk].
    - intros <-. revert Hk. by_compute. }
  destruct (db_update content set (JS.parseInt s) db) as [o db1] eqn:Hupd.
  apply db_update_inv in Hupd as [(e & -> & ->)|(n & Hid & -> & ->)].
  { simplify_eq. repeat split; done. }
  cbn [tname content rows] in Hput. unfold ret in Hput.
  set (rows' := (λ r, if has_id n r then assignments content set ∪ r else r)
                  <$> content_rows db) in *.
  assert (Hrows : Forall2 (λ r r' : jsobject, r' !! "id" = r !! "id"
                     ∧ r' !! "views" = r !! "views" ∧ r' !! "createdAt" = r !! "createdAt")
                    (content_rows db) rows').
  { eapply Forall2_impl; [apply Forall2_update|].
    intros r r'. simpl. destruct (has_id n r); intros ->; [|done].
    repeat split; apply lookup_union_r, Hnone; by_compute. }
  assert (Hget : ∀ row,
            head ((λ r, assignments content set ∪ r)
                    <$> filter (λ r, has_id n r = true) (content_rows db)) = Some row →
            GET_api_content_id s (set_rows Content rows' db)
            = (Response 200 (Row row), set_rows Content rows' db)).
  { intros row Hrow.
    unfold GET_api_content_id, try_catch, bind, getContentById, bind, db_select_by_id.
    rewrite Hid. unfold ret. cbn [tname content]. rewrite rows_set_rows.
    unfold rows'. rewrite filter_update by (apply Hnone; by_compute). by rewrite Hrow. }
  destruct (head _) as [row|] eqn:Hhead; apply pair_equal_spec in Hput as [<- <-];
    (split; [exact Hrows|]); (split; [done|]); (split; [done|]); (split; [done|]);
    (split; [by intros []|]); [|done].
  intros row' [= <-]. by apply Hget.
Qed.

(** X4.  Delete, then read.  After a [DELETE /api/content/:id] that answered
    [{success: true}], [GET] and [DELETE] for the same path identifier answer
    404.  A [PUT] for it changes no row either: it answers 400 when the body
    fails the partial schema, 500 when the body passes and the store refuses
    one of the values (a string that holds U+0000, or a clock outside the
    years 1 to 9999), and 404 otherwise.  None of the three changes the
    store. *)
Theorem DELETE_content_then_absent (s : string) (db db' : Db) :
  DELETE_api_content_id s db = (Response 200 Success, db') →
  GET_api_content_id s db' = (Response 404 (Failure "Content not found"), db')
  ∧ DELETE_api_content_id s db' = (Response 404 (Failure "Content not found"), db')
  ∧ ∀ rt (body : jsobject),
      PUT_api_content_id rt s body db'
      = (match Zod.parse rt (Zod.partial insertContentSchema) body with
         | inl errors => Response 400 (Invalid "Invalid data" errors)
         | inr patch =>
             if bool_decide (nul_free patch ∧ storable_instant (Date_now rt))
             then Response 404 (Failure "Content not found")
             else Response 500 (Failure "Failed to update content")
         end, db').
Proof.
  intros Hdel. unfold DELETE_api_content_id, try_catch, bind, deleteContent, bind in Hdel.
  destruct (db_delete content (JS.parseInt s) db) as [o db1] eqn:Hd.
  apply db_delete_inv in Hd as [(e & -> & ->)|(n & Hid & -> & -> & _)]; [discriminate|].
  unfold ret in Hdel. destruct (bool_decide (0 < _)); [|discriminate].
  apply pair_equal_spec in Hdel as [_ <-]. cbn [tname content].
  set (db' := set_rows Content (filter (λ r, has_id n r = false) (rows Content db)) db).
  assert (Hgone : ∀ r, r ∈ rows Content db' → has_id n r = false).
  { intros r Hr. unfold db' in Hr. rewrite rows_set_rows in Hr.
    by apply list_elem_of_filter in Hr as [? _]. }
  destruct (filter_none n _ Hgone) as [Hf1 Hf2].
  assert (Hvalid : JS.parseInt s = Num n ∧ Zod.is_int4 n = true).
  { unfold valid_id in Hid. destruct (JS.parseInt s) as [m|]; [|discriminate].
    destruct (Zod.is_int4 m) eqn:E; [|discriminate]. by injection Hid as <-. }
  destruct Hvalid as [Hnum Hint].
  split; [|split].
  - unfold GET_api_content_id, try_catch, bind, getContentById, bind, db_select_by_id.
    rewrite Hid. unfold ret. cbn [tname content]. by rewrite Hf1.
  - unfold DELETE_api_content_id, try_catch, bind, deleteContent, bind, db_delete.
    rewrite Hid. cbn [tname content]. rewrite Hf1, Hf2.
    rewrite bool_decide_eq_true_2 by done. cbn [negb andb]. unfold ret.
    by rewrite set_rows_same.
  - intros rt body.
    unfold PUT_api_content_id, try_catch, bind, parse.
    destruct (Zod.parse rt (Zod.partial insertContentSchema) body) as [errs|patch] eqn:Hp;
      [done|].
    unfold ret at 1. unfold updateContent, bind. rewrite Hnum.
    case_bool_decide as Hok.
    + destruct Hok as [Hnul Hnow].
      rewrite (db_update_assignable content _ n db' content_names_NoDup
                 (content_patch_assignable rt body patch Hp Hnul Hnow)); [|
        intros Hsz; apply map_size_empty_iff in Hsz; by apply insert_non_empty in Hsz|done].
      cbn [tname content]. rewrite Hf1. cbn [fmap list_fmap head]. unfold ret.
      assert (Hmap : ∀ (set : jsobject) (l : list jsobject),
                (∀ r, r ∈ l → has_id n r = false) →
                (λ r, if has_id n r then set ∪ r else r) <$> l = l).
      { clear. intros set l Hgone. induction l as [|r l IH]; [done|].
        rewrite fmap_cons, (Hgone r) by apply list_elem_of_here. f_equal.
        apply IH. intros r' Hr'. by apply Hgone, list_elem_of_further. }
      rewrite (Hmap _ _ Hgone). by rewrite set_rows_same.
    + by destruct (db_update_refused content _ (Num n) db'
                     (content_patch_refused rt body patch Hp Hok)) as [msg ->].
Qed.

End round_trips.

(** ** What the requests do to the store *)

Section statements.
Import Schema Store Storage Shared Routes.

(** Every handler runs at most one statement that writes, and the values it
    sends are the body as its schema validated it; only [POST
    /api/upcoming-content] sends the body itself. *)
Lemma registerRoutes_statement rt (req : request) (db db' : Db) resp :
  registerRoutes rt req db = (resp, db') →
  db' = db
  ∨ (∃ tb values o, db_insert rt tb values db = (o, db')
       ∧ ((tb = content ∧ ∃ body, Zod.parse rt insertContentSchema body = inr values)
          ∨ tb = upcomingContent
          ∨ (tb = analytics ∧ ∃ body, Zod.parse rt insertAnalyticsSchema body = inr values)))
  ∨ (∃ tb set id o, db_update tb set id db = (o, db')
       ∧ ((tb = content
           ∧ ∃ body v, Zod.parse rt (Zod.partial insertContentSchema) body = inr v
                       ∧ set = <["updatedAt" := JDate (Some (Date_now rt))]> v)
          ∨ (tb = upcomingContent
             ∧ ∃ body, Zod.parse rt (Zod.partial insertUpcomingContentSchema) body = inr set)))
  ∨ (∃ tb id o, db_delete tb id db = (o, db') ∧ (tb = content ∨ tb = upcomingContent)).
Proof.
  intros Hreq. destruct req; cbn [registerRoutes] in Hreq.
  - left. by injection Hreq.
  - left. by injection Hreq.
  - left. unfold GET_api_content_id, try_catch, bind, getContentById, bind, db_select_by_id, ret
      in Hreq. repeat case_match; simplify_eq; done.
  - unfold POST_api_content, try_catch, bind, parse, createContent in Hreq.
    destruct (Zod.parse rt insertContentSchema req_body) as [errs|v] eqn:Hp;
      [left; unfold throw in Hreq; by simplify_eq|].
    unfold ret at 1 in Hreq. destruct (db_insert rt content v db) as [o d] eqn:Hins.
    right. left. exists content, v, o. split; [|left; eauto].
    destruct o; simpl in Hreq; by simplify_eq.
  - unfold PUT_api_content_id, try_catch, bind, parse, updateContent, bind in Hreq.
    destruct (Zod.parse rt (Zod.partial insertContentSchema) req_body) as [errs|v] eqn:Hp;
      [left; unfold throw in Hreq; by simplify_eq|].
    unfold ret at 1 in Hreq.
    destruct (db_update content _ (JS.parseInt id) db) as [o d] eqn:Hupd.
    right. right. left. eexists content, _, _, o. split; [|left; eauto].
    destruct o as [[|r l]|e]; simpl in Hreq; by simplify_eq.
  - unfold DELETE_api_content_id, try_catch, bind, deleteContent, bind in Hreq.
    destruct (db_delete content (JS.parseInt id) db) as [o d] eqn:Hdel.
    right. right. right. eexists content, _, o. split; [|by left].
    destruct o as [n|e]; simpl in Hreq; [|by simplify_eq]. unfold ret in Hreq.
    destruct (bool_decide (0 < n)); simpl in Hreq; by simplify_eq.
  - left. by injection Hreq.
  - left. unfold GET_api_upcoming_content_id, try_catch, bind, getUpcomingContentById, bind,
      db_select_by_id, ret in Hreq. repeat case_match; simplify_eq; done.
  - unfold POST_api_upcoming_content, try_catch, bind, createUpcomingContent in Hreq.
    destruct (db_insert rt upcomingContent _ db) as [o d] eqn:Hins.
    right. left. eexists upcomingContent, _, o. split; [|by right; left].
    destruct o; simpl in Hreq; by simplify_eq.
  - unfold PUT_api_upcoming_content_id, try_catch, bind, parse, updateUpcomingContent, bind
      in Hreq.
    destruct (Zod.parse rt _ req_body) as [errs|v] eqn:Hp;
      [left; unfold throw in Hreq; by simplify_eq|].
    unfold ret at 1 in Hreq.
    destruct (db_update upcomingContent v (JS.parseInt id) db) as [o d] eqn:Hupd.
    right. right. left. eexists upcomingContent, _, _, o. split; [|right; eauto].
    destruct o as [[|r l]|e]; simpl in Hreq; by simplify_eq.
  - unfold DELETE_api_upcoming_content_id, try_catch, bind, deleteUpcomingContent, bind in Hreq.
    destruct (db_delete upcomingContent (JS.parseInt id) db) as [o d] eqn:Hdel.
    right. right. right. eexists upcomingContent, _, o. split; [|by right].
    destruct o as [n|e]; simpl in Hreq; [|by simplify_eq]. unfold ret in Hreq.
    destruct (bool_decide (0 < n)); simpl in Hreq; by simplify_eq.
  - unfold POST_api_analytics, try_catch, bind, parse, createAnalyticsEvent in Hreq.
    destruct (Zod.parse rt insertAnalyticsSchema req_body) as [errs|v] eqn:Hp;
      [left; unfold throw in Hreq; by simplify_eq|].
    unfold ret at 1 in Hreq. destruct (db_insert rt analytics v db) as [o d] eqn:Hins.
    right. left. exists analytics, v, o. split; [|right; right; eauto].
    destruct o; simpl in Hreq; by simplify_eq.
  - left. by injection Hreq.
Qed.

End statements.

(** ** Invariants of the stores the routes reach *)

Section invariants.
Import Schema Store Storage Shared Routes.

(** The identifier column keeps the rows of a table apart: every row has a
    number as its [id] and no two rows the same one.  The three kinds of
    statement keep it so. *)
Lemma db_insert_identified rt (t : table) (values : jsobject) (db db' : Db) o :
  NoDup (column_names t) →
  primaryKey (serial "id") ∈ tcolumns t →
  db_insert rt t values db = (o, db') →
  Forall (λ r, is_Some (row_id r)) (rows (tname t) db) ∧ NoDup (row_id <$> rows (tname t) db) →
  Forall (λ r, is_Some (row_id r)) (rows (tname t) db')
  ∧ NoDup (row_id <$> rows (tname t) db').
Proof.
  intros Hnd Hcol Hins [Hall Hids].
  apply db_insert_inv in Hins as [(e & _ & [->| ->])|(_ & Hacc & -> & Hcons)]; [done| |].
  { destruct (draws_serial t values); [by rewrite rows_advance|done]. }
  rewrite rows_set_rows.
  rewrite Forall_forall in Hcons. destruct (Hcons _ Hcol) as (Hnn & _ & Huniq).
  cbn [cname primaryKey serial] in Hnn, Huniq.
  set (row := insert_row rt db t values) in *.
  assert (Hrow : ∃ n, row !! "id" = Some (JNum n)) .
  { pose proof (insert_row_lookup rt db t values _ Hnd Hcol) as Hl.
    cbn [cname primaryKey serial] in Hl. fold row in Hl.
    unfold accepts_all in Hacc. rewrite forallb_forall in Hacc.
    specialize (Hacc _ (proj1 (list_elem_of_In _ _) Hcol)).
    cbn [cname primaryKey serial] in Hacc.
    destruct (values !! "id") as [v|]; cbn [from_option] in Hl, Hacc;
      [|unfold default_value in Hl; cbn [ctype primaryKey serial] in Hl; by eauto].
    rewrite Hl in Hnn. apply accepts_stored in Hacc.
    destruct (stored_integer (primaryKey (serial "id")) _ _ (or_intror eq_refl) Hacc)
      as [Hnull|(n & Hn & _)].
    - rewrite Hnull in Hnn. discriminate.
    - rewrite Hn in Hl. eauto. }
  destruct Hrow as [n Hn].
  assert (Hrid : row_id row = Some n) by (unfold row_id; by rewrite Hn).
  split.
  - apply Forall_app. split; [done|]. apply Forall_singleton. by rewrite Hrid.
  - rewrite fmap_app. apply NoDup_app. split; [done|]. split; [|apply NoDup_singleton].
    intros x Hx Hx'. apply list_elem_of_singleton in Hx'. subst x.
    apply list_elem_of_fmap in Hx as (r & Hr & Hin).
    unfold unique_ok in Huniq. cbn [cprimary cname primaryKey serial orb negb] in Huniq.
    apply negb_true_iff, not_true_iff_false in Huniq. apply Huniq.
    apply existsb_exists. exists r. split; [by apply list_elem_of_In|].
    rewrite Hn. rewrite Hrid in Hr. unfold row_id in Hr.
    destruct (r !! "id") as [[]|]; try discriminate. injection Hr as <-.
    simpl. by apply bool_decide_eq_true.
Qed.

Lemma db_update_identified (t : table) (set : jsobject) id (db db' : Db) o :
  set !! "id" = None →
  db_update t set id db = (o, db') →
  row_id <$> rows (tname t) db' = row_id <$> rows (tname t) db.
Proof.
  intros Hid Hupd.
  apply db_update_inv in Hupd as [(e & _ & ->)|(n & _ & _ & ->)]; [done|].
  rewrite rows_set_rows, <- list_fmap_compose. apply list_fmap_ext.
  intros _ r _. simpl. destruct (has_id n r); [|done].
  unfold row_id. rewrite lookup_union_r; [done|].
  by apply assignments_None.
Qed.

Lemma identified_fmap (l l' : list jsobject) :
  row_id <$> l' = row_id <$> l →
  Forall (λ r, is_Some (row_id r)) l ∧ NoDup (row_id <$> l) →
  Forall (λ r, is_Some (row_id r)) l' ∧ NoDup (row_id <$> l').
Proof.
  intros Heq [Hall Hids]. rewrite Heq. split; [|done].
  assert (Hl : Forall is_Some (row_id <$> l)) by (apply Forall_fmap; exact Hall).
  rewrite <- Heq in Hl. exact (proj1 (Forall_fmap _ _ _) Hl).
Qed.

Lemma identified_filter (P : jsobject → Prop) `{∀ r, Decision (P r)} (l : list jsobject) :
  Forall (λ r, is_Some (row_id r)) l ∧ NoDup (row_id <$> l) →
  Forall (λ r, is_Some (row_id r)) (filter P l) ∧ NoDup (row_id <$> filter P l).
Proof.
  intros [Hall Hids]. split.
  - rewrite Forall_forall in Hall. apply Forall_forall. intros r Hr.
    apply list_elem_of_filter in Hr as [_ Hr]. by apply Hall.
  - eapply sublist_NoDup; [exact Hids|]. apply fmap_sublist, sublist_filter.
Qed.

(** One request keeps the identifiers of every table apart. *)
Lemma registerRoutes_identified rt (req : request) (db : Db) :
  (∀ t, Forall (λ r, is_Some (row_id r)) (rows t db) ∧ NoDup (row_id <$> rows t db)) →
  ∀ t, Forall (λ r, is_Some (row_id r)) (rows t (snd (registerRoutes rt req db)))
       ∧ NoDup (row_id <$> rows t (snd (registerRoutes rt req db))).
Proof.
  intros Hinv t. destruct (registerRoutes rt req db) as [resp db'] eqn:Hreq. cbn [snd].
  assert (Hparse : ∀ rt' shape (b v : jsobject),
            "id" ∉ Zod.keys shape → Zod.parse rt' shape b = inr v → v !! "id" = None).
  { intros rt' shape b v Hk Hp. by eapply parse_lookup_None. }
  apply registerRoutes_statement in Hreq
    as [->|[(tb & values & o & Hins & Htb)|[(tb & set & id & o & Hupd & Htb)
       |(tb & id & o & Hdel & Htb)]]]; [done|..].
  - assert (Hcols : NoDup (column_names tb) ∧ primaryKey (serial "id") ∈ tcolumns tb).
    { destruct Htb as [[-> _]|[->|[-> _]]];
        (split; [auto using content_names_NoDup, upcoming_names_NoDup, analytics_names_NoDup
                |apply list_elem_of_here]). }
    destruct (decide (t = tname tb)) as [->|Hne].
    + eapply db_insert_identified; [apply Hcols|apply Hcols|exact Hins|apply Hinv].
    + destruct (db_insert_frame _ _ _ _ _ _ Hins t Hne) as [-> _]. apply Hinv.
  - destruct (decide (t = tname tb)) as [->|Hne].
    + eapply identified_fmap; [|apply Hinv].
      eapply db_update_identified; [|exact Hupd].
      destruct Htb as [[-> (body & v & Hp & ->)]|[-> (body & Hp)]].
      * rewrite lookup_insert_ne by done.
        eapply Hparse; [|exact Hp]. rewrite keys_partial. by_compute.
      * eapply Hparse; [|exact Hp]. rewrite keys_partial. by_compute.
    + destruct (db_update_frame _ _ _ _ _ _ Hupd) as [_ Hr]. rewrite (Hr t Hne). apply Hinv.
  - destruct (decide (t = tname tb)) as [->|Hne].
    + apply db_delete_inv in Hdel as [(e & _ & ->)|(n & _ & _ & -> & _)]; [apply Hinv|].
      rewrite rows_set_rows. apply identified_filter, Hinv.
    + destruct (db_delete_frame _ _ _ _ _ Hdel) as (_ & Hr & _). rewrite (Hr t Hne).
      apply Hinv.
Qed.

(** X5.  In every store that the routes reach from the empty one, whatever
    the requests and their bodies, every row of every table has a number as
    its [id] and no two rows of a table have the same one; so the row that
    [GET /api/content/:id] and [GET /api/upcoming-content/:id] answer with is
    the only row of that identifier. *)
Theorem identifiers_are_keys (reqs : list (runtime * request)) (t : tid) :
  let db := serve reqs empty_db in
  (∀ r, r ∈ rows t db → is_Some (row_id r))
  ∧ NoDup (row_id <$> rows t db)
  ∧ ∀ n, (length (filter (λ r, has_id n r = true) (rows t db)) ≤ 1)%nat.
Proof.
  cbn zeta.
  assert (Hinv : ∀ t, Forall (λ r, is_Some (row_id r)) (rows t (serve reqs empty_db))
                      ∧ NoDup (row_id <$> rows t (serve reqs empty_db))).
  { unfold serve.
    assert (Hinit : ∀ t, Forall (λ r, is_Some (row_id r)) (rows t empty_db)
                         ∧ NoDup (row_id <$> rows t empty_db)).
    { intros []; split; constructor. }
    revert Hinit. generalize empty_db.
    induction reqs as [|[rt req] reqs IH]; intros db Hdb; [done|].
    simpl. apply IH. by apply registerRoutes_identified. }
  destruct (Hinv t) as [Hall Hids]. split; [by apply Forall_forall|]. split; [done|].
  intros n. revert Hids. generalize (rows t (serve reqs empty_db)). clear.
  intros l Hids. induction l as [|r l IH]; [simpl; lia|].
  rewrite fmap_cons in Hids. apply NoDup_cons in Hids as [Hr Hids].
  rewrite filter_cons. destruct (decide (has_id n r = true)) as [Hn|Hn]; [|by apply IH].
  assert (Hnone : filter (λ r, has_id n r = true) l = []).
  { apply filter_none. intros r' Hr'. apply bool_decide_eq_false. intros Hid.
    apply Hr. apply bool_decide_eq_true in Hn. rewrite Hn, <- Hid.
    apply list_elem_of_fmap. by exists r'. }
  rewrite Hnone. simpl. lia.
Qed.

(** Rows whose view counter is 0. *)
Lemma registerRoutes_views rt (req : request) (db : Db) :
  Forall (λ r, r !! "views" = Some (JNum 0)) (content_rows db) →
  Forall (λ r, r !! "views" = Some (JNum 0)) (content_rows (snd (registerRoutes rt req db))).
Proof.
  intros Hinv. destruct (registerRoutes rt req db) as [resp db'] eqn:Hreq. cbn [snd].
  change (content_rows ?d) with (rows Content d) in *.
  apply registerRoutes_statement in Hreq
    as [->|[(tb & values & o & Hins & Htb)|[(tb & set & id & o & Hupd & Htb)
       |(tb & id & o & Hdel & Htb)]]]; [done|..].
  - destruct Htb as [[-> (body & Hp)]|[->|[-> _]]].
    + apply db_insert_inv in Hins as [(e & _ & [->| ->])|(_ & _ & -> & _)]; [done| |].
      { destruct (draws_serial content values); [by rewrite rows_advance|done]. }
      cbn [tname content]. rewrite rows_set_rows. apply Forall_app. split; [done|].
      apply Forall_singleton.
      rewrite (insert_row_default rt db content values (default (JNum 0) (integer "views"))
                 "views" content_names_NoDup);
        [done|do 7 apply list_elem_of_further; apply list_elem_of_here|done|].
      eapply parse_lookup_None; [exact Hp|]. by_compute.
    + by destruct (db_insert_frame _ _ _ _ _ _ Hins Content) as [-> _].
    + by destruct (db_insert_frame _ _ _ _ _ _ Hins Content) as [-> _].
  - destruct Htb as [[-> (body & v & Hp & ->)]|[-> _]].
    + apply db_update_inv in Hupd as [(e & _ & ->)|(n & _ & _ & ->)]; [done|].
      cbn [tname content]. rewrite rows_set_rows. apply Forall_fmap.
      eapply Forall_impl; [exact Hinv|]. intros r Hr. simpl.
      destruct (has_id n r); [|done]. rewrite lookup_union_r; [done|].
      apply assignments_None. rewrite lookup_insert_ne by done.
      eapply parse_lookup_None; [exact Hp|]. rewrite keys_partial. by_compute.
    + destruct (db_update_frame _ _ _ _ _ _ Hupd) as [_ Hr]. by rewrite (Hr Content).
  - destruct Htb as [-> | ->].
    + apply db_delete_inv in Hdel as [(e & _ & ->)|(n & _ & _ & -> & _)]; [done|].
      cbn [tname content]. rewrite rows_set_rows. rewrite Forall_forall in Hinv.
      apply Forall_forall. intros r Hr. apply list_elem_of_filter in Hr as [_ Hr]. by apply Hinv.
    + destruct (db_delete_frame _ _ _ _ _ Hdel) as (_ & Hr & _). by rewrite (Hr Content).
Qed.

(** X6.  No route counts a view.  In every store that the routes reach from
    the empty one, every content row has the view counter 0 it was created
    with, however many [view] events [POST /api/analytics] has stored; the
    [totalViews] of [GET /api/analytics] is the decimal text of the number
    of those events and is independent of the counters. *)
Theorem views_never_counted (reqs : list (runtime * request)) :
  let db := serve reqs empty_db in
  (∀ r, r ∈ content_rows db → r !! "views" = Some (JNum 0))
  ∧ ∃ a, GET_api_analytics db = (Response 200 (Aggregate a), db)
         ∧ totalViews a
           = JStr (pretty (Z.of_nat (length (filter is_view (analytics_rows db)))))
         ∧ ∀ r, r ∈ popularContent a → r !! "views" = Some (JNum 0).
Proof.
  cbn zeta.
  assert (Hinv : Forall (λ r, r !! "views" = Some (JNum 0))
                   (content_rows (serve reqs empty_db))).
  { unfold serve.
    assert (Hinit : Forall (λ r : jsobject, r !! "views" = Some (JNum 0))
                      (content_rows empty_db)) by constructor.
    revert Hinit. generalize empty_db.
    induction reqs as [|[rt req] reqs IH]; intros db Hdb; [done|].
    simpl. apply IH. by apply registerRoutes_views. }
  rewrite Forall_forall in Hinv. split; [exact Hinv|].
  eexists. split; [reflexivity|]. cbn [totalViews popularContent].
  split; [apply or_zero_count|].
  intros r Hr. apply Hinv. unfold limit in Hr. apply elem_of_take in Hr as (i & Hr & _).
  apply list_elem_of_lookup_2 in Hr.
  by rewrite (orderBy_perm (desc "views") (content_rows _)) in Hr.
Qed.

End invariants.

(** ** Requests that fail *)

Section failures.
Import Schema Store Storage Shared Routes.

Lemma filter_length_0 n (l : list jsobject) :
  length (filter (λ r, has_id n r = true) l) = 0%nat →
  filter (λ r, has_id n r = false) l = l
  ∧ (∀ set : jsobject, (λ r, if has_id n r then set ∪ r else r) <$> l = l).
Proof.
  intros Hlen. apply nil_length_inv in Hlen.
  assert (Hnone : ∀ r, r ∈ l → has_id n r = false).
  { intros r Hr. destruct (has_id n r) eqn:Hid; [|done].
    exfalso. eapply filter_some; [|exact Hlen]. eauto. }
  split; [by apply filter_none|]. intros set.
  clear Hlen. induction l as [|r l IH]; [done|].
  rewrite fmap_cons, (Hnone r) by apply list_elem_of_here. f_equal.
  apply IH. intros r' Hr'. by apply Hnone, list_elem_of_further.
Qed.

(** X7.  A request that is not answered with status 200 changes no row of
    any table, and one answered 400 or 404 leaves the whole store, sequences
    included, as it was. *)
Theorem failed_request_changes_no_row rt (req : request) (db : Db) :
  status (fst (registerRoutes rt req db)) ≠ 200 →
  (∀ t, rows t (snd (registerRoutes rt req db)) = rows t db)
  ∧ (status (fst (registerRoutes rt req db)) = 400
     ∨ status (fst (registerRoutes rt req db)) = 404 →
     snd (registerRoutes rt req db) = db).
Proof.
  destruct (registerRoutes rt req db) as [resp db'] eqn:Hreq. cbn [fst snd]. intros Hst.
  assert (Hins : ∀ (tb : table) values (o : outcome jsobject) d msg,
            db_insert rt tb values db = (o, d) →
            (match o with Ok a => (json (Row a), d) | Throw e => (catch_zod msg e, d) end
             = (resp, db')
             ∨ match o with Ok a => (json (Row a), d) | Throw e => (catch_all msg e, d) end
               = (resp, db')) →
            (∀ t, rows t db' = rows t db) ∧ (status resp = 400 ∨ status resp = 404 → db' = db)).
  { intros tb values o d msg Hi Hr.
    apply db_insert_inv in Hi as [(m & -> & Hd)|(-> & _)].
    - assert (resp = Response 500 (Failure msg) ∧ db' = d) as [-> ->]
        by (destruct Hr; by simplify_eq).
      split; [|by intros []]. intros t. destruct Hd as [->| ->]; [done|].
      destruct (draws_serial tb values); [by rewrite rows_advance|done].
    - exfalso. apply Hst. destruct Hr; by simplify_eq. }
  assert (Hupd : ∀ (tb : table) set id (o : outcome (list jsobject)) d msg nf,
            db_update tb set id db = (o, d) →
            match o with
            | Ok l => (match head l with
                       | Some c => json (Row c)
                       | None => Response 404 (Failure nf)
                       end, d)
            | Throw e => (catch_zod msg e, d)
            end = (resp, db') →
            (∀ t, rows t db' = rows t db) ∧ (status resp = 400 ∨ status resp = 404 → db' = db)).
  { intros tb set id o d msg nf Hu Hr.
    apply db_update_inv in Hu as [(m & -> & ->)|(n & _ & -> & ->)].
    - by simplify_eq.
    - destruct (filter _ _) as [|r l] eqn:Hf; [|exfalso; apply Hst; by simplify_eq].
      apply (f_equal length) in Hf. apply (filter_length_0 n) in Hf as [_ Hmap].
      rewrite Hmap, set_rows_same in Hr. by simplify_eq. }
  assert (Hdel : ∀ (tb : table) id (o : outcome Z) d msg nf,
            db_delete tb id db = (o, d) →
            match o with
            | Ok n => (if bool_decide (0 < n) then json Success
                       else Response 404 (Failure nf), d)
            | Throw e => (catch_all msg e, d)
            end = (resp, db') →
            (∀ t, rows t db' = rows t db) ∧ (status resp = 400 ∨ status resp = 404 → db' = db)).
  { intros tb id o d msg nf Hd Hr.
    apply db_delete_inv in Hd as [(m & -> & ->)|(n & _ & -> & -> & _)].
    - by simplify_eq.
    - case_bool_decide as Hpos; [exfalso; apply Hst; by simplify_eq|].
      assert (Hlen : length (filter (λ r, has_id n r = true) (rows (tname tb) db)) = 0%nat)
        by lia.
      apply (filter_length_0 n) in Hlen as [Hfil _].
      rewrite Hfil, set_rows_same in Hr. by simplify_eq. }
  destruct req; cbn [registerRoutes] in Hreq.
  - exfalso. apply Hst. apply pair_equal_spec in Hreq as [<- _]. done.
  - exfalso. apply Hst. apply pair_equal_spec in Hreq as [<- _]. done.
  - unfold GET_api_content_id, try_catch, bind, getContentById, bind, db_select_by_id, ret
      in Hreq. repeat case_match; by simplify_eq.
  - unfold POST_api_content, try_catch, bind, parse, createContent in Hreq.
    destruct (Zod.parse rt insertContentSchema req_body) as [errs|v];
      [unfold throw in Hreq; by simplify_eq|].
    unfold ret at 1 in Hreq. destruct (db_insert rt content v db) as [o d] eqn:Hi.
    eapply Hins; [exact Hi|]. left. destruct o; exact Hreq.
  - unfold PUT_api_content_id, try_catch, bind, parse, updateContent, bind in Hreq.
    destruct (Zod.parse rt (Zod.partial insertContentSchema) req_body) as [errs|v];
      [unfold throw in Hreq; by simplify_eq|].
    unfold ret at 1 in Hreq.
    destruct (db_update content _ (JS.parseInt id) db) as [o d] eqn:Hu.
    eapply Hupd; [exact Hu|]. destruct o as [l|e]; [|exact Hreq].
    unfold ret in Hreq. destruct (head l); exact Hreq.
  - unfold DELETE_api_content_id, try_catch, bind, deleteContent, bind in Hreq.
    destruct (db_delete content (JS.parseInt id) db) as [o d] eqn:Hd.
    eapply Hdel; [exact Hd|]. destruct o as [n|e]; [|exact Hreq].
    unfold ret in Hreq. destruct (bool_decide (0 < n)); exact Hreq.
  - exfalso. apply Hst. apply pair_equal_spec in Hreq as [<- _]. done.
  - unfold GET_api_upcoming_content_id, try_catch, bind, getUpcomingContentById, bind,
      db_select_by_id, ret in Hreq. repeat case_match; by simplify_eq.
  - unfold POST_api_upcoming_content, try_catch, bind, createUpcomingContent in Hreq.
    destruct (db_insert rt upcomingContent _ db) as [o d] eqn:Hi.
    eapply Hins; [exact Hi|]. right. destruct o; exact Hreq.
  - unfold PUT_api_upcoming_content_id, try_catch, bind, parse, updateUpcomingContent, bind
      in Hreq.
    destruct (Zod.parse rt _ req_body) as [errs|v];
      [unfold throw in Hreq; by simplify_eq|].
    unfold ret at 1 in Hreq.
    destruct (db_update upcomingContent v (JS.parseInt id) db) as [o d] eqn:Hu.
    eapply Hupd; [exact Hu|]. destruct o as [l|e]; [|exact Hreq].
    unfold ret in Hreq. destruct (head l); exact Hreq.
  - unfold DELETE_api_upcoming_content_id, try_catch, bind, deleteUpcomingContent, bind in Hreq.
    destruct (db_delete upcomingContent (JS.parseInt id) db) as [o d] eqn:Hd.
    eapply Hdel; [exact Hd|]. destruct o as [n|e]; [|exact Hreq].
    unfold ret in Hreq. destruct (bool_decide (0 < n)); exact Hreq.
  - unfold POST_api_analytics, try_catch, bind, parse, createAnalyticsEvent in Hreq.
    destruct (Zod.parse rt insertAnalyticsSchema req_body) as [errs|v];
      [unfold throw in Hreq; by simplify_eq|].
    unfold ret at 1 in Hreq. destruct (db_insert rt analytics v db) as [o d] eqn:Hi.
    eapply Hins; [exact Hi|]. left. destruct o; exact Hreq.
  - exfalso. apply Hst. apply pair_equal_spec in Hreq as [<- _]. done.
Qed.

End failures.

(** ** Analytics events *)

Section events.
Import Schema Store Storage Shared Routes.

(** A property of the body that an insert schema names is a property of the
    validated data. *)
Lemma validated_keeps rt (t : table) ks (body v : jsobject) k x :
  Zod.parse rt (Zod.omit ks (DrizzleZod.createInsertSchema t)) body = inr v →
  k ∈ Zod.keys (Zod.omit ks (DrizzleZod.createInsertSchema t)) →
  body !! k = Some x → v !! k = Some x.
Proof.
  intros Hp Hk Hb. unfold Zod.keys in Hk.
  apply list_elem_of_fmap in Hk as ([k' f] & -> & Hin). cbn [fst] in *.
  destruct (parse_present rt _ body v k' f Hp Hin) as [y Hy]; [by rewrite Hb|].
  pose proof (validated_same rt t ks body v k' y (or_introl Hp) Hy) as Hsame.
  congruence.
Qed.

(** What [POST /api/analytics] does, by the outcome of the insert. *)
Lemma POST_api_analytics_inv rt (body : jsobject) (db db' : Db) resp :
  POST_api_analytics rt body db = (resp, db') →
  (∃ errs, Zod.parse rt insertAnalyticsSchema body = inl errs
           ∧ resp = Response 400 (Invalid "Invalid data" errs) ∧ db' = db)
  ∨ (∃ v, Zod.parse rt insertAnalyticsSchema body = inr v
          ∧ ((resp = Response 500 (Failure "Failed to create analytics event")
              ∧ ∀ t, rows t db' = rows t db)
             ∨ (resp = Response 200 (Row (insert_row rt db analytics v))
                ∧ db' = set_rows Analytics
                          (analytics_rows db ++ [insert_row rt db analytics v])
                          (advance Analytics db)
                ∧ Forall (λ c, reference_ok db c (insert_row rt db analytics v !! cname c) = true)
                    (tcolumns analytics)))).
Proof.
  unfold POST_api_analytics, try_catch, bind, parse, createAnalyticsEvent. intros Hreq.
  destruct (Zod.parse rt insertAnalyticsSchema body) as [errs|v] eqn:Hp;
    [left; unfold throw in Hreq; simplify_eq; eauto|].
  right. exists v. split; [done|].
  unfold ret at 1 in Hreq. destruct (db_insert rt analytics v db) as [o d] eqn:Hi.
  assert (Hid : v !! "id" = None) by (eapply parse_lookup_None; [exact Hp|]; by_compute).
  apply db_insert_inv in Hi as [(m & -> & Hd)|(-> & _ & -> & Hcons)].
  - left. simplify_eq. split; [done|]. intros t. destruct Hd as [->| ->]; [done|].
    destruct (draws_serial analytics v); [by rewrite rows_advance|done].
  - right. unfold ret in Hreq. apply pair_equal_spec in Hreq as [<- <-].
    assert (Hdraw : draws_serial analytics v = true).
    { unfold draws_serial. apply existsb_exists. exists (primaryKey (serial "id")).
      split; [by left|]. simpl. by rewrite Hid. }
    rewrite Hdraw. split; [done|]. split; [done|].
    eapply Forall_impl; [exact Hcons|]. by intros c (_ & ? & _).
Qed.

(** An event that refers to a content row or to a user that is not stored is
    refused by the store. *)
Lemma dangling_reference rt (body v : jsobject) (col : string) (t : tid) (n : Z) (db : Db) :
  Zod.parse rt insertAnalyticsSchema body = inr v →
  references t (integer col) ∈ tcolumns analytics →
  body !! col = Some (JNum n) →
  (∀ r, r ∈ rows t db → row_id r ≠ Some n) →
  fst (POST_api_analytics rt body db)
  = Response 500 (Failure "Failed to create analytics event")
  ∧ ∀ t', rows t' (snd (POST_api_analytics rt body db)) = rows t' db.
Proof.
  intros Hp Hcol Hb Hnone.
  destruct (POST_api_analytics rt body db) as [resp db'] eqn:Hreq. cbn [fst snd].
  apply POST_api_analytics_inv in Hreq
    as [(errs & Hp' & _)|(v' & Hp' & [[-> Hrows]|(_ & _ & Hrefs)])].
  - congruence.
  - done.
  - exfalso. assert (v' = v) as -> by congruence.
    rewrite Forall_forall in Hrefs. specialize (Hrefs _ Hcol).
    assert (Hv : v !! col = Some (JNum n)).
    { eapply (validated_keeps rt analytics); [exact Hp| |exact Hb].
      assert (col = "contentId" ∨ col = "userId") as [-> | ->]; [|by_compute..].
      pose proof Hcol as Hin. cbn [tcolumns analytics] in Hin.
      repeat (apply elem_of_cons in Hin as [Heq|Hin];
              [vm_compute in Heq; try discriminate Heq; injection Heq; auto|]).
      by apply elem_of_nil in Hin. }
    pose proof (insert_row_lookup rt db analytics v _ analytics_names_NoDup Hcol) as Hrow.
    cbn [cname references integer] in Hrow, Hrefs. rewrite Hv in Hrow.
    cbn [from_option] in Hrow. rewrite held_number in Hrow by (by left).
    rewrite Hrow in Hrefs. unfold reference_ok in Hrefs.
    cbn [creferences references is_null orb] in Hrefs.
    apply existsb_exists in Hrefs as (r & Hr & Heq).
    apply (Hnone r); [by apply list_elem_of_In|].
    unfold row_id. destruct (r !! "id") as [[]|]; try discriminate.
    simpl in Heq. apply bool_decide_eq_true in Heq. by subst.
Qed.

(** X8.  [POST /api/analytics] with a body that passes the schema and whose
    [contentId] is a number that no content row has as its identifier
    answers 500 and stores nothing. *)
Theorem event_for_missing_content_refused rt (body v : jsobject) (n : Z) (db : Db) :
  Zod.parse rt insertAnalyticsSchema body = inr v →
  body !! "contentId" = Some (JNum n) →
  (∀ r, r ∈ content_rows db → row_id r ≠ Some n) →
  fst (POST_api_analytics rt body db)
  = Response 500 (Failure "Failed to create analytics event")
  ∧ ∀ t, rows t (snd (POST_api_analytics rt body db)) = rows t db.
Proof.
  intros Hp Hb Hnone. apply (dangling_reference rt body v "contentId" Content n db); try done.
  apply list_elem_of_further, list_elem_of_here.
Qed.

(** One request leaves the users table and its sequence alone. *)
Lemma registerRoutes_users rt (req : request) (db : Db) :
  rows Users (snd (registerRoutes rt req db)) = rows Users db
  ∧ nextval Users (snd (registerRoutes rt req db)) = nextval Users db.
Proof.
  destruct (registerRoutes rt req db) as [resp db'] eqn:Hreq. cbn [snd].
  apply registerRoutes_statement in Hreq
    as [->|[(tb & values & o & Hins & Htb)|[(tb & set & id & o & Hupd & Htb)
       |(tb & id & o & Hdel & Htb)]]]; [done|..].
  - apply (db_insert_frame _ _ _ _ _ _ Hins).
    by destruct Htb as [[-> _]|[->|[-> _]]].
  - destruct (db_update_frame _ _ _ _ _ _ Hupd) as [Hn Hr]. split; [|done].
    apply Hr. by destruct Htb as [[-> _]|[-> _]].
  - destruct (db_delete_frame _ _ _ _ _ Hdel) as (Hn & Hr & _). split; [|done].
    apply Hr. by destruct Htb as [-> | ->].
Qed.

(** X9.  No route stores a user: in every store that the routes reach from
    the empty one the users table is empty and its sequence is at 1.  So
    there a [POST /api/analytics] whose body passes the schema and carries a
    number as [userId] always answers 500 and stores nothing. *)
Theorem no_route_stores_a_user (reqs : list (runtime * request)) :
  let db := serve reqs empty_db in
  users_rows db = [] ∧ users_seq db = 1
  ∧ ∀ rt (body v : jsobject) (n : Z),
      Zod.parse rt insertAnalyticsSchema body = inr v →
      body !! "userId" = Some (JNum n) →
      fst (POST_api_analytics rt body db)
      = Response 500 (Failure "Failed to create analytics event")
      ∧ ∀ t, rows t (snd (POST_api_analytics rt body db)) = rows t db.
Proof.
  cbn zeta.
  assert (Hinv : rows Users (serve reqs empty_db) = [] ∧ nextval Users (serve reqs empty_db) = 1).
  { unfold serve.
    assert (Hinit : rows Users empty_db = [] ∧ nextval Users empty_db = 1) by done.
    revert Hinit. generalize empty_db.
    induction reqs as [|[rt req] reqs IH]; intros db Hdb; [done|].
    simpl. apply IH. destruct (registerRoutes_users rt req db) as [-> ->]. exact Hdb. }
  destruct Hinv as [Hrows Hseq]. split; [exact Hrows|]. split; [exact Hseq|].
  intros rt body v n Hp Hb.
  apply (dangling_reference rt body v "userId" Users n); try done.
  - do 3 apply list_elem_of_further. apply list_elem_of_here.
  - intros r Hr. rewrite Hrows in Hr. by apply elem_of_nil in Hr.
Qed.

(** X10.  A stored event counts as a view exactly when its [eventType] is
    [view].  When [POST /api/analytics] answers 200, the [totalViews] of
    [getAnalytics], the decimal text of a number, is the text of one more
    than before if the body's [eventType] is the string [view] and the same
    as before otherwise; [totalContent] and [popularContent] are as
    before. *)
Theorem view_events_are_counted rt (body ev : jsobject) (db db' : Db) :
  POST_api_analytics rt body db = (Response 200 (Row ev), db') →
  ∃ a a',
    getAnalytics db = (Ok a, db) ∧ getAnalytics db' = (Ok a', db')
    ∧ let views := Z.of_nat (length (filter is_view (analytics_rows db))) in
      totalViews a = JStr (pretty views)
      ∧ (body !! "eventType" = Some (JStr "view") → totalViews a' = JStr (pretty (views + 1)))
      ∧ (body !! "eventType" ≠ Some (JStr "view") → totalViews a' = totalViews a)
      ∧ totalContent a' = totalContent a
      ∧ popularContent a' = popularContent a.
Proof.
  intros Hreq.
  apply POST_api_analytics_inv in Hreq
    as [(errs & _ & ? & _)|(v & Hp & [[? _]|(Hev & -> & _)])]; [discriminate..|].
  injection Hev as ->.
  eexists _, _. split; [reflexivity|]. split; [reflexivity|].
  cbn [totalViews totalContent popularContent]. cbv zeta. rewrite !or_zero_count.
  cbn [tname analytics content]. rewrite rows_set_rows.
  rewrite rows_set_rows_ne, rows_advance by done.
  set (ev := insert_row rt db analytics v).
  assert (Hty : ev !! "eventType" = body !! "eventType").
  { pose proof (insert_row_lookup rt db analytics v (notNull (text "eventType"))
                  analytics_names_NoDup) as Hrow.
    cbn [cname notNull text] in Hrow. fold ev in Hrow.
    rewrite Hrow by (do 2 apply list_elem_of_further; apply list_elem_of_here).
    destruct (parse_required rt _ body v "eventType" _ Hp
                ltac:(do 1 apply list_elem_of_further; apply list_elem_of_here) eq_refl)
      as [x Hx].
    rewrite Hx. cbn [from_option].
    rewrite (analytics_event_held rt body v (notNull (text "eventType")) x Hp)
      by (done || in_columns).
    symmetry.
    exact (validated_same rt analytics _ body v "eventType" x (or_introl Hp) Hx). }
  assert (Hview : is_view ev ↔ body !! "eventType" = Some (JStr "view")).
  { unfold is_view, text_is. rewrite Hty.
    destruct (body !! "eventType") as [[]|]; try (split; discriminate).
    split; intros Heq.
    - apply bool_decide_eq_true in Heq. by subst.
    - injection Heq as ->. by apply bool_decide_eq_true. }
  rewrite filter_app. unfold count. rewrite length_app, Nat2Z.inj_add. cbn [rows].
  split; [done|].
  split; [|split; [|done]]; intros Hb.
  - rewrite filter_cons, decide_True by (by apply Hview). done.
  - rewrite filter_cons, decide_False by (by rewrite Hview). simpl.
    by rewrite Z.add_0_r.
Qed.

End events.

(** ** The upcoming-content routes *)

Section upcoming.
Import Schema Store Storage Shared Routes.

(** A string sent for a [text] column, and an array of strings sent for a
    [text[]] column, are held as they are. *)
Lemma held_string (c : column) (s : string) : ctype c = CText → held c (JStr s) = JStr s.
Proof. unfold held, stored. intros ->. by destruct (has_nul s). Qed.

Lemma held_strings (c : column) (l : list string) :
  ctype c = CTextArray → held c (JArr (JStr <$> l)) = JArr (JStr <$> l).
Proof.
  unfold held, stored. intros ->. rewrite stored_strings by (by induction l).
  by destruct (forallb no_nul _).
Qed.

(** A timestamp column holds dates only. *)
Lemma stored_timestamp (c : column) (v o : jsval) :
  ctype c = CTimestamp → stored c v = Some o →
  o = JNull ∨ ∃ t, v = JDate (Some t) ∧ storable_instant t ∧ o = JDate (Some (read_back t)).
Proof.
  unfold stored. intros -> Hs. destruct v as [| | | | | |[t|]]; simplify_eq/=; auto.
  case_bool_decide; simplify_eq/=. right. eauto.
Qed.

(** The release date is the only timestamp of the announcements that an
    insert can set to a date other than the current one. *)
Lemma upcoming_releaseDate (c : column) :
  c ∈ tcolumns upcomingContent → ctype c ≠ CTimestamp → cname c ≠ "releaseDate".
Proof.
  intros Hc Hty Hn. apply Hty.
  by rewrite (column_by_name upcomingContent c (notNull (timestamp "releaseDate"))
                upcoming_names_NoDup Hc ltac:(in_columns) Hn).
Qed.

(** What [POST /api/upcoming-content] does, by the outcome of the insert:
    the values it sends are the body itself, with [new Date] of its
    [releaseDate]. *)
Lemma POST_api_upcoming_content_inv rt (body : jsobject) (db db' : Db) resp :
  POST_api_upcoming_content rt body db = (resp, db') →
  let data := <["releaseDate" := JS.new_Date rt (body !! "releaseDate")]> body in
  let row := insert_row rt db upcomingContent data in
  (resp = Response 500 (Failure "Failed to create upcoming content")
   ∧ upcoming_rows db' = upcoming_rows db)
  ∨ (resp = Response 200 (Row row)
     ∧ accepts_all upcomingContent data = true
     ∧ db' = set_rows UpcomingContent (upcoming_rows db ++ [row])
               (if draws_serial upcomingContent data then advance UpcomingContent db else db)
     ∧ Forall (λ c, not_null_ok c (row !! cname c) = true) (tcolumns upcomingContent)).
Proof.
  intros Hreq. cbv zeta.
  unfold POST_api_upcoming_content, try_catch, bind, createUpcomingContent in Hreq.
  set (data := <["releaseDate" := JS.new_Date rt (body !! "releaseDate")]> body) in *.
  destruct (db_insert rt upcomingContent data db) as [o d] eqn:Hi.
  apply db_insert_inv in Hi as [(m & -> & Hd)|(-> & Hacc & -> & Hcons)].
  - left. simplify_eq. split; [done|]. change (upcoming_rows ?x) with (rows UpcomingContent x).
    destruct Hd as [->| ->]; [done|].
    destruct (draws_serial upcomingContent data); [by rewrite rows_advance|done].
  - right. unfold ret in Hreq. apply pair_equal_spec in Hreq as [<- <-].
    split; [done|]. split; [done|]. split; [done|].
    eapply Forall_impl; [exact Hcons|]. by intros c (? & _).
Qed.

(** The row holds what the body gave for a column that is no timestamp, as
    the store holds it. *)
Lemma upcoming_row_given rt (body : jsobject) (db : Db) c v :
  c ∈ tcolumns upcomingContent → ctype c ≠ CTimestamp →
  body !! cname c = Some v →
  insert_row rt db upcomingContent
    (<["releaseDate" := JS.new_Date rt (body !! "releaseDate")]> body) !! cname c
  = Some (held c v).
Proof.
  intros Hc Hty Hb.
  rewrite (insert_row_lookup rt db upcomingContent _ c upcoming_names_NoDup Hc).
  rewrite lookup_insert_ne by (apply not_eq_sym; by apply upcoming_releaseDate).
  by rewrite Hb.
Qed.

(** The sequence is drawn from exactly when the body gives no [id]. *)
Lemma upcoming_draws_serial (data : jsobject) :
  draws_serial upcomingContent data
  = match data !! "id" with Some _ => false | None => true end.
Proof.
  unfold draws_serial.
  cbn [existsb tcolumns upcomingContent ctype cname primaryKey serial notNull text array
         integer timestamp default defaultNow orb].
  by destruct (data !! "id").
Qed.

(** X11.  [POST /api/upcoming-content] checks nothing of the body.  It
    answers 500 and stores no row, or 200 with the stored row, never 400.
    The stored row holds what the body gave as the store holds it: a string
    for a text column, a number for an integer column (the identifier
    included) and an array of strings for the genres are held as given; a
    number for a text column is held as its decimal text; the release date is
    [new Date] of the body's [releaseDate], an instant of the years 1 to
    9999, as the store gives it back.  When the body gives an [id], the
    sequence is not drawn from; when it gives none, the row gets the next
    value of the sequence. *)
Theorem POST_upcoming_takes_body_unchecked rt (body : jsobject) (db : Db) :
  let resp := fst (POST_api_upcoming_content rt body db) in
  let db' := snd (POST_api_upcoming_content rt body db) in
  (resp = Response 500 (Failure "Failed to create upcoming content")
   ∧ upcoming_rows db' = upcoming_rows db)
  ∨ (∃ row, resp = Response 200 (Row row)
       ∧ upcoming_rows db' = upcoming_rows db ++ [row]
       ∧ (∀ c s, c ∈ tcolumns upcomingContent → ctype c = CText →
            body !! cname c = Some (JStr s) → row !! cname c = Some (JStr s))
       ∧ (∀ c n, c ∈ tcolumns upcomingContent → ctype c = CInteger ∨ ctype c = CSerial →
            body !! cname c = Some (JNum n) → row !! cname c = Some (JNum n))
       ∧ (∀ c l, c ∈ tcolumns upcomingContent → ctype c = CTextArray →
            body !! cname c = Some (JArr (JStr <$> l)) →
            row !! cname c = Some (JArr (JStr <$> l)))
       ∧ (∀ c n, c ∈ tcolumns upcomingContent → ctype c = CText →
            - 2 ^ 53 < n < 2 ^ 53 →
            body !! cname c = Some (JNum n) → row !! cname c = Some (JStr (pretty n)))
       ∧ (∃ t, JS.new_Date rt (body !! "releaseDate") = JDate (Some t)
               ∧ storable_instant t
               ∧ row !! "releaseDate" = Some (JDate (Some (read_back t))))
       ∧ (is_Some (body !! "id") → upcoming_seq db' = upcoming_seq db)
       ∧ (body !! "id" = None →
            row !! "id" = Some (JNum (upcoming_seq db))
            ∧ upcoming_seq db' = upcoming_seq db + 1)).
Proof.
  cbn zeta. destruct (POST_api_upcoming_content rt body db) as [resp db'] eqn:Hreq.
  cbn [fst snd].
  apply POST_api_upcoming_content_inv in Hreq as [?|(-> & Hacc & -> & Hnn)]; [by left|].
  right. set (data := <["releaseDate" := JS.new_Date rt (body !! "releaseDate")]> body) in *.
  exists (insert_row rt db upcomingContent data). split; [done|].
  assert (Hdraw : draws_serial upcomingContent data
                  = match body !! "id" with Some _ => false | None => true end).
  { rewrite upcoming_draws_serial. unfold data. by rewrite lookup_insert_ne. }
  split; [|split; [|split; [|split; [|split; [|split; [|split]]]]]].
  - change (upcoming_rows ?x) with (rows UpcomingContent x). by rewrite rows_set_rows.
  - intros c s Hc Hty Hb. subst data.
    rewrite (upcoming_row_given rt body db c _ Hc) by (done || congruence).
    by rewrite held_string.
  - intros c n Hc Hty Hb. subst data.
    rewrite (upcoming_row_given rt body db c _ Hc) by (done || (destruct Hty; congruence)).
    by rewrite held_number.
  - intros c l Hc Hty Hb. subst data.
    rewrite (upcoming_row_given rt body db c _ Hc) by (done || congruence).
    by rewrite held_strings.
  - intros c n Hc Hty _ Hb. subst data.
    rewrite (upcoming_row_given rt body db c _ Hc) by (done || congruence).
    unfold held, stored. by rewrite Hty.
  - pose proof (insert_row_lookup rt db upcomingContent data
                  (notNull (timestamp "releaseDate")) upcoming_names_NoDup) as Hdate.
    cbn [cname notNull timestamp] in Hdate. rewrite Hdate by in_columns.
    unfold data at 1. rewrite lookup_insert_eq. cbn [from_option].
    unfold accepts_all in Hacc. rewrite forallb_forall in Hacc.
    assert (Hin : notNull (timestamp "releaseDate") ∈ tcolumns upcomingContent) by in_columns.
    specialize (Hacc _ (proj1 (list_elem_of_In _ _) Hin)).
    cbn [cname notNull timestamp] in Hacc. unfold data in Hacc.
    rewrite lookup_insert_eq in Hacc. cbn [from_option] in Hacc.
    apply accepts_stored in Hacc.
    destruct (stored_timestamp (notNull (timestamp "releaseDate")) _ _ eq_refl Hacc)
      as [Hnull|(t & Ht & Hst & Hheld)].
    + apply held_null in Hnull. by destruct (body !! "releaseDate") as [[]|].
    + exists t. split; [done|]. split; [done|]. by rewrite Hheld.
  - intros [x Hx]. rewrite Hdraw, Hx.
    apply (nextval_set_rows _ UpcomingContent).
  - intros Hid. split.
    + rewrite (insert_row_default rt db upcomingContent data (primaryKey (serial "id")) "id"
                 upcoming_names_NoDup); [done|in_columns|done|].
      unfold data. by rewrite lookup_insert_ne.
    + rewrite Hdraw, Hid.
      change (upcoming_seq ?x) with (nextval UpcomingContent x).
      by rewrite nextval_set_rows, nextval_advance.
Qed.

(** The results of a list of successes are collected as they are. *)
Lemma collect_fmap_inr {A} (l : list A) : Zod.collect (inr <$> l) = inr l.
Proof.
  unfold Zod.collect.
  assert (Herr : omap (λ r : list Zod.issue + A,
                         match r with inl errs => Some errs | inr _ => None end) (inr <$> l)
                 = []) by (induction l; [done|by simpl]).
  rewrite Herr. clear Herr. f_equal. induction l as [|a l IH]; [done|]. simpl. f_equal. exact IH.
Qed.

(** A body that holds none of the keys of a schema parses, under the partial
    schema, to the empty object. *)
Lemma parse_nothing rt (shape : Zod.zobject) (body : jsobject) :
  (∀ k, k ∈ Zod.keys shape → body !! k = None) →
  Zod.parse rt (Zod.partial shape) body = inr ∅.
Proof.
  intros Hnone. unfold Zod.parse, Zod.partial. cbv zeta.
  match goal with
  | |- context [Zod.collect ?l] =>
      assert (Hf : l = inr <$> ((λ kf : string * Zod.zfield, (fst kf, @None jsval)) <$> shape))
  end.
  { rewrite <- !list_fmap_compose. apply list_fmap_ext.
    intros i [k f] Hi. simpl. rewrite Hnone; [done|].
    unfold Zod.keys. apply list_elem_of_fmap. exists (k, f). split; [done|].
    by eapply list_elem_of_lookup_2. }
  rewrite Hf, collect_fmap_inr. f_equal.
  assert (Hemp : omap (λ '(k, o), pair k <$> o)
                   ((λ kf : string * Zod.zfield, (fst kf, @None jsval)) <$> shape) = []).
  { clear. induction shape as [|[k f] l IH]; [done|]. by simpl. }
  by rewrite Hemp.
Qed.

(** X12.  [PUT /api/upcoming-content/:id] with a body that holds none of
    the properties of the insert schema, the empty object for one, answers
    500 whatever the identifier: nothing is left to set, and the update is
    refused before it reaches the store. *)
Theorem PUT_upcoming_without_fields rt (s : string) (body : jsobject) (db : Db) :
  (∀ k, k ∈ Zod.keys insertUpcomingContentSchema → body !! k = None) →
  PUT_api_upcoming_content_id rt s body db
  = (Response 500 (Failure "Failed to update upcoming content"), db).
Proof.
  intros Hnone.
  unfold PUT_api_upcoming_content_id, try_catch, bind, parse.
  rewrite (parse_nothing rt _ body Hnone). unfold ret at 1.
  unfold updateUpcomingContent, bind, db_update.
  rewrite bool_decide_eq_true_2 by apply map_size_empty. done.
Qed.

(** X13.  No table refers to the announcements, so the store never refuses
    to delete one.  For a 32-bit path identifier, [DELETE
    /api/upcoming-content/:id] removes the rows of that identifier and
    answers [{success: true}] when there was one, 404 when there was none;
    a [GET] of the identifier then answers 404. *)
Theorem DELETE_upcoming_never_refused (s : string) (n : Z) (db : Db) :
  valid_id (JS.parseInt s) = Some n →
  let resp := fst (DELETE_api_upcoming_content_id s db) in
  let db' := snd (DELETE_api_upcoming_content_id s db) in
  db' = set_rows UpcomingContent (filter (λ r, has_id n r = false) (upcoming_rows db)) db
  ∧ ((resp = Response 200 Success ∧ ∃ r, r ∈ upcoming_rows db ∧ has_id n r = true)
     ∨ (resp = Response 404 (Failure "Upcoming content not found")
        ∧ ∀ r, r ∈ upcoming_rows db → has_id n r = false))
  ∧ GET_api_upcoming_content_id s db'
    = (Response 404 (Failure "Upcoming content not found"), db').
Proof.
  intros Hid. cbn zeta.
  assert (Href : referenced upcomingContent n db = false) by (vm_compute; reflexivity).
  assert (Hdel : DELETE_api_upcoming_content_id s db
                 = (if bool_decide (0 < Z.of_nat (length (filter (λ r, has_id n r = true)
                                                             (upcoming_rows db))))
                    then Response 200 Success
                    else Response 404 (Failure "Upcoming content not found"),
                    set_rows UpcomingContent
                      (filter (λ r, has_id n r = false) (upcoming_rows db)) db)).
  { unfold DELETE_api_upcoming_content_id, try_catch, bind, deleteUpcomingContent, bind,
      db_delete.
    rewrite Hid, Href, andb_false_r. unfold ret. cbn [tname upcomingContent rows].
    by destruct (bool_decide (0 < _)). }
  rewrite Hdel. cbn [fst snd]. split; [done|]. split.
  - destruct (filter (λ r, has_id n r = true) (upcoming_rows db)) as [|r l] eqn:Hf.
    + right. split; [done|]. intros r Hr. destruct (has_id n r) eqn:Hr'; [|done].
      exfalso. eapply filter_some; [|exact Hf]. eauto.
    + left. split; [done|]. exists r.
      assert (Hin : r ∈ filter (λ r, has_id n r = true) (upcoming_rows db))
        by (rewrite Hf; apply list_elem_of_here).
      by apply list_elem_of_filter in Hin as [? ?].
  - unfold GET_api_upcoming_content_id, try_catch, bind, getUpcomingContentById, bind,
      db_select_by_id.
    rewrite Hid. unfold ret. cbn [tname upcomingContent]. rewrite rows_set_rows.
    assert (Hgone : filter (λ r, has_id n r = true)
                      (filter (λ r, has_id n r = false) (upcoming_rows db)) = []).
    { apply filter_none. intros r Hr. by apply list_elem_of_filter in Hr as [? _]. }
    by rewrite Hgone.
Qed.

End upcoming.

(** ** The fields that only the server sets *)

Section client_fields.
Import Schema Store Storage Shared Routes.


End client_fields.

(** ** Users *)

Section user_rows.
Import Schema Store Storage Shared Routes.

Lemma filter_text_none col s (l : list jsobject) :
  (∀ r, r ∈ l → text_is col s r = false) →
  filter (λ r, text_is col s r = true) l = [].
Proof.
  induction l as [|r l IH]; intros Hnone; [done|].
  rewrite filter_cons, decide_False.
  - apply IH. intros r' Hr'. by apply Hnone, list_elem_of_further.
  - rewrite Hnone by apply list_elem_of_here. done.
Qed.

(** The row that an insert into the users table makes of a name and a
    password, and when the store takes the two. *)
Lemma user_row rt (u p : string) (d : Db) :
  insert_row rt d users {[ "username" := JStr u; "password" := JStr p ]}
  = {[ "id" := JNum (users_seq d); "username" := JStr u; "password" := JStr p ]}.
Proof.
  unfold insert_row, default_value.
  cbn [tcolumns users fmap list_fmap cname ctype cdefault primaryKey unique notNull serial
         text tname nextval].
  lookup_payload. cbn [from_option]. rewrite !held_string by done.
  vm_compute. reflexivity.
Qed.

Lemma user_accepted (u p : string) :
  accepts_all users {[ "username" := JStr u; "password" := JStr p ]}
  = negb (has_nul u) && negb (has_nul p).
Proof.
  unfold accepts_all.
  cbn [forallb tcolumns users cname primaryKey unique notNull serial text].
  lookup_payload. cbn [from_option]. unfold accepts, stored.
  cbn [ctype primaryKey unique notNull serial text].
  destruct (has_nul u), (has_nul p); reflexivity.
Qed.

(** X14.  Create a user, then look it up.  In a store whose users sequence
    is ahead and within 32 bits and where the name is not taken,
    [createUser] with a name and a password that the store can hold (neither
    holds U+0000) stores the row made of the next identifier, the name and
    the password and returns it; [getUserByUsername] of the name and
    [getUser] of the identifier then return that row; and a second
    [createUser] with the same name, whatever the password, is refused by
    the store. *)
Theorem createUser_then_found rt (u p : string) (db : Db) :
  has_nul u = false →
  has_nul p = false →
  sequence_ahead Users db →
  Zod.is_int4 (users_seq db) = true →
  (∀ r, r ∈ users_rows db → r !! "username" ≠ Some (JStr u)) →
  let row : jsobject :=
    {[ "id" := JNum (users_seq db); "username" := JStr u; "password" := JStr p ]} in
  let db' := set_rows Users (users_rows db ++ [row]) (advance Users db) in
  createUser rt {[ "username" := JStr u; "password" := JStr p ]} db = (Ok row, db')
  ∧ getUserByUsername u db' = (Ok (Some row), db')
  ∧ getUser (Num (users_seq db)) db' = (Ok (Some row), db')
  ∧ ∀ p', ∃ msg, fst (createUser rt {[ "username" := JStr u; "password" := JStr p' ]} db')
                 = Throw (StoreError msg).
Proof.
  intros Hu Hp Hseq Hint Hfree row db'.
  assert (Hdraw : ∀ q, draws_serial users {[ "username" := JStr u; "password" := JStr q ]} = true)
    by (intros q; vm_compute; reflexivity).
  assert (Hold_id : ∀ r, r ∈ users_rows db → has_id (users_seq db) r = false).
  { intros r Hr. apply bool_decide_eq_false. intros Hid.
    specialize (Hseq r _ Hr Hid). cbn [nextval] in Hseq. lia. }
  assert (Hold_name : ∀ r, r ∈ users_rows db → text_is "username" u r = false).
  { intros r Hr. specialize (Hfree r Hr). unfold text_is.
    destruct (r !! "username") as [[]|]; try done.
    apply bool_decide_eq_false. congruence. }
  assert (Hrow_id : has_id (users_seq db) row = true).
  { unfold has_id, row_id.
    assert (row !! "id" = Some (JNum (users_seq db))) as -> by (vm_compute; reflexivity).
    by apply bool_decide_eq_true. }
  assert (Hrow_name : text_is "username" u row = true).
  { unfold text_is.
    assert (row !! "username" = Some (JStr u)) as -> by (vm_compute; reflexivity).
    by apply bool_decide_eq_true. }
  split; [|split; [|split]].
  - unfold createUser, db_insert. rewrite user_accepted, Hu, Hp, Hdraw, user_row.
    fold row. cbn [negb andb tname users].
    match goal with |- (if ?b then _ else _) = _ => assert (Hb : b = true); [|by rewrite Hb] end.
    apply forallb_forall. intros c Hc. apply list_elem_of_In in Hc.
    cbn [tcolumns users] in Hc.
    repeat (apply elem_of_cons in Hc as [->|Hc]); [..|by apply elem_of_nil in Hc].
    + assert (row !! "id" = Some (JNum (users_seq db))) as Hid by (vm_compute; reflexivity).
      cbn [cname primaryKey serial]. rewrite Hid.
      unfold not_null_ok, reference_ok, unique_ok.
      cbn [cnotNull cprimary cunique creferences cname primaryKey serial negb orb andb is_null].
      apply negb_true_iff, not_true_iff_false. intros Hex.
      apply existsb_exists in Hex as (r & Hr & Heq). apply list_elem_of_In in Hr.
      specialize (Hold_id r Hr). apply bool_decide_eq_false in Hold_id. apply Hold_id.
      unfold row_id. destruct (r !! "id") as [[]|]; try discriminate.
      simpl in Heq. apply bool_decide_eq_true in Heq. by subst.
    + assert (row !! "username" = Some (JStr u)) as Hname by (vm_compute; reflexivity).
      cbn [cname unique notNull text]. rewrite Hname.
      unfold not_null_ok, reference_ok, unique_ok.
      cbn [cnotNull cprimary cunique creferences cname unique notNull text negb orb andb
             is_null].
      apply negb_true_iff, not_true_iff_false. intros Hex.
      apply existsb_exists in Hex as (r & Hr & Heq). apply list_elem_of_In in Hr.
      apply (Hfree r Hr). destruct (r !! "username") as [[]|]; try discriminate.
      simpl in Heq. apply bool_decide_eq_true in Heq. by subst.
    + assert (row !! "password" = Some (JStr p)) as Hpw by (vm_compute; reflexivity).
      cbn [cname notNull text]. rewrite Hpw. done.
  - unfold getUserByUsername, bind, db_select, ret. cbn [tname users]. unfold db'.
    rewrite rows_set_rows, filter_app, filter_cons, decide_True by done.
    by rewrite (filter_text_none "username" u _ Hold_name).
  - unfold getUser, bind, db_select_by_id, valid_id. rewrite Hint. unfold ret.
    cbn [tname users]. unfold db'.
    rewrite rows_set_rows, filter_app, filter_cons, decide_True by done.
    destruct (filter_none (users_seq db) _ Hold_id) as [-> _]. done.
  - intros p'. unfold createUser, db_insert.
    destruct (accepts_all users _); cbn [negb]; [|by eexists].
    rewrite Hdraw, user_row. cbn [tname users].
    match goal with |- ∃ _, fst (if ?b then _ else _) = _ => assert (Hb : b = false);
      [|rewrite Hb; by eexists] end.
    apply not_true_iff_false. intros Hall. rewrite forallb_forall in Hall.
    specialize (Hall (unique (notNull (text "username")))).
    assert (Hin : In (unique (notNull (text "username"))) (tcolumns users))
      by (right; left; done).
    specialize (Hall Hin). apply andb_prop in Hall as [_ Huniq].
    unfold unique_ok in Huniq.
    cbn [cprimary cunique cname unique notNull text negb orb] in Huniq.
    apply negb_true_iff, not_true_iff_false in Huniq. apply Huniq.
    apply existsb_exists. exists row. split.
    + apply list_elem_of_In. unfold db'. rewrite rows_set_rows. set_solver.
    + assert (row !! "username" = Some (JStr u)) as -> by (vm_compute; reflexivity).
      match goal with |- sql_eq _ (?r !! "username") = true =>
        assert (r !! "username" = Some (JStr u)) as -> by (vm_compute; reflexivity)
      end.
      simpl. by apply bool_decide_eq_true.
Qed.

End user_rows.

(** * Properties of the upload forms *)

Section form_lists.
Import Client Text.

Lemma skip_ws_cons a s :
  JS.skip_ws (String a s)
  = if JS.is_ws a then JS.skip_ws s
    else match s with
         | String b s2 =>
             if JS.is_ws2 a b then JS.skip_ws s2
             else match s2 with
                  | String c s3 => if JS.is_ws3 a b c then JS.skip_ws s3 else String a s
                  | EmptyString => String a s
                  end
         | EmptyString => String a s
         end.
Proof. reflexivity. Qed.

Lemma trim_end_cons a s :
  trim_end (String a s)
  = if bool_decide (JS.skip_ws (String a (trim_end s)) = "") then ""
    else String a (trim_end s).
Proof. reflexivity. Qed.

(** Skipping white space makes a string no longer, and leaves none to
    skip. *)
Lemma skip_ws_length s : (String.length (JS.skip_ws s) ≤ String.length s)%nat.
Proof.
  remember (String.length s) as n eqn:Hn. revert s Hn.
  induction (lt_wf n) as [n _ IH]. intros s ->.
  assert (Hrec : ∀ s', (String.length s' < String.length s)%nat →
            (String.length (JS.skip_ws s') ≤ String.length s)%nat).
  { intros s' Hlt. etrans; [by apply (IH _ Hlt)|lia]. }
  destruct s as [|a s]; [done|]. rewrite skip_ws_cons.
  destruct (JS.is_ws a); [apply Hrec; simpl; lia|].
  destruct s as [|b s2]; [done|].
  destruct (JS.is_ws2 a b); [apply Hrec; simpl; lia|].
  destruct s2 as [|c s3]; [done|].
  destruct (JS.is_ws3 a b c); [apply Hrec; simpl; lia|done].
Qed.

Lemma skip_ws_idem s : JS.skip_ws (JS.skip_ws s) = JS.skip_ws s.
Proof.
  remember (String.length s) as n eqn:Hn. revert s Hn.
  induction (lt_wf n) as [n _ IH]. intros s ->.
  destruct s as [|a s]; [done|]. rewrite (skip_ws_cons a s).
  destruct (JS.is_ws a) eqn:Ha; [apply (IH (String.length s)); simpl; lia|].
  destruct s as [|b s2]; [by rewrite skip_ws_cons, Ha|].
  destruct (JS.is_ws2 a b) eqn:Hb; [apply (IH (String.length s2)); simpl; lia|].
  destruct s2 as [|c s3]; [by rewrite skip_ws_cons, Ha, Hb|].
  destruct (JS.is_ws3 a b c) eqn:Hc; [apply (IH (String.length s3)); simpl; lia|].
  by rewrite skip_ws_cons, Ha, Hb, Hc.
Qed.

(** A string that starts with no white space: none of its first one, two
    or three bytes is a white-space character. *)
Lemma skip_ws_fixed a s :
  JS.skip_ws (String a s) = String a s ↔
  JS.is_ws a = false
  ∧ match s with
    | String b s2 =>
        JS.is_ws2 a b = false
        ∧ match s2 with
          | String c s3 => JS.is_ws3 a b c = false
          | EmptyString => True
          end
    | EmptyString => True
    end.
Proof.
  assert (Hshort : ∀ s', (String.length s' < String.length (String a s))%nat →
            JS.skip_ws s' ≠ String a s).
  { intros s' Hlt Heq. pose proof (skip_ws_length s') as Hlen. rewrite Heq in Hlen. lia. }
  rewrite skip_ws_cons. split.
  - intros Heq.
    destruct (JS.is_ws a); [by apply Hshort in Heq; [|simpl; lia]|]. split; [done|].
    destruct s as [|b s2]; [done|].
    destruct (JS.is_ws2 a b); [by apply Hshort in Heq; [|simpl; lia]|]. split; [done|].
    destruct s2 as [|c s3]; [done|].
    destruct (JS.is_ws3 a b c); [by apply Hshort in Heq; [|simpl; lia]|]. done.
  - intros [-> Hs]. destruct s as [|b s2]; [done|]. destruct Hs as [-> Hs].
    destruct s2 as [|c s3]; [done|]. by rewrite Hs.
Qed.

(** What is left of a string once its end is trimmed starts as the string
    does. *)
Lemma trim_end_head a s :
  trim_end (String a s) = "" ∨ trim_end (String a s) = String a (trim_end s).
Proof. rewrite trim_end_cons. case_bool_decide; auto. Qed.

Lemma trim_end_idem s : trim_end (trim_end s) = trim_end s.
Proof.
  induction s as [|a s IH]; [done|]. rewrite (trim_end_cons a s).
  case_bool_decide as Hws; [done|].
  rewrite trim_end_cons, IH. by rewrite bool_decide_eq_false_2.
Qed.

(** Trimming the end of a string that starts with no white space leaves a
    string that starts with none. *)
Lemma skip_ws_trim_end s : JS.skip_ws s = s → JS.skip_ws (trim_end s) = trim_end s.
Proof.
  destruct s as [|a s]; [done|]. intros Hfix.
  apply skip_ws_fixed in Hfix as [Ha Hs].
  destruct (trim_end_head a s) as [->| ->]; [done|].
  apply skip_ws_fixed. split; [done|].
  destruct s as [|b s2]; [done|]. destruct Hs as [Hb Hs].
  destruct (trim_end_head b s2) as [->| ->]; [done|]. split; [done|].
  destruct s2 as [|c s3]; [done|].
  by destruct (trim_end_head c s3) as [->| ->].
Qed.

(** Trimming twice is trimming once. *)
Lemma trim_idem s : trim (trim s) = trim s.
Proof.
  unfold trim.
  rewrite (skip_ws_trim_end (JS.skip_ws s)) by apply skip_ws_idem.
  apply trim_end_idem.
Qed.

(** What the three [add] handlers and the three [remove] handlers do to a
    list whose entries are distinct, non-empty and trimmed. *)
Lemma add_clean (text : string) (l : list string) :
  NoDup l ∧ Forall (λ s, s ≠ "" ∧ trim s = s) l →
  negb (bool_decide (trim text = "")) && negb (bool_decide (trim text ∈ l)) = true →
  NoDup (l ++ [trim text]) ∧ Forall (λ s, s ≠ "" ∧ trim s = s) (l ++ [trim text]).
Proof.
  intros [Hnd Hall] Hcond. apply andb_prop in Hcond as [Hne Hnew].
  apply negb_true_iff, bool_decide_eq_false in Hne, Hnew. split.
  - apply NoDup_app. split; [done|]. split; [|apply NoDup_singleton].
    intros x Hx Hx'. apply list_elem_of_singleton in Hx'. by subst.
  - apply Forall_app. split; [done|]. apply Forall_singleton. split; [done|apply trim_idem].
Qed.

Lemma remove_clean (x : string) (l : list string) :
  NoDup l ∧ Forall (λ s, s ≠ "" ∧ trim s = s) l →
  NoDup (filter (λ s, s ≠ x) l) ∧ Forall (λ s, s ≠ "" ∧ trim s = s) (filter (λ s, s ≠ x) l).
Proof.
  intros [Hnd Hall]. split.
  - by apply NoDup_filter.
  - rewrite Forall_forall in Hall. apply Forall_forall. intros s Hs.
    apply list_elem_of_filter in Hs as [_ Hs]. by apply Hall.
Qed.

Lemma parseInt_or_nonzero (text : string) : parseInt_or Some None text ≠ Some 0.
Proof.
  unfold parseInt_or. destruct (JS.parseInt text) as [n|]; [|done].
  case_bool_decide; congruence.
Qed.

End form_lists.

Section content_form.
Import Client ContentUploadForm ContentUploadFormState Text.

(** One event keeps the form well formed. *)
Lemma dispatch_well_formed (st : State) (e : event) :
  (NoDup (genres (formData st)) ∧ Forall (λ s, s ≠ "" ∧ trim s = s) (genres (formData st)))
  ∧ (NoDup (cast (formData st)) ∧ Forall (λ s, s ≠ "" ∧ trim s = s) (cast (formData st)))
  ∧ (NoDup (tags (formData st)) ∧ Forall (λ s, s ≠ "" ∧ trim s = s) (tags (formData st)))
  ∧ type (formData st) ∈ type_items
  ∧ status (formData st) ∈ status_items
  ∧ rating (formData st) ∈ "" :: rating_items
  ∧ episodes (formData st) ≠ Some 0 →
  let st' := dispatch st e in
  (NoDup (genres (formData st')) ∧ Forall (λ s, s ≠ "" ∧ trim s = s) (genres (formData st')))
  ∧ (NoDup (cast (formData st')) ∧ Forall (λ s, s ≠ "" ∧ trim s = s) (cast (formData st')))
  ∧ (NoDup (tags (formData st')) ∧ Forall (λ s, s ≠ "" ∧ trim s = s) (tags (formData st')))
  ∧ type (formData st') ∈ type_items
  ∧ status (formData st') ∈ status_items
  ∧ rating (formData st') ∈ "" :: rating_items
  ∧ episodes (formData st') ≠ Some 0.
Proof.
  intros (Hg & Hc & Ht & Hty & Hst & Hra & Hep). cbn zeta.
  pose proof Hg as [Hg1 Hg2]. pose proof Hc as [Hc1 Hc2]. pose proof Ht as [Ht1 Ht2].
  destruct e as [text|item|text|text| |genre|text|item|item|text year|text|text|text|text|
                 |member|text| |tag|text|text|text|year];
    cbn [dispatch]; try (by repeat split).
  - unfold select. destruct (type_items !! item) as [v|] eqn:Hv; [|by repeat split].
    apply list_elem_of_lookup_2 in Hv. by repeat split.
  - case_bool_decide; [|by repeat split].
    repeat split; try done. apply parseInt_or_nonzero.
  - unfold addGenre. destruct (negb _ && negb _) eqn:Hcond; [|by repeat split].
    destruct (add_clean _ _ Hg Hcond). by repeat split.
  - destruct (remove_clean genre _ Hg). by repeat split.
  - unfold select. destruct (rating_items !! item) as [v|] eqn:Hv; [|by repeat split].
    apply list_elem_of_lookup_2 in Hv. repeat split; try done.
    by apply list_elem_of_further.
  - unfold select. destruct (status_items !! item) as [v|] eqn:Hv; [|by repeat split].
    apply list_elem_of_lookup_2 in Hv. by repeat split.
  - unfold addCastMember. destruct (negb _ && negb _) eqn:Hcond; [|by repeat split].
    destruct (add_clean _ _ Hc Hcond). by repeat split.
  - destruct (remove_clean member _ Hc). by repeat split.
  - unfold addTag. destruct (negb _ && negb _) eqn:Hcond; [|by repeat split].
    destruct (add_clean _ _ Ht Hcond). by repeat split.
  - destruct (remove_clean tag _ Ht). by repeat split.
  - repeat split; try done; try constructor; by_compute.
Qed.

End content_form.

Section content_submission.
Import Schema Store Storage Shared Routes Client ContentUploadForm ContentUploadFormState Text.

(** X15.  In every state that the events of the rendered content form
    reach from the freshly mounted one, the genres, the cast and the tags
    are lists of distinct strings, none empty and none with white space at
    an end; the type is [movie] or [tv_show], the status [draft] or
    [published], the rating empty or one of the eleven listed; and the
    episode count is never 0.  So when [handleSubmit] starts the mutation
    there, the payload has at least one genre, and it is a movie without an
    episode count or a TV show with a positive one. *)
Theorem content_form_stays_well_formed (year : Z) (events : list event) :
  let fd := formData (run year events) in
  NoDup (genres fd) ∧ NoDup (cast fd) ∧ NoDup (tags fd)
  ∧ Forall (λ s, s ≠ "" ∧ trim s = s) (genres fd ++ cast fd ++ tags fd)
  ∧ type fd ∈ type_items ∧ status fd ∈ status_items ∧ rating fd ∈ "" :: rating_items
  ∧ episodes fd ≠ Some 0
  ∧ ∀ data, handleSubmit fd = Mutate data →
      data !! "genres" = Some (JArr (JStr <$> genres fd)) ∧ genres fd ≠ []
      ∧ ((data !! "type" = Some (JStr "movie") ∧ data !! "episodes" = Some JNull)
         ∨ (data !! "type" = Some (JStr "tv_show")
            ∧ ∃ n, 0 < n ∧ data !! "episodes" = Some (JNum n))).
Proof.
  cbn zeta. unfold run.
  assert (Hinit : (NoDup (genres (formData (initial year)))
                   ∧ Forall (λ s, s ≠ "" ∧ trim s = s) (genres (formData (initial year))))
                  ∧ (NoDup (cast (formData (initial year)))
                     ∧ Forall (λ s, s ≠ "" ∧ trim s = s) (cast (formData (initial year))))
                  ∧ (NoDup (tags (formData (initial year)))
                     ∧ Forall (λ s, s ≠ "" ∧ trim s = s) (tags (formData (initial year))))
                  ∧ type (formData (initial year)) ∈ type_items
                  ∧ status (formData (initial year)) ∈ status_items
                  ∧ rating (formData (initial year)) ∈ "" :: rating_items
                  ∧ episodes (formData (initial year)) ≠ Some 0).
  { repeat split; try done; try constructor; by_compute. }
  revert Hinit. generalize (initial year). intros st Hst.
  assert (Hinv : (NoDup (genres (formData (foldl dispatch st events)))
                  ∧ Forall (λ s, s ≠ "" ∧ trim s = s)
                      (genres (formData (foldl dispatch st events))))
                 ∧ (NoDup (cast (formData (foldl dispatch st events)))
                    ∧ Forall (λ s, s ≠ "" ∧ trim s = s)
                        (cast (formData (foldl dispatch st events))))
                 ∧ (NoDup (tags (formData (foldl dispatch st events)))
                    ∧ Forall (λ s, s ≠ "" ∧ trim s = s)
                        (tags (formData (foldl dispatch st events))))
                 ∧ type (formData (foldl dispatch st events)) ∈ type_items
                 ∧ status (formData (foldl dispatch st events)) ∈ status_items
                 ∧ rating (formData (foldl dispatch st events)) ∈ "" :: rating_items
                 ∧ episodes (formData (foldl dispatch st events)) ≠ Some 0).
  { revert st Hst. induction events as [|e events IH]; intros st Hst; [done|].
    simpl. apply IH. by apply dispatch_well_formed. }
  clear Hst. revert Hinv. generalize (formData (foldl dispatch st events)). intros fd.
  intros ([Hg1 Hg2] & [Hc1 Hc2] & [Ht1 Ht2] & Hty & Hsta & Hra & Hep).
  repeat (split; [done|]). split; [by rewrite !Forall_app|]. repeat (split; [done|]).
  intros data. unfold handleSubmit.
  case_bool_decide as Hlen; [discriminate|].
  destruct (bool_decide (type fd = "tv_show") && no_episodes (episodes fd)) eqn:Hshow;
    [discriminate|].
  intros [= <-]. lookup_payload.
  split; [done|]. split; [by destruct (genres fd)|].
  apply elem_of_cons in Hty as [Hmovie|Hty].
  - left. rewrite Hmovie. split; [done|]. by rewrite bool_decide_eq_false_2.
  - apply list_elem_of_singleton in Hty. right. rewrite Hty in *. split; [done|].
    rewrite bool_decide_eq_true_2 in * by done. cbn [andb] in Hshow.
    unfold no_episodes in Hshow. destruct (episodes fd) as [n|]; [|discriminate].
    apply orb_false_iff in Hshow as [_ Hpos]. apply bool_decide_eq_false in Hpos.
    exists n. split; [lia|done].
Qed.

(** A payload whose every property its field of the schema lets through
    passes the schema. *)
Lemma parse_fields rt (shape : Zod.zobject) (body : jsobject) :
  Forall (λ kf, ∃ o, Zod.zparse_field rt (fst kf) (snd kf) (body !! fst kf) = inr o) shape →
  ∃ v, Zod.parse rt shape body = inr v.
Proof.
  intros Hall. unfold Zod.parse. cbv zeta.
  match goal with
  | |- context [Zod.collect ?l] =>
      assert (Hf : ∃ kvs : list (string * option jsval), l = inr <$> kvs)
  end.
  { induction Hall as [|[k f] shape (o & Ho) _ (kvs & IH)]; [by exists []|].
    exists ((k, o) :: kvs). rewrite !fmap_cons. cbn [fst snd] in Ho. rewrite Ho. by f_equal. }
  destruct Hf as [kvs ->]. rewrite collect_fmap_inr. eauto.
Qed.

(** An array of strings passes the schema of a text array as it is. *)
Lemma zcheck_string_array rt path (l : list string) :
  Zod.zcheck rt (Zod.ZArray Zod.ZString) path (JArr (JStr <$> l)) = inr (JArr (JStr <$> l)).
Proof.
  assert (Himap : ∀ (p : nat → list string),
            imap (λ i x, Zod.zcheck rt Zod.ZString (p i) x) (JStr <$> l) = inr <$> (JStr <$> l)).
  { induction l as [|s l IH]; intros p; [done|].
    rewrite !fmap_cons. cbn [imap]. f_equal. apply (IH (p ∘ S)). }
  change (match Zod.collect (imap (λ i x, Zod.zcheck rt Zod.ZString (path ++ [pretty i]) x)
                               (JStr <$> l)) with
          | inr l' => inr (JArr l')
          | inl errs => inl errs
          end = (inr (JArr (JStr <$> l)) : list Zod.issue + jsval)).
  by rewrite Himap, collect_fmap_inr.
Qed.

(** X16.  The payload that the content form builds is one that [POST
    /api/content] accepts.  When [handleSubmit] starts the mutation with a
    payload in which no string holds U+0000, the release year and the
    episode count being within 32 bits, [POST /api/content] with that
    payload, in a store whose content sequence is ahead, answers 200 with
    the stored row; the row holds every property of the payload as it is,
    the next identifier and the view counter 0.  (The [apiRequest] of
    [queryClient.ts], which the mutation calls, passes on neither its method
    nor its body: the form itself does not send the payload, and the
    property is about the payload and the route.) *)
Theorem content_form_submission_accepted rt (fd : FormData) (data : jsobject) (db : Db) :
  handleSubmit fd = Mutate data →
  nul_free data →
  Zod.is_int4 (releaseYear fd) = true →
  (∀ n, episodes fd = Some n → Zod.is_int4 n = true) →
  sequence_ahead Content db →
  ∃ row db',
    POST_api_content rt data db = (Response 200 (Row row), db')
    ∧ content_rows db' = content_rows db ++ [row]
    ∧ (∀ k x, data !! k = Some x → row !! k = Some x)
    ∧ row !! "id" = Some (JNum (content_seq db))
    ∧ row !! "views" = Some (JNum 0).
Proof.
  unfold handleSubmit. intros Hsub Hnul Hyear Hep Hseq.
  case_bool_decide as Hlen; [discriminate|].
  destruct (bool_decide (type fd = "tv_show") && no_episodes (episodes fd)) eqn:Hshow;
    [discriminate|].
  injection Hsub as Hdata.
  assert (Hparse : ∃ v, Zod.parse rt insertContentSchema data = inr v).
  { apply parse_fields. subst data.
    let l := eval vm_compute in insertContentSchema in change insertContentSchema with l.
    each_column; cbn [fst snd]; lookup_payload; unfold or_null, list_or_null, number_or_null;
      try (eexists; reflexivity);
      try (destruct (bool_decide (_ = "")); eexists; reflexivity).
    - eexists. unfold Zod.zparse_field. cbn [Zod.ftype Zod.fnullable Zod.foptional].
      by rewrite zcheck_string_array.
    - eexists. unfold Zod.zparse_field. cbn [Zod.ftype Zod.fnullable Zod.foptional Zod.zcheck].
      unfold Zod.is_int4, Zod.int4_min, Zod.int4_max in *. apply bool_decide_eq_true in Hyear.
      rewrite !bool_decide_eq_false_2 by lia. reflexivity.
    - destruct (cast fd) as [|c l]; [eexists; reflexivity|].
      eexists. unfold Zod.zparse_field. cbn [Zod.ftype Zod.fnullable Zod.foptional].
      by rewrite (zcheck_string_array rt _ (c :: l)).
    - destruct (tags fd) as [|c l]; [eexists; reflexivity|].
      eexists. unfold Zod.zparse_field. cbn [Zod.ftype Zod.fnullable Zod.foptional].
      by rewrite (zcheck_string_array rt _ (c :: l)).
    - destruct (bool_decide (type fd = "tv_show")); [|eexists; reflexivity].
      destruct (episodes fd) as [n|]; [|eexists; reflexivity].
      specialize (Hep n eq_refl). apply bool_decide_eq_true in Hep.
      eexists. unfold Zod.zparse_field. cbn [Zod.ftype Zod.fnullable Zod.foptional Zod.zcheck].
      unfold Zod.is_int4, Zod.int4_min, Zod.int4_max in *.
      rewrite !bool_decide_eq_false_2 by lia. reflexivity. }
  destruct Hparse as [v Hv].
  assert (Hnul' : nul_free v).
  { intros k x Hk. apply (Hnul k x).
    exact (validated_same rt content _ data v k x (or_introl Hv) Hk). }
  rewrite (POST_api_content_spec rt data db Hseq), Hv.
  rewrite bool_decide_eq_true_2 by done.
  eexists _, _. split; [reflexivity|]. split; [|split; [|split]].
  - change (content_rows ?d) with (rows Content d). by rewrite rows_set_rows.
  - intros k x Hk. apply (content_row_keeps rt data v db); [done|done| |done].
    subst data.
    repeat (rewrite lookup_insert in Hk; case_decide; [subst k; by_compute|]).
    by rewrite lookup_empty in Hk.
  - rewrite (insert_row_default rt db content v (primaryKey (serial "id")) "id"
               content_names_NoDup); [done|apply list_elem_of_here|done|].
    eapply parse_lookup_None; [exact Hv|]. by_compute.
  - rewrite (insert_row_default rt db content v (default (JNum 0) (integer "views")) "views"
               content_names_NoDup);
      [done|do 7 apply list_elem_of_further; apply list_elem_of_here|done|].
    eapply parse_lookup_None; [exact Hv|]. by_compute.
Qed.

End content_submission.

Section upcoming_form.
Import Schema Store Storage Shared Routes Client UpcomingUploadForm UpcomingUploadFormState Text.

(** One event keeps the upcoming form well formed. *)
Lemma dispatch_upcoming_well_formed (st : State) (e : event) :
  (NoDup (genres (formData st)) ∧ Forall (λ s, s ≠ "" ∧ trim s = s) (genres (formData st)))
  ∧ type (formData st) ∈ "" :: type_items
  ∧ episodes (formData st) ≠ Some 0 →
  (NoDup (genres (formData (dispatch st e)))
   ∧ Forall (λ s, s ≠ "" ∧ trim s = s) (genres (formData (dispatch st e))))
  ∧ type (formData (dispatch st e)) ∈ "" :: type_items
  ∧ episodes (formData (dispatch st e)) ≠ Some 0.
Proof.
  intros (Hg & Hty & Hep). pose proof Hg as [Hg1 Hg2].
  destruct e as [text|item|text|text| |genre|text|text|text|text|text| ];
    cbn [dispatch]; try (by repeat split).
  - destruct (type_items !! item) as [v|] eqn:Hv; [|by repeat split].
    apply list_elem_of_lookup_2 in Hv. repeat split; try done.
    by apply list_elem_of_further.
  - case_bool_decide; [|by repeat split].
    repeat split; try done. apply parseInt_or_nonzero.
  - unfold addGenre. destruct (negb _ && negb _) eqn:Hcond; [|by repeat split].
    destruct (add_clean _ _ Hg Hcond). by repeat split.
  - destruct (remove_clean genre _ Hg). by repeat split.
  - repeat split; try done; try constructor; by_compute.
Qed.

(** X17.  In every state that the events of the rendered upcoming form
    reach from the freshly mounted one, the genres are distinct strings,
    none empty and none with white space at an end, the type is empty (no
    item chosen yet), [movie] or [tv_show], and the episode count is never
    0.  When [handleSubmit] starts the mutation there, the form's release
    date is one the engine reads and the payload carries it in ISO form,
    with at least one genre; the type it carries may still be empty. *)
Theorem upcoming_form_stays_well_formed rt (events : list event) :
  let fd := formData (run events) in
  NoDup (genres fd)
  ∧ Forall (λ s, s ≠ "" ∧ trim s = s) (genres fd)
  ∧ type fd ∈ "" :: type_items
  ∧ episodes fd ≠ Some 0
  ∧ ∀ data, handleSubmit rt fd = Mutate data →
      genres fd ≠ []
      ∧ data !! "genres" = Some (JArr (JStr <$> genres fd))
      ∧ data !! "type" = Some (JStr (type fd))
      ∧ ∃ t, Date_parse rt (releaseDate fd) = Some t
             ∧ data !! "releaseDate" = Some (JStr (Date_toISOString rt t)).
Proof.
  cbn zeta. unfold run.
  assert (Hinit : (NoDup (genres (formData initial))
                   ∧ Forall (λ s, s ≠ "" ∧ trim s = s) (genres (formData initial)))
                  ∧ type (formData initial) ∈ "" :: type_items
                  ∧ episodes (formData initial) ≠ Some 0).
  { repeat split; try done; try constructor; by_compute. }
  revert Hinit. generalize initial. intros st Hst.
  assert (Hinv : (NoDup (genres (formData (foldl dispatch st events)))
                  ∧ Forall (λ s, s ≠ "" ∧ trim s = s)
                      (genres (formData (foldl dispatch st events))))
                 ∧ type (formData (foldl dispatch st events)) ∈ "" :: type_items
                 ∧ episodes (formData (foldl dispatch st events)) ≠ Some 0).
  { revert st Hst. induction events as [|e events IH]; intros st Hst; [done|].
    simpl. apply IH. by apply dispatch_upcoming_well_formed. }
  clear Hst. revert Hinv. generalize (formData (foldl dispatch st events)). intros fd.
  intros ([Hg1 Hg2] & Hty & Hep). repeat (split; [done|]).
  intros data. unfold handleSubmit.
  case_bool_decide as Hlen; [discriminate|].
  destruct (bool_decide (type fd = "tv_show") && no_episodes (episodes fd)); [discriminate|].
  destruct (Date_parse rt (releaseDate fd)) as [t|]; [|discriminate].
  intros [= <-]. lookup_payload. split; [by destruct (genres fd)|]. eauto.
Qed.

(** A value of the column's type in which no string holds U+0000 is held
    as it is. *)
Lemma stored_plain (c : column) (v : jsval) :
  no_nul v = true →
  match ctype c, v with
  | _, JNull => True
  | CText, JStr _ => True
  | (CInteger | CSerial), JNum n => Zod.is_int4 n = true
  | CTextArray, JArr l =>
      forallb (λ x, match x with JStr _ => true | _ => false end) l = true
  | _, _ => False
  end →
  stored c v = Some v.
Proof.
  unfold stored. destruct (ctype c), v; simpl; try done; intros Hn Hs.
  - by rewrite Hs.
  - apply negb_true_iff in Hn. by rewrite Hn.
  - by rewrite Hs.
  - rewrite stored_strings by done. by rewrite Hn.
Qed.

Lemma strings_are_strings (l : list string) :
  forallb (λ x, match x with JStr _ => true | _ => false end) (JStr <$> l) = true.
Proof. by induction l. Qed.

(** X18.  The payload that the upcoming form builds is one that [POST
    /api/upcoming-content] stores.  When [handleSubmit] starts the mutation
    with a payload in which no string holds U+0000, the release date being
    an instant of the years 1 to 9999 that the server's engine reads, in its
    ISO form, as the form's engine printed it, and the section order and
    the episode count being within 32 bits, [POST /api/upcoming-content]
    with that payload, in a store whose sequence is ahead, answers 200 with
    the stored row: the row has that instant, as the store gives it back, as
    its release date (the very instant from the year 100 on), the next
    identifier, and every other property of the payload as it is.  (The
    [apiRequest] of [queryClient.ts], which the mutation calls, passes on
    neither its method nor its body: the form itself does not send the
    payload, and the property is about the payload and the route.) *)
Theorem upcoming_form_submission_stored (client server : runtime) (fd : FormData)
    (data : jsobject) (db : Db) :
  handleSubmit client fd = Mutate data →
  nul_free data →
  (∀ t, Date_parse client (releaseDate fd) = Some t →
        storable_instant t ∧ Date_parse server (Date_toISOString client t) = Some t) →
  Zod.is_int4 (sectionOrder fd) = true →
  (∀ n, episodes fd = Some n → Zod.is_int4 n = true) →
  sequence_ahead UpcomingContent db →
  ∃ t row db',
    Date_parse client (releaseDate fd) = Some t
    ∧ POST_api_upcoming_content server data db = (Response 200 (Row row), db')
    ∧ upcoming_rows db' = upcoming_rows db ++ [row]
    ∧ row !! "releaseDate" = Some (JDate (Some (read_back t)))
    ∧ (faithful_instant t → read_back t = t)
    ∧ row !! "id" = Some (JNum (upcoming_seq db))
    ∧ ∀ k x, k ≠ "releaseDate" → data !! k = Some x → row !! k = Some x.
Proof.
  unfold handleSubmit. intros Hsub Hnul Hdate Horder Hep Hseq.
  case_bool_decide as Hlen; [discriminate|].
  destruct (bool_decide (type fd = "tv_show") && no_episodes (episodes fd)) eqn:Hshow;
    [discriminate|].
  destruct (Date_parse client (releaseDate fd)) as [t|]; [|discriminate].
  destruct (Hdate t eq_refl) as [Hstorable Hserver]. clear Hdate. exists t.
  assert (Hinj : ∀ a b, Mutate a = Mutate b → a = b) by (by intros ?? [= ->]).
  apply Hinj in Hsub. clear Hinj.
  unfold POST_api_upcoming_content, try_catch, bind, createUpcomingContent.
  assert (Hrd : data !! "releaseDate" = Some (JStr (Date_toISOString client t)))
    by (by subst data).
  rewrite Hrd. cbn [JS.new_Date]. rewrite Hserver.
  set (values := <["releaseDate" := JDate (Some t)]> data).
  assert (Hst : Forall (λ c, ∀ v, values !! cname c = Some v →
                   stored c v = Some (if bool_decide (cname c = "releaseDate")
                                      then JDate (Some (read_back t)) else v)
                   ∧ v ≠ JNull
                   ∨ (v = JNull ∧ cnotNull c = false ∧ cname c ≠ "releaseDate"
                      ∧ stored c v = Some v))
                  (tcolumns upcomingContent)).
  { assert (Hgiven : ∀ k v, data !! k = Some v → no_nul v = true) by exact Hnul.
    unfold values. subst data.
    each_column;
      cbn [cname cnotNull primaryKey serial notNull text array integer timestamp default
             defaultNow];
      lookup_payload; intros v Hv; try discriminate Hv; injection Hv as <-;
      rewrite ?(bool_decide_eq_false_2 (_ = "releaseDate")) by done.
    - left. split; [|done]. apply stored_plain; [|done]. by apply (Hgiven "title").
    - left. split; [|done]. apply stored_plain; [|done]. by apply (Hgiven "type").
    - left. split; [|done].
      apply stored_plain; [by apply (Hgiven "genres")|apply strings_are_strings].
    - destruct (bool_decide (type fd = "tv_show")); [|by right].
      destruct (episodes fd) as [n|] eqn:En; [|by right].
      left. split; [|done]. apply stored_plain; [done|]. by apply Hep.
    - left. split; [|done]. rewrite bool_decide_eq_true_2 by done.
      unfold stored. cbn [ctype notNull timestamp]. by rewrite bool_decide_eq_true_2.
    - left. split; [|done]. apply stored_plain; [|done]. by apply (Hgiven "description").
    - pose proof (Hgiven "thumbnailUrl" _ eq_refl) as Hn. unfold or_null in Hn |- *.
      destruct (bool_decide (thumbnailUrl fd = "")); [by right|].
      left. split; [|done]. by apply stored_plain.
    - pose proof (Hgiven "trailerUrl" _ eq_refl) as Hn. unfold or_null in Hn |- *.
      destruct (bool_decide (trailerUrl fd = "")); [by right|].
      left. split; [|done]. by apply stored_plain.
    - left. split; [|done]. by apply stored_plain. }
  assert (Hheld : ∀ c v, c ∈ tcolumns upcomingContent → values !! cname c = Some v →
            accepts c v = true
            ∧ held c v = (if bool_decide (cname c = "releaseDate")
                          then JDate (Some (read_back t)) else v)
            ∧ not_null_ok c (Some (held c v)) = true).
  { intros c v Hc Hv. rewrite Forall_forall in Hst.
    destruct (Hst c Hc v Hv) as [[Hs Hnn]|(-> & Hnn & Hne & Hs)].
    - apply stored_accepts in Hs as [Hacc Hh]. split; [done|]. split; [done|].
      unfold not_null_ok. destruct (cnotNull c); [|done]. cbn [negb orb is_null].
      destruct (held c v) eqn:E; try done. by apply held_null in E.
    - apply stored_accepts in Hs as [Hacc Hh]. split; [done|]. split.
      + rewrite Hh. by rewrite bool_decide_eq_false_2.
      + unfold not_null_ok. by rewrite Hnn. }
  assert (Hid : values !! "id" = None) by (unfold values; by subst data).
  assert (Hcreated : values !! "createdAt" = None) by (unfold values; by subst data).
  assert (Hins : db_insert server upcomingContent values db
                 = (Ok (insert_row server db upcomingContent values),
                    set_rows UpcomingContent
                      (upcoming_rows db ++ [insert_row server db upcomingContent values])
                      (advance UpcomingContent db))).
  { apply (db_insert_fresh server upcomingContent values db); try done.
    - unfold accepts_all. apply forallb_forall. intros c Hc. apply list_elem_of_In in Hc.
      destruct (values !! cname c) as [v|] eqn:E; [|done]. cbn [from_option].
      by destruct (Hheld c v Hc E).
    - apply Forall_forall. intros c Hc.
      rewrite (insert_row_lookup server db upcomingContent values c upcoming_names_NoDup Hc).
      destruct (values !! cname c) as [v|] eqn:E; cbn [from_option].
      + destruct (Hheld c v Hc E) as (_ & _ & Hnn). split; [done|].
        pose proof upcoming_plain_columns as Hplain. rewrite Forall_forall in Hplain.
        assert (Hne : cname c ≠ "id") by (intros Heq; rewrite Heq in E; congruence).
        destruct (Hplain c Hc Hne) as [Hkey Href].
        unfold reference_ok. rewrite Href, Hkey. split; [done|]. intros; discriminate.
      + assert (Hdefaults : Forall (λ c, values !! cname c = None →
                    not_null_ok c (Some (default_value server db upcomingContent c)) = true
                    ∧ reference_ok db c (Some (default_value server db upcomingContent c)) = true
                    ∧ (cprimary c || cunique c = true →
                       Some (default_value server db upcomingContent c)
                       = Some (JNum (nextval (tname upcomingContent) db))
                       ∧ cname c = "id" ∧ ctype c = CSerial))
                  (tcolumns upcomingContent)).
        { unfold values. subst data.
          each_column;
            cbn [cname ctype cnotNull cdefault cprimary cunique creferences primaryKey serial
                   notNull text array integer timestamp default defaultNow];
            lookup_payload; intros E'; try discriminate E';
            (split; [|split]); try done; try (intros; discriminate). }
        rewrite Forall_forall in Hdefaults. by apply Hdefaults.
    - apply Exists_cons_hd. done. }
  rewrite Hins. unfold ret. eexists _, _. split; [done|]. split; [reflexivity|].
  split; [|split; [|split; [|split]]].
  - change (upcoming_rows ?d) with (rows UpcomingContent d). by rewrite rows_set_rows.
  - pose proof (insert_row_lookup server db upcomingContent values
                  (notNull (timestamp "releaseDate")) upcoming_names_NoDup) as Hrow.
    cbn [cname notNull timestamp] in Hrow. rewrite Hrow by in_columns.
    assert (Hv : values !! "releaseDate" = Some (JDate (Some t)))
      by (unfold values; by rewrite lookup_insert_eq).
    rewrite Hv. cbn [from_option].
    destruct (Hheld (notNull (timestamp "releaseDate")) _ ltac:(in_columns) Hv)
      as (_ & -> & _).
    done.
  - unfold faithful_instant, read_back, year_50, year_100. intros [Hlo _].
    rewrite !bool_decide_eq_false_2 by (unfold year_100 in Hlo; lia). done.
  - rewrite (insert_row_default server db upcomingContent values (primaryKey (serial "id"))
               "id" upcoming_names_NoDup); [done|apply list_elem_of_here|done|done].
  - intros k x Hne Hk.
    assert (Hcol : k ∈ column_names upcomingContent).
    { subst data. apply elem_of_list_to_map_2 in Hk.
      repeat (apply elem_of_cons in Hk as [[= -> _]|Hk]; [by_compute|]).
      by apply elem_of_nil in Hk. }
    unfold column_names in Hcol. apply list_elem_of_fmap in Hcol as (c & -> & Hc).
    rewrite (insert_row_lookup server db upcomingContent values c upcoming_names_NoDup Hc).
    assert (Hv : values !! cname c = Some x)
      by (unfold values; by rewrite lookup_insert_ne).
    rewrite Hv. cbn [from_option].
    destruct (Hheld c x Hc Hv) as (_ & -> & _). by rewrite bool_decide_eq_false_2.
Qed.

End upcoming_form.

Section list_handlers.
Import Client ContentUploadForm ContentUploadFormState Text.

Lemma filter_added (x : string) (l : list string) :
  x ∉ l → filter (λ s, s ≠ x) (l ++ [x]) = l.
Proof.
  intros Hx. rewrite filter_app, filter_cons, decide_False by (by intros ?).
  rewrite filter_nil, app_nil_r. induction l as [|y l IH]; [done|].
  apply not_elem_of_cons in Hx as [Hne Hx].
  rewrite filter_cons, decide_True by done. f_equal. by apply IH.
Qed.

(** X19.  The list handlers of the content form.  A second [addGenre]
    right after a first changes nothing, whether or not the first added the
    genre; and removing the genre that [addGenre] has just added gives back
    the form data as it was.  The same holds of the cast and of the tags. *)
Theorem add_twice_and_add_remove (st : State) :
  (addGenre (addGenre st) = addGenre st
   ∧ addCastMember (addCastMember st) = addCastMember st
   ∧ addTag (addTag st) = addTag st)
  ∧ (addGenre st ≠ st →
     formData (removeGenre (trim (newGenre st)) (addGenre st)) = formData st)
  ∧ (addCastMember st ≠ st →
     formData (removeCastMember (trim (newCastMember st)) (addCastMember st)) = formData st)
  ∧ (addTag st ≠ st →
     formData (removeTag (trim (newTag st)) (addTag st)) = formData st).
Proof.
  assert (Hdone : ∀ l : list string,
            negb (bool_decide (trim "" = "")) && negb (bool_decide (trim "" ∈ l)) = false)
    by done.
  destruct st as [fd g c t]. split; [split; [|split]|split; [|split]].
  - assert (Hadd : addGenre (mkState fd g c t) = mkState fd g c t
                   ∨ newGenre (addGenre (mkState fd g c t)) = "").
    { unfold addGenre. destruct (negb _ && negb _); auto. }
    destruct Hadd as [Hadd|Hadd]; [by rewrite !Hadd|].
    unfold addGenre at 1. rewrite Hadd. cbv zeta. by rewrite Hdone.
  - assert (Hadd : addCastMember (mkState fd g c t) = mkState fd g c t
                   ∨ newCastMember (addCastMember (mkState fd g c t)) = "").
    { unfold addCastMember. destruct (negb _ && negb _); auto. }
    destruct Hadd as [Hadd|Hadd]; [by rewrite !Hadd|].
    unfold addCastMember at 1. rewrite Hadd. cbv zeta. by rewrite Hdone.
  - assert (Hadd : addTag (mkState fd g c t) = mkState fd g c t
                   ∨ newTag (addTag (mkState fd g c t)) = "").
    { unfold addTag. destruct (negb _ && negb _); auto. }
    destruct Hadd as [Hadd|Hadd]; [by rewrite !Hadd|].
    unfold addTag at 1. rewrite Hadd. cbv zeta. by rewrite Hdone.
  - unfold addGenre. cbn [newGenre formData].
    destruct (negb _ && negb _) eqn:Hadd; [intros _|done].
    apply andb_prop in Hadd as [_ Hnew]. apply negb_true_iff, bool_decide_eq_false in Hnew.
    unfold removeGenre. cbn [formData]. destruct fd. cbn [genres set_genres].
    cbn [genres] in Hnew. by rewrite filter_added.
  - unfold addCastMember. cbn [newCastMember formData].
    destruct (negb _ && negb _) eqn:Hadd; [intros _|done].
    apply andb_prop in Hadd as [_ Hnew]. apply negb_true_iff, bool_decide_eq_false in Hnew.
    unfold removeCastMember. cbn [formData]. destruct fd. cbn [cast set_cast].
    cbn [cast] in Hnew. by rewrite filter_added.
  - unfold addTag. cbn [newTag formData].
    destruct (negb _ && negb _) eqn:Hadd; [intros _|done].
    apply andb_prop in Hadd as [_ Hnew]. apply negb_true_iff, bool_decide_eq_false in Hnew.
    unfold removeTag. cbn [formData]. destruct fd. cbn [tags set_tags].
    cbn [tags] in Hnew. by rewrite filter_added.
Qed.

End list_handlers.

Section schemas.
Import Schema Store Storage Shared Routes.

(** X20.  Whatever a schema lets through, its partial form lets through
    unchanged; so every body that [POST /api/content] accepts, [PUT
    /api/content/:id] accepts as well, with the same validated data. *)
Theorem partial_accepts_what_schema_accepts rt (shape : Zod.zobject) (body v : jsobject) :
  Zod.parse rt shape body = inr v → Zod.parse rt (Zod.partial shape) body = inr v.
Proof.
  unfold Zod.parse. cbv zeta.
  destruct (Zod.collect _) as [errs|kvs] eqn:Hcol; [discriminate|]. intros [= <-].
  apply collect_inr in Hcol.
  match goal with
  | |- context [Zod.collect ?l] => assert (Hsame : l = inr <$> kvs)
  end.
  { rewrite <- Hcol. unfold Zod.partial. rewrite <- list_fmap_compose.
    apply list_fmap_ext. intros i [k f] Hi. cbn [compose].
    assert (Hin : (let '(k, f) := (k, f) in
                   match Zod.zparse_field rt k f (body !! k) with
                   | inr o => inr (k, o)
                   | inl errs => inl errs
                   end) ∈ (inr <$> kvs : list (list Zod.issue + (string * option jsval)))).
    { rewrite <- Hcol. apply list_elem_of_fmap. exists (k, f). split; [done|].
      by eapply list_elem_of_lookup_2. }
    apply list_elem_of_fmap in Hin as (kv & Heq & _).
    unfold Zod.zparse_field in *. cbn [Zod.ftype Zod.fnullable Zod.foptional].
    destruct (body !! k) as [x|]; [done|].
    destruct (Zod.foptional f); [done|discriminate]. }
  by rewrite Hsame, collect_fmap_inr.
Qed.

(** X21.  The user insert schema lets through exactly the bodies whose
    [username] and [password] are strings, and keeps these two properties
    only. *)
Theorem insertUserSchema_exact rt (body v : jsobject) :
  Zod.parse rt insertUserSchema body = inr v
  ↔ ∃ u p, body !! "username" = Some (JStr u) ∧ body !! "password" = Some (JStr p)
           ∧ v = {[ "username" := JStr u; "password" := JStr p ]}.
Proof.
  let l := eval vm_compute in insertUserSchema in change insertUserSchema with l.
  unfold Zod.parse. cbv zeta. cbn [fmap list_fmap].
  unfold Zod.zparse_field. cbn [Zod.ftype Zod.fnullable Zod.foptional].
  split.
  - destruct (body !! "username") as [[| | |u| | |]|];
      destruct (body !! "password") as [[| | |p| | |]|]; try discriminate.
    intros [= <-]. exists u, p. repeat split; try done.
  - intros (u & p & -> & -> & ->). done.
Qed.

(** X22.  An identifier taken by a client blocks the next creation.  [POST
    /api/upcoming-content] stores the [id] its body gives without moving the
    sequence; so in a store where a row already has the next value of the
    sequence as its identifier, every [POST /api/upcoming-content] whose
    body gives no [id], the form's included, answers 500 and stores
    nothing. *)
Theorem taken_identifier_blocks_creation rt (body : jsobject) (db : Db) :
  (∃ r, r ∈ upcoming_rows db ∧ row_id r = Some (upcoming_seq db)) →
  body !! "id" = None →
  fst (POST_api_upcoming_content rt body db)
  = Response 500 (Failure "Failed to create upcoming content")
  ∧ upcoming_rows (snd (POST_api_upcoming_content rt body db)) = upcoming_rows db.
Proof.
  intros (r & Hr & Hrid) Hid.
  destruct (POST_api_upcoming_content rt body db) as [resp db'] eqn:Hreq. cbn [fst snd].
  unfold POST_api_upcoming_content, try_catch, bind, createUpcomingContent in Hreq.
  set (data := <["releaseDate" := JS.new_Date rt (body !! "releaseDate")]> body) in *.
  assert (Hdid : data !! "id" = None) by (unfold data; by rewrite lookup_insert_ne).
  destruct (db_insert rt upcomingContent data db) as [o d] eqn:Hi.
  apply db_insert_inv in Hi as [(m & -> & Hd)|(-> & _ & -> & Hcons)].
  - simplify_eq. split; [done|]. change (upcoming_rows ?x) with (rows UpcomingContent x).
    destruct Hd as [->| ->]; [done|].
    destruct (draws_serial upcomingContent data); [by rewrite rows_advance|done].
  - exfalso. rewrite Forall_forall in Hcons.
    destruct (Hcons (primaryKey (serial "id")) ltac:(apply list_elem_of_here))
      as (_ & _ & Huniq).
    cbn [cname primaryKey serial] in Huniq.
    rewrite (insert_row_default rt db upcomingContent data (primaryKey (serial "id")) "id"
               upcoming_names_NoDup) in Huniq; [|apply list_elem_of_here|done|done].
    unfold unique_ok in Huniq.
    cbn [cprimary cname primaryKey serial orb negb default_value ctype tname upcomingContent
           nextval] in Huniq.
    apply negb_true_iff, not_true_iff_false in Huniq. apply Huniq.
    apply existsb_exists. exists r. split; [by apply list_elem_of_In|].
    unfold row_id in Hrid. destruct (r !! "id") as [[]|]; try discriminate.
    injection Hrid as ->. simpl. by apply bool_decide_eq_true.
Qed.

End schemas.

(** ** The further theorems at sample requests and forms *)

Import Schema Store Storage Shared Routes Client.

(** Creating the sample movie on the empty store, then reading row 1. *)
Lemma POST_then_GET_content_witness :
  GET_api_content_id "1" Sample.one_movie
  = (Response 200 (Row (Sample.row_of (fst (POST_api_content Sample.rt Sample.movie empty_db)))),
     Sample.one_movie).
Proof.
  destruct (POST_then_GET_content Sample.rt Sample.movie
              (Sample.row_of (fst (POST_api_content Sample.rt Sample.movie empty_db)))
              "1" empty_db Sample.one_movie) as [Hget _].
  - apply sequence_ahead_check. vm_compute; reflexivity.
  - vm_compute; reflexivity.
  - vm_compute; reflexivity.
  - vm_compute; reflexivity.
  - exact Hget.
Defined.

(** Deleting the stored movie, then reading it. *)
Lemma DELETE_content_then_absent_witness :
  GET_api_content_id "1" (snd (DELETE_api_content_id "1" Sample.one_movie))
  = (Response 404 (Failure "Content not found"),
     snd (DELETE_api_content_id "1" Sample.one_movie)).
Proof.
  destruct (DELETE_content_then_absent "1" Sample.one_movie
              (snd (DELETE_api_content_id "1" Sample.one_movie))) as [Hget _].
  - vm_compute; reflexivity.
  - exact Hget.
Defined.

(** The movie without genres is answered 400 and the store stays empty. *)
Lemma failed_request_changes_no_row_witness :
  snd (registerRoutes Sample.rt (POST_content Sample.movie_without_genres) empty_db) = empty_db.
Proof.
  destruct (failed_request_changes_no_row Sample.rt (POST_content Sample.movie_without_genres)
              empty_db) as [_ Hsame].
  - vm_compute. discriminate.
  - apply Hsame. left. vm_compute; reflexivity.
Defined.

(** A view of content 1 on the empty store. *)
Lemma event_for_missing_content_refused_witness :
  fst (POST_api_analytics Sample.rt Sample.view_of_1 empty_db)
  = Response 500 (Failure "Failed to create analytics event").
Proof.
  destruct (event_for_missing_content_refused Sample.rt Sample.view_of_1 Sample.view_of_1 1
              empty_db) as [Hresp _].
  - vm_compute; reflexivity.
  - vm_compute; reflexivity.
  - intros r Hr. by apply elem_of_nil in Hr.
  - exact Hresp.
Defined.

(** A view by user 1 after the sample movie was created: there is no
    user. *)
Lemma no_route_stores_a_user_witness :
  fst (POST_api_analytics Sample.rt Scenario.view_by_user_1 Sample.one_movie)
  = Response 500 (Failure "Failed to create analytics event").
Proof.
  destruct (no_route_stores_a_user [(Sample.rt, POST_content Sample.movie)])
    as (_ & _ & Hrefused).
  destruct (Hrefused Sample.rt Scenario.view_by_user_1 Scenario.view_by_user_1 1) as [Hresp _].
  - vm_compute; reflexivity.
  - vm_compute; reflexivity.
  - exact Hresp.
Defined.

(** The first view of the stored movie. *)
Lemma view_events_are_counted_witness :
  ∃ a a',
    getAnalytics Sample.one_movie = (Ok a, Sample.one_movie)
    ∧ getAnalytics Sample.viewed_movie = (Ok a', Sample.viewed_movie)
    ∧ totalViews a = JStr "0"
    ∧ totalViews a' = JStr "1".
Proof.
  destruct (view_events_are_counted Sample.rt Sample.view_of_1
              (Sample.row_of (fst (POST_api_analytics Sample.rt Sample.view_of_1
                                     Sample.one_movie)))
              Sample.one_movie Sample.viewed_movie)
    as (a & a' & Hbefore & Hafter & Hzero & Hview & _).
  - vm_compute; reflexivity.
  - exists a, a'. split; [exact Hbefore|]. split; [exact Hafter|]. split.
    + exact Hzero.
    + apply Hview. vm_compute; reflexivity.
Defined.

(** The announcement with the identifier 1 chosen by the client. *)
Lemma POST_upcoming_takes_body_unchecked_witness :
  ∃ row,
    fst (POST_api_upcoming_content Sample.rt Scenario.with_id_1 empty_db)
    = Response 200 (Row row)
    ∧ row !! "id" = Some (JNum 1)
    ∧ upcoming_seq (snd (POST_api_upcoming_content Sample.rt Scenario.with_id_1 empty_db)) = 1.
Proof.
  destruct (POST_upcoming_takes_body_unchecked Sample.rt Scenario.with_id_1 empty_db)
    as [[Hfailed _]|(row & Hresp & _ & _ & Hkeeps & _ & _ & _ & Hseq & _)].
  - vm_compute in Hfailed. discriminate Hfailed.
  - exists row. split; [exact Hresp|]. split.
    + apply (Hkeeps (primaryKey (serial "id")) 1);
        [apply list_elem_of_here|by right|vm_compute; reflexivity].
    + apply Hseq. vm_compute. eauto.
Defined.

(** The empty body. *)
Lemma PUT_upcoming_without_fields_witness :
  PUT_api_upcoming_content_id Sample.rt "1" ∅ Scenario.one_announcement
  = (Response 500 (Failure "Failed to update upcoming content"), Scenario.one_announcement).
Proof.
  apply (PUT_upcoming_without_fields Sample.rt "1" ∅ Scenario.one_announcement).
  intros k _. apply lookup_empty.
Defined.

(** Deleting the stored announcement, then reading it. *)
Lemma DELETE_upcoming_never_refused_witness :
  GET_api_upcoming_content_id "1"
    (snd (DELETE_api_upcoming_content_id "1" Scenario.one_announcement))
  = (Response 404 (Failure "Upcoming content not found"),
     snd (DELETE_api_upcoming_content_id "1" Scenario.one_announcement)).
Proof.
  destruct (DELETE_upcoming_never_refused "1" 1 Scenario.one_announcement) as (_ & _ & Hget).
  - vm_compute; reflexivity.
  - exact Hget.
Defined.

(** The first account. *)
Lemma createUser_then_found_witness :
  getUserByUsername "admin"
    (set_rows Users
       [ {[ "id" := JNum 1; "username" := JStr "admin"; "password" := JStr "secret" ]} ]
       (advance Users empty_db))
  = (Ok (Some {[ "id" := JNum 1; "username" := JStr "admin"; "password" := JStr "secret" ]}),
     set_rows Users
       [ {[ "id" := JNum 1; "username" := JStr "admin"; "password" := JStr "secret" ]} ]
       (advance Users empty_db)).
Proof.
  destruct (createUser_then_found Sample.rt "admin" "secret" empty_db) as (_ & Hfound & _).
  - vm_compute; reflexivity.
  - vm_compute; reflexivity.
  - apply sequence_ahead_check. vm_compute; reflexivity.
  - vm_compute; reflexivity.
  - intros r Hr. by apply elem_of_nil in Hr.
  - exact Hfound.
Defined.

(** The content form filled with the show, the genre typed with spaces
    around it: the mutation starts, and its payload is of one of the two
    kinds. *)
Lemma content_form_stays_well_formed_witness :
  ∃ data,
    ContentUploadForm.handleSubmit
      (ContentUploadFormState.formData (ContentUploadFormState.run 2024 Scenario.filling_show))
    = Mutate data
    ∧ ((data !! "type" = Some (JStr "movie") ∧ data !! "episodes" = Some JNull)
       ∨ (data !! "type" = Some (JStr "tv_show")
          ∧ ∃ n, 0 < n ∧ data !! "episodes" = Some (JNum n))).
Proof.
  destruct (content_form_stays_well_formed 2024 Scenario.filling_show)
    as (_ & _ & _ & _ & _ & _ & _ & _ & Hsubmit).
  assert (Hmutate : ContentUploadForm.handleSubmit
                      (ContentUploadFormState.formData
                         (ContentUploadFormState.run 2024 Scenario.filling_show))
                    = Mutate (Scenario.payload_of (ContentUploadForm.handleSubmit
                        (ContentUploadFormState.formData
                           (ContentUploadFormState.run 2024 Scenario.filling_show)))))
    by (vm_compute; reflexivity).
  eexists. split; [exact Hmutate|]. exact (proj2 (proj2 (Hsubmit _ Hmutate))).
Defined.

(** The show, submitted to the empty store. *)
Lemma content_form_submission_accepted_witness :
  ∃ row db',
    POST_api_content Sample.rt
      (Scenario.payload_of (ContentUploadForm.handleSubmit Scenario.show)) empty_db
    = (Response 200 (Row row), db')
    ∧ row !! "episodes" = Some (JNum 8).
Proof.
  destruct (content_form_submission_accepted Sample.rt Scenario.show
              (Scenario.payload_of (ContentUploadForm.handleSubmit Scenario.show)) empty_db)
    as (row & db' & Hpost & _ & Hkeeps & _).
  - vm_compute; reflexivity.
  - by_compute.
  - vm_compute; reflexivity.
  - intros n [= <-]. vm_compute; reflexivity.
  - apply sequence_ahead_check. vm_compute; reflexivity.
  - exists row, db'. split; [exact Hpost|]. apply Hkeeps. vm_compute; reflexivity.
Defined.

(** The upcoming form filled without a type chosen: the mutation starts,
    with the type the form holds. *)
Lemma upcoming_form_stays_well_formed_witness :
  ∃ data,
    UpcomingUploadForm.handleSubmit Sample.rt
      (UpcomingUploadFormState.formData (UpcomingUploadFormState.run Scenario.filling_untyped))
    = Mutate data
    ∧ data !! "type"
      = Some (JStr (UpcomingUploadForm.type
                      (UpcomingUploadFormState.formData
                         (UpcomingUploadFormState.run Scenario.filling_untyped)))).
Proof.
  destruct (upcoming_form_stays_well_formed Sample.rt Scenario.filling_untyped)
    as (_ & _ & _ & _ & Hsubmit).
  assert (Hmutate : UpcomingUploadForm.handleSubmit Sample.rt
                      (UpcomingUploadFormState.formData
                         (UpcomingUploadFormState.run Scenario.filling_untyped))
                    = Mutate (Scenario.payload_of (UpcomingUploadForm.handleSubmit Sample.rt
                        (UpcomingUploadFormState.formData
                           (UpcomingUploadFormState.run Scenario.filling_untyped)))))
    by (vm_compute; reflexivity).
  eexists. split; [exact Hmutate|]. exact (proj1 (proj2 (proj2 (Hsubmit _ Hmutate)))).
Defined.

(** The announcement, submitted to the empty store by a form and a server
    on the same engine. *)
Lemma upcoming_form_submission_stored_witness :
  ∃ row db',
    POST_api_upcoming_content Sample.rt
      (Scenario.payload_of (UpcomingUploadForm.handleSubmit Sample.rt Scenario.announcement))
      empty_db
    = (Response 200 (Row row), db')
    ∧ row !! "releaseDate" = Some (JDate (Some 1748736000000))
    ∧ row !! "id" = Some (JNum 1).
Proof.
  destruct (upcoming_form_submission_stored Sample.rt Sample.rt Scenario.announcement
              (Scenario.payload_of
                 (UpcomingUploadForm.handleSubmit Sample.rt Scenario.announcement)) empty_db)
    as (t & row & db' & Ht & Hpost & _ & Hdate & _ & Hid & _).
  - vm_compute; reflexivity.
  - by_compute.
  - intros t Ht. vm_compute in Ht. injection Ht as <-.
    split; [by_compute|vm_compute; reflexivity].
  - vm_compute; reflexivity.
  - intros n Hn. discriminate Hn.
  - apply sequence_ahead_check. vm_compute; reflexivity.
  - exists row, db'. split; [exact Hpost|]. split; [|exact Hid].
    vm_compute in Ht. injection Ht as <-. exact Hdate.
Defined.

(** A genre typed into the freshly mounted content form, added, then
    removed. *)
Lemma add_twice_and_add_remove_witness :
  ContentUploadFormState.formData
    (ContentUploadFormState.removeGenre "Drama"
       (ContentUploadFormState.addGenre
          (ContentUploadFormState.run 2024 [ContentUploadFormState.input_newGenre " Drama "])))
  = ContentUploadFormState.initialFormData 2024.
Proof.
  destruct (add_twice_and_add_remove
              (ContentUploadFormState.run 2024 [ContentUploadFormState.input_newGenre " Drama "]))
    as (_ & Hgenre & _).
  apply Hgenre. vm_compute. discriminate.
Defined.

(** The sample movie, under the schema of [POST] and under that of [PUT]. *)
Lemma partial_accepts_what_schema_accepts_witness :
  Zod.parse Sample.rt (Zod.partial insertContentSchema) Sample.movie = inr Sample.movie.
Proof.
  apply (partial_accepts_what_schema_accepts Sample.rt insertContentSchema).
  vm_compute; reflexivity.
Defined.

(** The identifier 1 taken by a client on the empty store, then the dated
    announcement. *)
Lemma taken_identifier_blocks_creation_witness :
  fst (POST_api_upcoming_content Sample.rt Sample.dated Scenario.taken)
  = Response 500 (Failure "Failed to create upcoming content").
Proof.
  destruct (taken_identifier_blocks_creation Sample.rt Sample.dated Scenario.taken)
    as [Hresp _].
  - destruct (has_row_check 1 (upcoming_rows Scenario.taken)) as (r & Hr & Hid);
      [vm_compute; reflexivity|].
    exists r. split; [exact Hr|]. apply bool_decide_eq_true in Hid. exact Hid.
  - vm_compute; reflexivity.
  - exact Hresp.
Defined.

